(** * The Quartz database facade (xapian-core/backends/quartz/quartz_database.cc)

    A shallow embedding of [QuartzDatabase] and [QuartzWritableDatabase]:
    the two facades that route every read and every indexing mutation to the
    six Quartz tables through a table manager.

    The facades are written against the interface of the table layer
    ([QuartzTableManager] and the per-table managers), whose implementation
    lives in other translation units.  Everything proved about the facades
    holds for every implementation of that interface; one reference
    implementation over finite maps is given to run the facades on concrete
    databases.  The constructors, the settings accessors and the entry
    points that only hand out cursors ([open_post_list], [open_term_list],
    [open_document], [get_collection_freq]) are left out. *)

From Stdlib Require Import NArith ZArith QArith String List Bool Lia Sorted.
From stdpp Require Import gmap strings list fin_maps.

Local Open Scope string_scope.
Local Open Scope list_scope.
Local Open Scope N_scope.

(** ** Semantic types (om/omtypes.h, quartz_types.h)

    The typedefs are unsigned integer types; they are rendered as [N]. *)

Definition om_docid := N.
Definition om_doccount := N.
Definition om_termcount := N.
Definition om_termpos := N.
Definition om_keyno := N.
Definition om_timeout := N.
Definition quartz_doclen_t := N.
Definition om_totlength := N.
Definition om_termname := string.

(** [quartz_doclen_t] is an unsigned integer of 32 bits: a sum that does
    not fit wraps around. *)
Definition quartz_doclen_bits : N := 32.

Definition quartz_doclen_wrap (n : N) : quartz_doclen_t :=
  n mod 2 ^ quartz_doclen_bits.

(** [OmDocumentTerm]: one indexed term of a document. *)
Record OmDocumentTerm : Type := mkOmDocumentTerm {
  tname : om_termname;
  wdf : om_termcount;
  termfreq : om_doccount;
  positions : list om_termpos
}.

(** [OmDocumentContents::document_keys] and [document_terms] are [std::map]s;
    they are kept as association lists in iteration (key) order. *)
Definition document_keys := list (om_keyno * string).
Definition document_terms := list (om_termname * OmDocumentTerm).

Record OmDocumentContents : Type := mkOmDocumentContents {
  data : string;
  keys : document_keys;
  terms : document_terms
}.

(** [std::map::insert]: the pair goes to its place in key order, and an
    entry already stored under the key is left as it is. *)
Fixpoint terms_insert (k : om_termname) (v : OmDocumentTerm)
    (m : document_terms) : document_terms :=
  match m with
  | [] => [(k, v)]
  | (k', v') :: rest =>
      match String.compare k k' with
      | Lt => (k, v) :: m
      | Eq => m
      | Gt => (k', v') :: terms_insert k v rest
      end
  end.

(** ** Errors and outcomes *)

Inductive OmError : Type :=
| OmInvalidOperationError (msg : string)
| OmInternalError (msg : string)
| OmUnimplementedError (msg : string)
| OmDatabaseModifiedError (msg : string)
| OmAssertionError
| OmDocNotFoundError (msg : string)
| OmOtherError (class msg : string).

(** [catch (OmDatabaseModifiedError &e)] *)
Definition is_OmDatabaseModifiedError (e : OmError) : bool :=
  match e with OmDatabaseModifiedError _ => true | _ => false end.

(** How a call ends: with a value, with an exception, or by control reaching
    the closing brace of a value-returning function, in which case the call
    hands no value to its caller. *)
Inductive outcome (A : Type) : Type :=
| Returns (a : A)
| Throws (e : OmError)
| NoReturnValue.

Arguments Returns {A} a.
Arguments Throws {A} e.
Arguments NoReturnValue {A}.

(** State-and-exception monad over the state [TM] of the table manager. *)
Definition M (TM A : Type) : Type := TM -> outcome A * TM.

Definition ret {TM A} (a : A) : M TM A := fun s => (Returns a, s).

Definition throw {TM A} (e : OmError) : M TM A := fun s => (Throws e, s).

Definition flow_off_end {TM A} : M TM A := fun s => (NoReturnValue, s).

Definition bind {TM A B} (m : M TM A) (k : A -> M TM B) : M TM B :=
  fun s =>
    match m s with
    | (Returns a, s') => k a s'
    | (Throws e, s') => (Throws e, s')
    | (NoReturnValue, s') => (NoReturnValue, s')
    end.

(** [try { m } catch (E &e) { h e }], where [handles] tells which exceptions
    are of class [E]; an exception raised by the handler leaves the block. *)
Definition try_catch {TM A} (m : M TM A) (handles : OmError -> bool)
    (h : OmError -> M TM A) : M TM A :=
  fun s =>
    match m s with
    | (Throws e, s') => if handles e then h e s' else (Throws e, s')
    | r => r
    end.

(** [catch (...)] *)
Definition any_error (e : OmError) : bool := true.

Declare Scope quartz_scope.
Delimit Scope quartz_scope with quartz.
Notation "'let*' x := m 'in' k" := (bind m (fun x => k))
  (at level 10, x name, m at level 100, k at level 200) : quartz_scope.
Notation "m ;;; k" := (bind m (fun _ => k))
  (at level 100, k at level 200, right associativity) : quartz_scope.
Local Open Scope quartz_scope.

(** A [for] loop over a container whose body returns nothing. *)
Fixpoint for_each {TM A} (l : list A) (body : A -> M TM unit) : M TM unit :=
  match l with
  | [] => ret tt
  | x :: rest => body x ;;; for_each rest body
  end.

(** [OmLockSentry sentry(quartz_mutex)]: the mutex is taken for the rest of
    the scope and released on every way out of it.  Calls are taken one at a
    time here, so the sentry only marks the guarded scope. *)
Definition OmLockSentry {TM A} (scope : M TM A) : M TM A := scope.

(** ** What the headers outside this file fix

    [Assert] (omdebug.h) is compiled in or out by the build; [om_doclength]
    and the division of a total length by a document count are declared in
    om/omtypes.h and quartz_record.h. *)
Class OmConfig : Type := {
  assertions_enabled : bool;
  om_doclength : Type;
  doclength_zero : om_doclength;
  totlength_div : om_totlength -> om_doccount -> om_doclength
}.

(** [Assert(c)] *)
Definition Assert {config : OmConfig} {TM} (c : bool) : M TM unit :=
  if assertions_enabled && negb c then throw OmAssertionError else ret tt.

(** ** The table layer

    [QuartzTermList]: the cursor holds the term list entry read when it was
    constructed; [next], [at_end], [get_termname] and [get_wdf] walk it. *)
Record QuartzTermList : Type := mkQuartzTermList {
  termlist_doclength : quartz_doclen_t;
  termlist_entries : list (om_termname * om_termcount)
}.

(** The operations of the table manager and of the per-table managers that
    the facades call.  Each may throw and may change the tables. *)
Class QuartzTableManager (TM : Type) : Type := {
  (* QuartzTableManager, QuartzBufferedTableManager *)
  reopen_tables_because_overwritten : M TM unit;
  apply : M TM unit;
  cancel : TM -> TM;
  (* QuartzRecordManager *)
  QuartzRecordManager_get_record : om_docid -> M TM string;
  QuartzRecordManager_get_doccount : M TM om_doccount;
  QuartzRecordManager_get_total_length : M TM om_totlength;
  QuartzRecordManager_add_record : string -> quartz_doclen_t -> M TM om_docid;
  QuartzRecordManager_modify_total_length :
    quartz_doclen_t -> quartz_doclen_t -> M TM unit;
  QuartzRecordManager_delete_record : om_docid -> M TM unit;
  (* QuartzAttributesManager *)
  QuartzAttributesManager_get_all_attributes : om_docid -> M TM document_keys;
  QuartzAttributesManager_add_attribute :
    string -> om_docid -> om_keyno -> M TM unit;
  (* QuartzTermList *)
  QuartzTermList_new : om_docid -> om_doccount -> M TM QuartzTermList;
  QuartzTermList_get_termfreq : om_termname -> M TM om_doccount;
  QuartzTermList_set_entries :
    om_docid -> document_terms -> quartz_doclen_t -> bool -> M TM unit;
  QuartzTermList_delete_termlist : om_docid -> M TM unit;
  (* QuartzPositionList *)
  QuartzPositionList_read_data :
    om_docid -> om_termname -> M TM (list om_termpos);
  QuartzPositionList_set_positionlist :
    om_docid -> om_termname -> list om_termpos -> M TM unit;
  QuartzPositionList_delete_positionlist :
    om_docid -> om_termname -> M TM unit;
  (* QuartzLexicon: [get_entry] answers [Some termfreq] for a stored term *)
  QuartzLexicon_get_entry : om_termname -> M TM (option om_doccount);
  QuartzLexicon_increment_termfreq : om_termname -> M TM unit;
  QuartzLexicon_decrement_termfreq : om_termname -> M TM unit;
  (* QuartzPostList *)
  QuartzPostList_add_entry :
    om_termname -> om_docid -> om_termcount -> quartz_doclen_t -> M TM unit;
  QuartzPostList_delete_entry : om_termname -> om_docid -> M TM unit
}.

(** [buffered_tables->cancel()] as a statement. *)
Definition do_cancel {TM} {T : QuartzTableManager TM} : M TM unit :=
  fun s => (Returns tt, cancel s).

(** [PositionList *]: the cursor a position-list open would hand out. *)
Definition PositionList := list om_termpos.

(** ** QuartzDatabase: the read-only facade *)
Module QuartzDatabase.
Section Facade.
Context {config : OmConfig} {TM : Type} {T : QuartzTableManager TM}.

Definition do_begin_session (timeout : om_timeout) : M TM unit :=
  throw (OmInvalidOperationError
    "Cannot begin a modification session: database opened readonly.").

Definition do_end_session : M TM unit := Assert false.

Definition do_flush : M TM unit := Assert false.

Definition do_begin_transaction : M TM unit := Assert false.

Definition do_commit_transaction : M TM unit := Assert false.

Definition do_cancel_transaction : M TM unit := Assert false.

Definition do_add_document (document : OmDocumentContents) : M TM om_docid :=
  throw (OmInternalError
    "QuartzDatabase::do_add_document() called, but QuartzDatabase is not a modifiable database.").

Definition do_delete_document (did : om_docid) : M TM unit := Assert false.

Definition do_replace_document (did : om_docid)
    (document : OmDocumentContents) : M TM unit :=
  Assert false.

Definition get_doccount_internal : M TM om_doccount :=
  QuartzRecordManager_get_doccount.

Definition get_doccount : M TM om_doccount :=
  OmLockSentry get_doccount_internal.

(** The inner [while (!positionlist.at_end())] loop: each position read is
    pushed to the back of [term.positions]. *)
Definition push_positions (read : list om_termpos)
    (into : list om_termpos) : list om_termpos :=
  fold_left (fun ps p => ps ++ [p]) read into.

(** The [while (!termlist.at_end())] loop over the entries of the cursor. *)
Fixpoint read_terms (did : om_docid)
    (entries : list (om_termname * om_termcount))
    (document : OmDocumentContents) : M TM OmDocumentContents :=
  match entries with
  | [] => ret document
  | (name, entry_wdf) :: rest =>
      let* tf := QuartzTermList_get_termfreq name in
      let* read := QuartzPositionList_read_data did name in
      let term := {| tname := name; wdf := entry_wdf; termfreq := tf;
                     positions := push_positions read [] |} in
      read_terms did rest
        {| data := data document; keys := keys document;
           terms := terms_insert (tname term) term (terms document) |}
  end.

(** The body of the [try] block: one attempt at reading the document. *)
Definition read_document (did : om_docid) : M TM OmDocumentContents :=
  let* record := QuartzRecordManager_get_record did in
  let* attributes := QuartzAttributesManager_get_all_attributes did in
  let* doccount := get_doccount_internal in
  let* termlist := QuartzTermList_new did doccount in
  read_terms did (termlist_entries termlist)
    {| data := record; keys := attributes; terms := [] |}.

(** [while (tries_left)]: the [int] starts at 5 and only ever goes down by
    one, to 0, so it is kept as a [nat].  The handler tests
    [tries_left-- > 0] on the value before the decrement; the loop is left,
    and the end of the function reached, once [tries_left] is 0. *)
Fixpoint while_tries_left (tries_left : nat) (did : om_docid)
    : M TM OmDocumentContents :=
  match tries_left with
  | O => flow_off_end
  | S decremented =>
      try_catch (read_document did) is_OmDatabaseModifiedError
        (fun e =>
           if (0 <? Z.of_nat tries_left)%Z
           then reopen_tables_because_overwritten ;;;
                while_tries_left decremented did
           else throw e)
  end.

Definition do_get_document_internal (did : om_docid)
    : M TM OmDocumentContents :=
  Assert (negb (did =? 0)) ;;;
  while_tries_left 5 did.

Definition do_get_document (did : om_docid) : M TM OmDocumentContents :=
  OmLockSentry (do_get_document_internal did).

Definition get_avlength_internal : M TM om_doclength :=
  let* docs := get_doccount_internal in
  if docs =? 0 then ret doclength_zero
  else
    let* total := QuartzRecordManager_get_total_length in
    ret (totlength_div total docs).

Definition get_avlength : M TM om_doclength :=
  OmLockSentry get_avlength_internal.

Definition get_doclength (did : om_docid) : M TM om_doclength :=
  Assert (negb (did =? 0)) ;;;
  OmLockSentry
    (throw (OmUnimplementedError
       "QuartzDatabase::get_doclength() not yet implemented")).

(** [termfreq] starts at 0 and [get_entry] writes it only for a stored term. *)
Definition get_termfreq (name : om_termname) : M TM om_doccount :=
  Assert (negb (String.length name =? 0)%nat) ;;;
  OmLockSentry
    (let termfreq0 := 0 in
     let* found := QuartzLexicon_get_entry name in
     ret (match found with Some stored => stored | None => termfreq0 end)).

(** [get_entry] with a null out-pointer: only the flag is used. *)
Definition term_exists (name : om_termname) : M TM bool :=
  Assert (negb (String.length name =? 0)%nat) ;;;
  OmLockSentry
    (let* found := QuartzLexicon_get_entry name in
     ret (match found with Some _ => true | None => false end)).

Definition open_position_list (did : om_docid) (name : om_termname)
    : M TM PositionList :=
  Assert (negb (did =? 0)) ;;;
  OmLockSentry
    (throw (OmUnimplementedError
       "Quartz databases do not support opening positionlist")).

End Facade.
End QuartzDatabase.

(** ** QuartzWritableDatabase: the writable facade

    [database_ro] is a [QuartzDatabase] built over [buffered_tables] itself,
    so both work on one table manager state. *)
Module QuartzWritableDatabase.
Section Facade.
Context {config : OmConfig} {TM : Type} {T : QuartzTableManager TM}.

(** [buffered_tables != 0]: the pointer is set by [new] in the constructor. *)
Definition buffered_tables_nonnull : bool := true.

Definition do_begin_session (timeout : om_timeout) : M TM unit :=
  OmLockSentry (Assert buffered_tables_nonnull).

Definition do_end_session : M TM unit :=
  OmLockSentry (Assert buffered_tables_nonnull ;;; apply).

Definition do_flush : M TM unit :=
  OmLockSentry (Assert buffered_tables_nonnull ;;; apply).

Definition do_begin_transaction : M TM unit :=
  OmLockSentry
    (throw (OmUnimplementedError
       "QuartzDatabase::do_begin_transaction() not yet implemented")).

Definition do_commit_transaction : M TM unit :=
  OmLockSentry
    (throw (OmUnimplementedError
       "QuartzDatabase::do_commit_transaction() not yet implemented")).

Definition do_cancel_transaction : M TM unit :=
  OmLockSentry
    (throw (OmUnimplementedError
       "QuartzDatabase::do_cancel_transaction() not yet implemented")).

(** The first [for] loop of [do_add_document]: [new_doclen += wdf], in the
    arithmetic of [quartz_doclen_t]. *)
Definition calculate_new_doclen (document : OmDocumentContents)
    : quartz_doclen_t :=
  fold_left
    (fun new_doclen term => quartz_doclen_wrap (new_doclen + wdf (snd term)))
    (terms document) 0.

(** The body of the [try] block of [do_add_document]; its value is the
    [did] that [RETURN(did)] hands back after the block. *)
Definition add_document_steps (document : OmDocumentContents)
    (new_doclen : quartz_doclen_t) : M TM om_docid :=
  let* did := QuartzRecordManager_add_record (data document) new_doclen in
  Assert (negb (did =? 0)) ;;;
  for_each (keys document) (fun key =>
    QuartzAttributesManager_add_attribute (snd key) did (fst key)) ;;;
  QuartzTermList_set_entries did (terms document) new_doclen false ;;;
  QuartzRecordManager_modify_total_length 0 new_doclen ;;;
  for_each (terms document) (fun term =>
    QuartzLexicon_increment_termfreq (tname (snd term)) ;;;
    QuartzPostList_add_entry (tname (snd term)) did (wdf (snd term))
      new_doclen ;;;
    QuartzPositionList_set_positionlist did (tname (snd term))
      (positions (snd term))) ;;;
  ret did.

Definition do_add_document (document : OmDocumentContents) : M TM om_docid :=
  OmLockSentry
    (Assert buffered_tables_nonnull ;;;
     let new_doclen := calculate_new_doclen document in
     try_catch (add_document_steps document new_doclen) any_error
       (fun e => do_cancel ;;; throw e)).

(** The body of the [try] block of [do_delete_document]. *)
Definition delete_document_steps (did : om_docid)
    (document : OmDocumentContents) : M TM unit :=
  for_each (terms document) (fun term =>
    QuartzPostList_delete_entry (tname (snd term)) did ;;;
    QuartzPositionList_delete_positionlist did (tname (snd term)) ;;;
    QuartzLexicon_decrement_termfreq (tname (snd term))) ;;;
  let* doccount := QuartzDatabase.get_doccount_internal in
  let* termlist := QuartzTermList_new did doccount in
  let old_doclen := termlist_doclength termlist in
  QuartzRecordManager_modify_total_length old_doclen 0 ;;;
  QuartzTermList_delete_termlist did ;;;
  QuartzRecordManager_delete_record did.

Definition do_delete_document (did : om_docid) : M TM unit :=
  Assert (negb (did =? 0)) ;;;
  OmLockSentry
    (Assert buffered_tables_nonnull ;;;
     let* document := QuartzDatabase.do_get_document_internal did in
     try_catch (delete_document_steps did document) any_error
       (fun e => do_cancel ;;; throw e)).

Definition do_replace_document (did : om_docid)
    (document : OmDocumentContents) : M TM unit :=
  Assert (negb (did =? 0)) ;;;
  OmLockSentry
    (Assert buffered_tables_nonnull ;;;
     throw (OmUnimplementedError
       "QuartzWritableDatabase::do_replace_document() not yet implemented")).

Definition do_get_document (did : om_docid) : M TM OmDocumentContents :=
  OmLockSentry (QuartzDatabase.do_get_document_internal did).

Definition get_doccount : M TM om_doccount :=
  OmLockSentry QuartzDatabase.get_doccount_internal.

Definition get_avlength : M TM om_doclength := QuartzDatabase.get_avlength.

Definition get_doclength (did : om_docid) : M TM om_doclength :=
  QuartzDatabase.get_doclength did.

Definition get_termfreq (name : om_termname) : M TM om_doccount :=
  QuartzDatabase.get_termfreq name.

Definition term_exists (name : om_termname) : M TM bool :=
  QuartzDatabase.term_exists name.

Definition open_position_list (did : om_docid) (name : om_termname)
    : M TM PositionList :=
  Assert (negb (did =? 0)) ;;;
  OmLockSentry
    (throw (OmUnimplementedError
       "Quartz databases do not support opening positionlist")).

End Facade.
End QuartzWritableDatabase.

(** ** A table layer that records the calls made to it

    [logged T] behaves as [T] and appends every call it receives to a log
    kept next to the state of [T]: the call with its arguments and, for an
    operation that answers with a value, the way the call ended. *)
Inductive TableCall : Type :=
| Call_reopen_tables_because_overwritten
| Call_apply
| Call_cancel
| Call_get_record (did : om_docid) (answer : outcome string)
| Call_get_doccount (answer : outcome om_doccount)
| Call_get_total_length (answer : outcome om_totlength)
| Call_add_record (data : string) (doclen : quartz_doclen_t)
    (answer : outcome om_docid)
| Call_modify_total_length (old_doclen new_doclen : quartz_doclen_t)
| Call_delete_record (did : om_docid)
| Call_get_all_attributes (did : om_docid) (answer : outcome document_keys)
| Call_add_attribute (value : string) (did : om_docid) (keyno : om_keyno)
| Call_QuartzTermList (did : om_docid) (doccount : om_doccount)
    (answer : outcome QuartzTermList)
| Call_termlist_get_termfreq (name : om_termname)
    (answer : outcome om_doccount)
| Call_set_entries (did : om_docid) (terms : document_terms)
    (doclen : quartz_doclen_t) (is_replacement : bool)
| Call_delete_termlist (did : om_docid)
| Call_read_data (did : om_docid) (name : om_termname)
    (answer : outcome (list om_termpos))
| Call_set_positionlist (did : om_docid) (name : om_termname)
    (positions : list om_termpos)
| Call_delete_positionlist (did : om_docid) (name : om_termname)
| Call_get_entry (name : om_termname) (answer : outcome (option om_doccount))
| Call_increment_termfreq (name : om_termname)
| Call_decrement_termfreq (name : om_termname)
| Call_add_entry (name : om_termname) (did : om_docid) (wdf : om_termcount)
    (doclen : quartz_doclen_t)
| Call_delete_entry (name : om_termname) (did : om_docid).

Definition is_Call_cancel (c : TableCall) : bool :=
  match c with Call_cancel => true | _ => false end.

(** Whether [cancel] is among the calls of a log. *)
Definition cancel_called (log : list TableCall) : bool :=
  existsb is_Call_cancel log.

Definition logging {TM A} (c : outcome A -> TableCall) (op : M TM A)
    : M (TM * list TableCall) A :=
  fun sl =>
    let '(r, s') := op (fst sl) in (r, (s', snd sl ++ [c r])).

Definition logged {TM} (T : QuartzTableManager TM)
    : QuartzTableManager (TM * list TableCall) := {|
  reopen_tables_because_overwritten :=
    logging (fun _ => Call_reopen_tables_because_overwritten)
      reopen_tables_because_overwritten;
  apply := logging (fun _ => Call_apply) apply;
  cancel := fun sl => (cancel (fst sl), snd sl ++ [Call_cancel]);
  QuartzRecordManager_get_record did :=
    logging (Call_get_record did) (QuartzRecordManager_get_record did);
  QuartzRecordManager_get_doccount :=
    logging Call_get_doccount QuartzRecordManager_get_doccount;
  QuartzRecordManager_get_total_length :=
    logging Call_get_total_length QuartzRecordManager_get_total_length;
  QuartzRecordManager_add_record d len :=
    logging (Call_add_record d len) (QuartzRecordManager_add_record d len);
  QuartzRecordManager_modify_total_length o n :=
    logging (fun _ => Call_modify_total_length o n)
      (QuartzRecordManager_modify_total_length o n);
  QuartzRecordManager_delete_record did :=
    logging (fun _ => Call_delete_record did)
      (QuartzRecordManager_delete_record did);
  QuartzAttributesManager_get_all_attributes did :=
    logging (Call_get_all_attributes did)
      (QuartzAttributesManager_get_all_attributes did);
  QuartzAttributesManager_add_attribute v did k :=
    logging (fun _ => Call_add_attribute v did k)
      (QuartzAttributesManager_add_attribute v did k);
  QuartzTermList_new did n :=
    logging (Call_QuartzTermList did n) (QuartzTermList_new did n);
  QuartzTermList_get_termfreq t :=
    logging (Call_termlist_get_termfreq t) (QuartzTermList_get_termfreq t);
  QuartzTermList_set_entries did ts len r :=
    logging (fun _ => Call_set_entries did ts len r)
      (QuartzTermList_set_entries did ts len r);
  QuartzTermList_delete_termlist did :=
    logging (fun _ => Call_delete_termlist did)
      (QuartzTermList_delete_termlist did);
  QuartzPositionList_read_data did t :=
    logging (Call_read_data did t) (QuartzPositionList_read_data did t);
  QuartzPositionList_set_positionlist did t ps :=
    logging (fun _ => Call_set_positionlist did t ps)
      (QuartzPositionList_set_positionlist did t ps);
  QuartzPositionList_delete_positionlist did t :=
    logging (fun _ => Call_delete_positionlist did t)
      (QuartzPositionList_delete_positionlist did t);
  QuartzLexicon_get_entry t :=
    logging (Call_get_entry t) (QuartzLexicon_get_entry t);
  QuartzLexicon_increment_termfreq t :=
    logging (fun _ => Call_increment_termfreq t)
      (QuartzLexicon_increment_termfreq t);
  QuartzLexicon_decrement_termfreq t :=
    logging (fun _ => Call_decrement_termfreq t)
      (QuartzLexicon_decrement_termfreq t);
  QuartzPostList_add_entry t did w len :=
    logging (fun _ => Call_add_entry t did w len)
      (QuartzPostList_add_entry t did w len);
  QuartzPostList_delete_entry t did :=
    logging (fun _ => Call_delete_entry t did)
      (QuartzPostList_delete_entry t did)
|}.

(** ** A reference table layer over finite maps *)
Module Reference.

(** Modelled from the spec: the tables of a Quartz directory (sections 3 and
    4.2 to 4.7), whose B-tree implementation is not part of this file.  The
    record table maps a docid to its data and length and stores the document
    count and the total length as entries of their own; the attribute table
    holds the key/value pairs of a document in key order; the term-list table
    holds the document length and the (term, wdf) entries; the lexicon maps
    a term to its termfreq; a posting list is sorted by docid; a position
    list is stored per (docid, term). *)
Record QuartzTables : Type := mkQuartzTables {
  record_table : gmap N (string * N);
  lastdocid : N;
  stored_doccount : N;
  stored_total_length : N;
  attribute_table : gmap N (list (N * string));
  termlist_table : gmap N (N * list (string * N));
  lexicon_table : gmap string N;
  postlist_table : gmap string (list (N * N * N));
  positionlist_table : gmap (N * string) (list N)
}.

(** Modelled from the spec: the buffered table manager (section 4.1) layers
    a write buffer over the committed tables; [buffered] is what reads
    through the manager see, [on_disk] what has been committed. *)
Record QuartzBufferedTableManager : Type := mkQuartzBufferedTableManager {
  on_disk : QuartzTables;
  buffered : QuartzTables
}.

(** Modelled from the spec: the tables of a directory that holds no
    document yet (scenario 1). *)
Definition empty_tables : QuartzTables :=
  mkQuartzTables ∅ 0 0 0 ∅ ∅ ∅ ∅ ∅.

(** Modelled from the spec: a writable database just opened on an empty
    directory, nothing buffered. *)
Definition empty_database : QuartzBufferedTableManager :=
  mkQuartzBufferedTableManager empty_tables empty_tables.

(** Field updates of [QuartzTables]. *)
Definition set_record_table (v : gmap N (string * N)) (t : QuartzTables) :=
  mkQuartzTables v (lastdocid t) (stored_doccount t) (stored_total_length t)
    (attribute_table t) (termlist_table t) (lexicon_table t)
    (postlist_table t) (positionlist_table t).

Definition set_lastdocid (v : N) (t : QuartzTables) :=
  mkQuartzTables (record_table t) v (stored_doccount t)
    (stored_total_length t) (attribute_table t) (termlist_table t)
    (lexicon_table t) (postlist_table t) (positionlist_table t).

Definition set_stored_doccount (v : N) (t : QuartzTables) :=
  mkQuartzTables (record_table t) (lastdocid t) v (stored_total_length t)
    (attribute_table t) (termlist_table t) (lexicon_table t)
    (postlist_table t) (positionlist_table t).

Definition set_stored_total_length (v : N) (t : QuartzTables) :=
  mkQuartzTables (record_table t) (lastdocid t) (stored_doccount t) v
    (attribute_table t) (termlist_table t) (lexicon_table t)
    (postlist_table t) (positionlist_table t).

Definition set_attribute_table (v : gmap N (list (N * string)))
    (t : QuartzTables) :=
  mkQuartzTables (record_table t) (lastdocid t) (stored_doccount t)
    (stored_total_length t) v (termlist_table t) (lexicon_table t)
    (postlist_table t) (positionlist_table t).

Definition set_termlist_table (v : gmap N (N * list (string * N)))
    (t : QuartzTables) :=
  mkQuartzTables (record_table t) (lastdocid t) (stored_doccount t)
    (stored_total_length t) (attribute_table t) v (lexicon_table t)
    (postlist_table t) (positionlist_table t).

Definition set_lexicon_table (v : gmap string N) (t : QuartzTables) :=
  mkQuartzTables (record_table t) (lastdocid t) (stored_doccount t)
    (stored_total_length t) (attribute_table t) (termlist_table t) v
    (postlist_table t) (positionlist_table t).

Definition set_postlist_table (v : gmap string (list (N * N * N)))
    (t : QuartzTables) :=
  mkQuartzTables (record_table t) (lastdocid t) (stored_doccount t)
    (stored_total_length t) (attribute_table t) (termlist_table t)
    (lexicon_table t) v (positionlist_table t).

Definition set_positionlist_table (v : gmap (N * string) (list N))
    (t : QuartzTables) :=
  mkQuartzTables (record_table t) (lastdocid t) (stored_doccount t)
    (stored_total_length t) (attribute_table t) (termlist_table t)
    (lexicon_table t) (postlist_table t) v.

(** Modelled from the spec: all reads and writes through the buffered
    manager work on the buffered view (section 4.1). *)
Definition on_buffered {A} (op : M QuartzTables A)
    : M QuartzBufferedTableManager A :=
  fun s =>
    let '(r, t) := op (buffered s) in
    (r, mkQuartzBufferedTableManager (on_disk s) t).

(** Modelled from the spec: [apply] commits all buffered changes (section
    4.1); no I/O failure is modelled, so it always succeeds. *)
Definition apply_all : M QuartzBufferedTableManager unit :=
  fun s => (Returns tt, mkQuartzBufferedTableManager (buffered s) (buffered s)).

(** Modelled from the spec: [cancel] discards all buffered changes. *)
Definition cancel_all (s : QuartzBufferedTableManager)
    : QuartzBufferedTableManager :=
  mkQuartzBufferedTableManager (on_disk s) (on_disk s).

(** Modelled from the spec: a single writer holds the session lock, so the
    tables behind a buffered manager are never overwritten and reopening
    them changes nothing. *)
Definition reopen_tables : M QuartzBufferedTableManager unit :=
  ret tt.

(** Modelled from the spec: [get_record] by primary key (section 4.2); an
    absent docid is a NotFound error (section 7). *)
Definition get_record (did : om_docid) : M QuartzTables string :=
  fun t =>
    match record_table t !! did with
    | Some (d, _) => (Returns d, t)
    | None => (Throws (OmDocNotFoundError "record not found"), t)
    end.

(** Modelled from the spec: the stored document count (section 4.2). *)
Definition get_doccount : M QuartzTables om_doccount :=
  fun t => (Returns (stored_doccount t), t).

(** Modelled from the spec: the stored total length (section 4.2). *)
Definition get_total_length : M QuartzTables om_totlength :=
  fun t => (Returns (stored_total_length t), t).

(** Modelled from the spec: [add_record] allocates the next unused docid,
    stores the record and counts the document (section 4.2).  The total
    length is brought up to date by the [modify_total_length] call of the
    insert protocol (step 5), as invariant I2 and scenario 2 require. *)
Definition add_record (d : string) (doclen : quartz_doclen_t)
    : M QuartzTables om_docid :=
  fun t =>
    let did := lastdocid t + 1 in
    (Returns did,
     set_record_table (<[did := (d, doclen)]> (record_table t))
       (set_lastdocid did
          (set_stored_doccount (stored_doccount t + 1) t))).

(** Modelled from the spec: the compensating update of the total length;
    insert passes [old = 0], delete passes [new = 0]. *)
Definition modify_total_length (old_doclen new_doclen : quartz_doclen_t)
    : M QuartzTables unit :=
  fun t =>
    (Returns tt,
     set_stored_total_length
       (stored_total_length t - old_doclen + new_doclen) t).

(** Modelled from the spec: [delete_record] removes the record and
    decrements the document count; an absent docid is a NotFound error. *)
Definition delete_record (did : om_docid) : M QuartzTables unit :=
  fun t =>
    match record_table t !! did with
    | Some _ =>
        (Returns tt,
         set_record_table (delete did (record_table t))
           (set_stored_doccount (stored_doccount t - 1) t))
    | None => (Throws (OmDocNotFoundError "record not found"), t)
    end.

(** Modelled from the spec: the attributes of a document, a mapping from
    key id to value (section 4.3). *)
Definition get_all_attributes (did : om_docid)
    : M QuartzTables document_keys :=
  fun t => (Returns (default [] (attribute_table t !! did)), t).

(** Modelled from the spec: a document's attributes are a mapping from key
    id to value; a value stored again under a key id replaces the old one. *)
Fixpoint keys_insert (k : om_keyno) (v : string) (m : document_keys)
    : document_keys :=
  match m with
  | [] => [(k, v)]
  | (k', v') :: rest =>
      match N.compare k k' with
      | Lt => (k, v) :: m
      | Eq => (k, v) :: rest
      | Gt => (k', v') :: keys_insert k v rest
      end
  end.

(** Modelled from the spec: [add_attribute] stores one key/value pair of a
    document (section 4.3). *)
Definition add_attribute (v : string) (did : om_docid) (k : om_keyno)
    : M QuartzTables unit :=
  fun t =>
    (Returns tt,
     set_attribute_table
       (<[did := keys_insert k v (default [] (attribute_table t !! did))]>
          (attribute_table t)) t).

(** Modelled from the spec: opening a term-list cursor reads the entry of the
    document (section 4.5); an absent docid is a NotFound error. *)
Definition new_termlist (did : om_docid) (n : om_doccount)
    : M QuartzTables QuartzTermList :=
  fun t =>
    match termlist_table t !! did with
    | Some (doclen, entries) => (Returns (mkQuartzTermList doclen entries), t)
    | None => (Throws (OmDocNotFoundError "termlist not found"), t)
    end.

(** Modelled from the spec: the cursor's [get_termfreq] consults the
    lexicon (section 4.5). *)
Definition termlist_termfreq (name : om_termname)
    : M QuartzTables om_doccount :=
  fun t => (Returns (default 0 (lexicon_table t !! name)), t).

(** Modelled from the spec: [set_entries] writes the term list of the
    document: its length and its (term, wdf) entries (section 4.5). *)
Definition set_entries (did : om_docid) (ts : document_terms)
    (doclen : quartz_doclen_t) (is_replacement : bool)
    : M QuartzTables unit :=
  fun t =>
    (Returns tt,
     set_termlist_table
       (<[did := (doclen, map (fun e => (tname (snd e), wdf (snd e))) ts)]>
          (termlist_table t)) t).

(** Modelled from the spec: [delete_termlist] removes the term list of the
    document (section 4.5). *)
Definition delete_termlist (did : om_docid) : M QuartzTables unit :=
  fun t =>
    (Returns tt, set_termlist_table (delete did (termlist_table t)) t).

(** Modelled from the spec: position lists per (docid, term) (section 4.7);
    a cursor over a key that stores nothing is at its end at once. *)
Definition read_data (did : om_docid) (name : om_termname)
    : M QuartzTables (list om_termpos) :=
  fun t => (Returns (default [] (positionlist_table t !! (did, name))), t).

(** Modelled from the spec: [set_positionlist] stores the positions of
    (docid, term) (section 4.7). *)
Definition set_positionlist (did : om_docid) (name : om_termname)
    (ps : list om_termpos) : M QuartzTables unit :=
  fun t =>
    (Returns tt,
     set_positionlist_table (<[(did, name) := ps]> (positionlist_table t)) t).

(** Modelled from the spec: [delete_positionlist] removes the positions of
    (docid, term) (section 4.7). *)
Definition delete_positionlist (did : om_docid) (name : om_termname)
    : M QuartzTables unit :=
  fun t =>
    (Returns tt,
     set_positionlist_table (delete (did, name) (positionlist_table t)) t).

(** Modelled from the spec: the lexicon's [get_entry] tells whether the
    term is stored, and its termfreq (section 4.4). *)
Definition get_entry (name : om_termname)
    : M QuartzTables (option om_doccount) :=
  fun t => (Returns (lexicon_table t !! name), t).

(** Modelled from the spec: incrementing an absent term creates its entry
    with termfreq 1 (section 4.4). *)
Definition increment_termfreq (name : om_termname) : M QuartzTables unit :=
  fun t =>
    (Returns tt,
     set_lexicon_table
       (<[name := match lexicon_table t !! name with
                  | Some n => n + 1
                  | None => 1
                  end]> (lexicon_table t)) t).

(** Modelled from the spec: a decrement that reaches 0 removes the entry
    (section 4.4); a term that must be there and is not is a NotFound error
    (section 7). *)
Definition decrement_termfreq (name : om_termname) : M QuartzTables unit :=
  fun t =>
    match lexicon_table t !! name with
    | Some n =>
        (Returns tt,
         set_lexicon_table
           (if n <=? 1 then delete name (lexicon_table t)
            else <[name := n - 1]> (lexicon_table t)) t)
    | None => (Throws (OmDocNotFoundError "term not in lexicon"), t)
    end.

(** Modelled from the spec: a posting list is kept sorted by docid, one
    entry per document (section 4.6). *)
Fixpoint postlist_insert (e : N * N * N) (l : list (N * N * N))
    : list (N * N * N) :=
  match l with
  | [] => [e]
  | e' :: rest =>
      match N.compare (fst (fst e)) (fst (fst e')) with
      | Lt => e :: l
      | Eq => e :: rest
      | Gt => e' :: postlist_insert e rest
      end
  end.

(** Modelled from the spec: [add_entry] inserts (docid, wdf, doclen) into
    the sorted posting list of the term (section 4.6). *)
Definition add_entry (name : om_termname) (did : om_docid)
    (w : om_termcount) (doclen : quartz_doclen_t) : M QuartzTables unit :=
  fun t =>
    (Returns tt,
     set_postlist_table
       (<[name := postlist_insert (did, w, doclen)
                    (default [] (postlist_table t !! name))]>
          (postlist_table t)) t).

(** Modelled from the spec: [delete_entry] removes the entry of the docid;
    the lexicon entry is the business of the decrement that accompanies it
    (section 4.6). *)
Definition delete_entry (name : om_termname) (did : om_docid)
    : M QuartzTables unit :=
  fun t =>
    let rest :=
      filter (fun e => negb (fst (fst e) =? did))
        (default [] (postlist_table t !! name)) in
    (Returns tt,
     set_postlist_table
       (match rest with
        | [] => delete name (postlist_table t)
        | _ => <[name := rest]> (postlist_table t)
        end) t).

(** Modelled from the spec: the table layer put together from the
    operations above, an instance of the interface the facades are written
    against. *)
Definition tables : QuartzTableManager QuartzBufferedTableManager := {|
  reopen_tables_because_overwritten := reopen_tables;
  apply := apply_all;
  cancel := cancel_all;
  QuartzRecordManager_get_record did := on_buffered (get_record did);
  QuartzRecordManager_get_doccount := on_buffered get_doccount;
  QuartzRecordManager_get_total_length := on_buffered get_total_length;
  QuartzRecordManager_add_record d len := on_buffered (add_record d len);
  QuartzRecordManager_modify_total_length o n :=
    on_buffered (modify_total_length o n);
  QuartzRecordManager_delete_record did := on_buffered (delete_record did);
  QuartzAttributesManager_get_all_attributes did :=
    on_buffered (get_all_attributes did);
  QuartzAttributesManager_add_attribute v did k :=
    on_buffered (add_attribute v did k);
  QuartzTermList_new did n := on_buffered (new_termlist did n);
  QuartzTermList_get_termfreq name := on_buffered (termlist_termfreq name);
  QuartzTermList_set_entries did ts len r :=
    on_buffered (set_entries did ts len r);
  QuartzTermList_delete_termlist did := on_buffered (delete_termlist did);
  QuartzPositionList_read_data did name := on_buffered (read_data did name);
  QuartzPositionList_set_positionlist did name ps :=
    on_buffered (set_positionlist did name ps);
  QuartzPositionList_delete_positionlist did name :=
    on_buffered (delete_positionlist did name);
  QuartzLexicon_get_entry name := on_buffered (get_entry name);
  QuartzLexicon_increment_termfreq name :=
    on_buffered (increment_termfreq name);
  QuartzLexicon_decrement_termfreq name :=
    on_buffered (decrement_termfreq name);
  QuartzPostList_add_entry name did w len :=
    on_buffered (add_entry name did w len);
  QuartzPostList_delete_entry name did := on_buffered (delete_entry name did)
|}.

End Reference.

(** ** A table layer whose snapshot is overwritten before every read

    A reader next to a writer that commits a new revision each time the
    reader has reopened its tables: every table read throws
    [OmDatabaseModifiedError].  The state counts the reopens. *)
Module Overwritten.

Definition modified {A} : M nat A :=
  throw (OmDatabaseModifiedError "Db block overwritten").

Definition tables : QuartzTableManager nat := {|
  reopen_tables_because_overwritten := fun n => (Returns tt, S n);
  apply := modified;
  cancel := fun n => n;
  QuartzRecordManager_get_record _ := modified;
  QuartzRecordManager_get_doccount := modified;
  QuartzRecordManager_get_total_length := modified;
  QuartzRecordManager_add_record _ _ := modified;
  QuartzRecordManager_modify_total_length _ _ := modified;
  QuartzRecordManager_delete_record _ := modified;
  QuartzAttributesManager_get_all_attributes _ := modified;
  QuartzAttributesManager_add_attribute _ _ _ := modified;
  QuartzTermList_new _ _ := modified;
  QuartzTermList_get_termfreq _ := modified;
  QuartzTermList_set_entries _ _ _ _ := modified;
  QuartzTermList_delete_termlist _ := modified;
  QuartzPositionList_read_data _ _ := modified;
  QuartzPositionList_set_positionlist _ _ _ := modified;
  QuartzPositionList_delete_positionlist _ _ := modified;
  QuartzLexicon_get_entry _ := modified;
  QuartzLexicon_increment_termfreq _ := modified;
  QuartzLexicon_decrement_termfreq _ := modified;
  QuartzPostList_add_entry _ _ _ _ := modified;
  QuartzPostList_delete_entry _ _ := modified
|}.

End Overwritten.

(** ** A table layer with an injected failure

    [Faulty.tables T] behaves as [T] for as many calls as the budget kept
    next to the state of [T] allows; the call made on an empty budget throws
    and changes nothing.  [cancel], which cannot fail, is passed through. *)
Module Faulty.

Definition injected : OmError := OmOtherError "OmDatabaseError" "injected".

Definition countdown {TM A} (op : M TM A) : M (TM * nat) A :=
  fun sb =>
    match snd sb with
    | O => (Throws injected, sb)
    | S budget => let '(r, s') := op (fst sb) in (r, (s', budget))
    end.

Definition tables {TM} (T : QuartzTableManager TM)
    : QuartzTableManager (TM * nat) := {|
  reopen_tables_because_overwritten :=
    countdown reopen_tables_because_overwritten;
  apply := countdown apply;
  cancel := fun sb => (cancel (fst sb), snd sb);
  QuartzRecordManager_get_record did :=
    countdown (QuartzRecordManager_get_record did);
  QuartzRecordManager_get_doccount :=
    countdown QuartzRecordManager_get_doccount;
  QuartzRecordManager_get_total_length :=
    countdown QuartzRecordManager_get_total_length;
  QuartzRecordManager_add_record d len :=
    countdown (QuartzRecordManager_add_record d len);
  QuartzRecordManager_modify_total_length o n :=
    countdown (QuartzRecordManager_modify_total_length o n);
  QuartzRecordManager_delete_record did :=
    countdown (QuartzRecordManager_delete_record did);
  QuartzAttributesManager_get_all_attributes did :=
    countdown (QuartzAttributesManager_get_all_attributes did);
  QuartzAttributesManager_add_attribute v did k :=
    countdown (QuartzAttributesManager_add_attribute v did k);
  QuartzTermList_new did n := countdown (QuartzTermList_new did n);
  QuartzTermList_get_termfreq t := countdown (QuartzTermList_get_termfreq t);
  QuartzTermList_set_entries did ts len r :=
    countdown (QuartzTermList_set_entries did ts len r);
  QuartzTermList_delete_termlist did :=
    countdown (QuartzTermList_delete_termlist did);
  QuartzPositionList_read_data did t :=
    countdown (QuartzPositionList_read_data did t);
  QuartzPositionList_set_positionlist did t ps :=
    countdown (QuartzPositionList_set_positionlist did t ps);
  QuartzPositionList_delete_positionlist did t :=
    countdown (QuartzPositionList_delete_positionlist did t);
  QuartzLexicon_get_entry t := countdown (QuartzLexicon_get_entry t);
  QuartzLexicon_increment_termfreq t :=
    countdown (QuartzLexicon_increment_termfreq t);
  QuartzLexicon_decrement_termfreq t :=
    countdown (QuartzLexicon_decrement_termfreq t);
  QuartzPostList_add_entry t did w len :=
    countdown (QuartzPostList_add_entry t did w len);
  QuartzPostList_delete_entry t did :=
    countdown (QuartzPostList_delete_entry t did)
|}.

End Faulty.

(** ** Two builds and two documents to run the facades on *)

(** Document lengths as rationals, the division exact. *)
Definition debug_build : OmConfig := {|
  assertions_enabled := true;
  om_doclength := Q;
  doclength_zero := 0%Q;
  totlength_div total docs :=
    (inject_Z (Z.of_N total) / inject_Z (Z.of_N docs))%Q
|}.

Definition release_build : OmConfig := {|
  assertions_enabled := false;
  om_doclength := Q;
  doclength_zero := 0%Q;
  totlength_div total docs :=
    (inject_Z (Z.of_N total) / inject_Z (Z.of_N docs))%Q
|}.

Definition doc1 : OmDocumentContents := {|
  data := "hello";
  keys := [(1, "a")];
  terms := [("cat", mkOmDocumentTerm "cat" 2 0 [0; 3]);
            ("dog", mkOmDocumentTerm "dog" 1 0 [1])]
|}.

Definition doc2 : OmDocumentContents := {|
  data := "world";
  keys := [];
  terms := [("cat", mkOmDocumentTerm "cat" 1 0 [5])]
|}.

(** Two terms whose wdf add up to 2^32. *)
Definition doc_wraps : OmDocumentContents := {|
  data := "big";
  keys := [];
  terms := [("a", mkOmDocumentTerm "a" 4294967295 0 []);
            ("b", mkOmDocumentTerm "b" 1 0 [])]
|}.

(** The state a call leaves behind, whatever its outcome. *)
Definition state_after {TM A} (m : M TM A) (s : TM) : TM := snd (m s).

(** [doc1] added to the empty database, nothing committed. *)
Definition after_doc1 : Reference.QuartzBufferedTableManager :=
  state_after
    (QuartzWritableDatabase.do_add_document (config := debug_build)
       (T := Reference.tables) doc1)
    Reference.empty_database.

(** A term list that names [cat] twice, as [set_entries] stores it from an
    association list that is no map. *)
Definition doc_dup : OmDocumentContents := {|
  data := "dup";
  keys := [];
  terms := [("cat", mkOmDocumentTerm "cat" 2 0 [0]);
            ("cat", mkOmDocumentTerm "cat" 5 0 [7])]
|}.

Definition after_doc_dup : Reference.QuartzBufferedTableManager :=
  state_after
    (QuartzWritableDatabase.do_add_document (config := debug_build)
       (T := Reference.tables) doc_dup)
    Reference.empty_database.

(** [doc1] added and then deleted again, nothing committed. *)
Definition after_delete_doc1 : Reference.QuartzBufferedTableManager :=
  state_after
    (QuartzWritableDatabase.do_delete_document (config := debug_build)
       (T := Reference.tables) 1)
    after_doc1.

Definition is_Call_apply (c : TableCall) : bool :=
  match c with Call_apply => true | _ => false end.

(** Whether [apply] is among the calls of a log. *)
Definition apply_called (log : list TableCall) : bool :=
  existsb is_Call_apply log.

(** [ml], a computation over a logged table layer, does what [m] does over
    the layer itself and only adds calls to the log. *)
Definition erases {TM A} (ml : M (TM * list TableCall) A) (m : M TM A)
    : Prop :=
  forall s log, exists calls,
    ml (s, log) = (fst (m s), (snd (m s), log ++ calls)).

(** ** The calls the protocols are expected to make *)

(** The sum of the wdf of the document's terms, as a natural number. *)
Definition sum_wdf (ts : document_terms) : N :=
  foldr (fun term total => wdf (snd term) + total) 0 ts.

(** The document length the insert protocol passes on: that sum as a
    [quartz_doclen_t] holds it. *)
Definition document_length (document : OmDocumentContents)
    : quartz_doclen_t :=
  quartz_doclen_wrap (sum_wdf (terms document)).

(** The insert protocol for [document], with [did] the docid that adding the
    record allocated. *)
Definition add_document_calls (document : OmDocumentContents)
    (did : om_docid) : list TableCall :=
  Call_add_record (data document) (document_length document) (Returns did)
  :: map (fun key => Call_add_attribute (snd key) did (fst key))
       (keys document)
  ++ [Call_set_entries did (terms document) (document_length document) false;
      Call_modify_total_length 0 (document_length document)]
  ++ flat_map
       (fun term =>
          [Call_increment_termfreq (tname (snd term));
           Call_add_entry (tname (snd term)) did (wdf (snd term))
             (document_length document);
           Call_set_positionlist did (tname (snd term))
             (positions (snd term))])
       (terms document).

(** The delete protocol after [document] has been materialised, with
    [doccount] and [termlist] what the document count read and the term-list
    open answered. *)
Definition delete_document_calls (did : om_docid)
    (document : OmDocumentContents) (doccount : om_doccount)
    (termlist : QuartzTermList) : list TableCall :=
  flat_map
    (fun term =>
       [Call_delete_entry (tname (snd term)) did;
        Call_delete_positionlist did (tname (snd term));
        Call_decrement_termfreq (tname (snd term))])
    (terms document)
  ++ [Call_get_doccount (Returns doccount);
      Call_QuartzTermList did doccount (Returns termlist);
      Call_modify_total_length (termlist_doclength termlist) 0;
      Call_delete_termlist did;
      Call_delete_record did].

(** [n] read attempts that each end with the record read throwing
    [OmDatabaseModifiedError], each followed by a reopen of the tables. *)
Definition failed_attempts (did : om_docid) (msg : string) (n : nat)
    : list TableCall :=
  concat
    (replicate n
       [Call_get_record did (Throws (OmDatabaseModifiedError msg));
        Call_reopen_tables_because_overwritten]).

(** ** Invariants of the table manager state *)

(** [m] keeps [I], however it ends. *)
Definition preserves {TM A} (I : TM -> Prop) (m : M TM A) : Prop :=
  forall s, I s -> I (state_after m s).

(** The operations the read path uses keep [I]. *)
Record reads_preserve {TM} (T : QuartzTableManager TM) (I : TM -> Prop)
    : Prop := {
  reopen_preserves : preserves I reopen_tables_because_overwritten;
  get_record_preserves :
    forall did, preserves I (QuartzRecordManager_get_record did);
  get_doccount_preserves : preserves I QuartzRecordManager_get_doccount;
  get_total_length_preserves :
    preserves I QuartzRecordManager_get_total_length;
  get_all_attributes_preserves :
    forall did, preserves I (QuartzAttributesManager_get_all_attributes did);
  termlist_new_preserves :
    forall did n, preserves I (QuartzTermList_new did n);
  termlist_get_termfreq_preserves :
    forall t, preserves I (QuartzTermList_get_termfreq t);
  read_data_preserves :
    forall did t, preserves I (QuartzPositionList_read_data did t);
  get_entry_preserves : forall t, preserves I (QuartzLexicon_get_entry t)
}.

(** The operations the mutations use, [cancel] apart, keep [I]. *)
Record writes_preserve {TM} (T : QuartzTableManager TM) (I : TM -> Prop)
    : Prop := {
  apply_preserves : preserves I apply;
  add_record_preserves :
    forall d len, preserves I (QuartzRecordManager_add_record d len);
  modify_total_length_preserves :
    forall o n, preserves I (QuartzRecordManager_modify_total_length o n);
  delete_record_preserves :
    forall did, preserves I (QuartzRecordManager_delete_record did);
  add_attribute_preserves :
    forall v did k,
      preserves I (QuartzAttributesManager_add_attribute v did k);
  set_entries_preserves :
    forall did ts len r,
      preserves I (QuartzTermList_set_entries did ts len r);
  delete_termlist_preserves :
    forall did, preserves I (QuartzTermList_delete_termlist did);
  set_positionlist_preserves :
    forall did t ps,
      preserves I (QuartzPositionList_set_positionlist did t ps);
  delete_positionlist_preserves :
    forall did t, preserves I (QuartzPositionList_delete_positionlist did t);
  increment_termfreq_preserves :
    forall t, preserves I (QuartzLexicon_increment_termfreq t);
  decrement_termfreq_preserves :
    forall t, preserves I (QuartzLexicon_decrement_termfreq t);
  add_entry_preserves :
    forall t did w len, preserves I (QuartzPostList_add_entry t did w len);
  delete_entry_preserves :
    forall t did, preserves I (QuartzPostList_delete_entry t did)
}.

(** ** Sessions on the writable database *)

(** The entry points of [QuartzWritableDatabase]. *)
Inductive Operation : Type :=
| Op_begin_session (timeout : om_timeout)
| Op_end_session
| Op_flush
| Op_begin_transaction
| Op_commit_transaction
| Op_cancel_transaction
| Op_add_document (document : OmDocumentContents)
| Op_delete_document (did : om_docid)
| Op_replace_document (did : om_docid) (document : OmDocumentContents)
| Op_get_document (did : om_docid)
| Op_get_doccount
| Op_get_avlength
| Op_get_doclength (did : om_docid)
| Op_get_termfreq (name : om_termname)
| Op_term_exists (name : om_termname)
| Op_open_position_list (did : om_docid) (name : om_termname).

(** Running an entry point for its effect on the tables. *)
Definition run {config : OmConfig} {TM : Type} {T : QuartzTableManager TM}
    (op : Operation) (s : TM) : TM :=
  match op with
  | Op_begin_session timeout =>
      state_after (QuartzWritableDatabase.do_begin_session timeout) s
  | Op_end_session => state_after QuartzWritableDatabase.do_end_session s
  | Op_flush => state_after QuartzWritableDatabase.do_flush s
  | Op_begin_transaction =>
      state_after QuartzWritableDatabase.do_begin_transaction s
  | Op_commit_transaction =>
      state_after QuartzWritableDatabase.do_commit_transaction s
  | Op_cancel_transaction =>
      state_after QuartzWritableDatabase.do_cancel_transaction s
  | Op_add_document document =>
      state_after (QuartzWritableDatabase.do_add_document document) s
  | Op_delete_document did =>
      state_after (QuartzWritableDatabase.do_delete_document did) s
  | Op_replace_document did document =>
      state_after (QuartzWritableDatabase.do_replace_document did document) s
  | Op_get_document did =>
      state_after (QuartzWritableDatabase.do_get_document did) s
  | Op_get_doccount => state_after QuartzWritableDatabase.get_doccount s
  | Op_get_avlength => state_after QuartzWritableDatabase.get_avlength s
  | Op_get_doclength did =>
      state_after (QuartzWritableDatabase.get_doclength did) s
  | Op_get_termfreq name =>
      state_after (QuartzWritableDatabase.get_termfreq name) s
  | Op_term_exists name =>
      state_after (QuartzWritableDatabase.term_exists name) s
  | Op_open_position_list did name =>
      state_after (QuartzWritableDatabase.open_position_list did name) s
  end.

Definition run_all {config : OmConfig} {TM : Type}
    {T : QuartzTableManager TM}
    (ops : list Operation) (s : TM) : TM :=
  fold_left (fun s' op => run op s') ops s.

(** The databases a writable database over the reference tables can be in:
    those some sequence of calls leads to from the empty database. *)
Definition reachable {config : OmConfig}
    (s : Reference.QuartzBufferedTableManager)
    : Prop :=
  exists ops, s = run_all (T := Reference.tables) ops Reference.empty_database.

(** No term is stored in the lexicon with termfreq 0. *)
Definition lexicon_wf (t : Reference.QuartzTables) : Prop :=
  forall name n, Reference.lexicon_table t !! name = Some n -> n <> 0.

Definition lexicon_ok (s : Reference.QuartzBufferedTableManager) : Prop :=
  lexicon_wf (Reference.buffered s) /\ lexicon_wf (Reference.on_disk s).

(** What a call that is an [Assert(false)] and nothing else ends with. *)
Definition assert_false_outcome {config : OmConfig} : outcome unit :=
  if assertions_enabled then Throws OmAssertionError else Returns tt.

(** ** A reader next to a writer that commits a few more times

    [Stale.tables T] keeps, next to the state of [T], the number of
    revisions the reader's tables are behind.  While they are behind, every
    table operation throws [OmDatabaseModifiedError] and changes nothing;
    reopening the tables catches up with one revision. *)
Module Stale.

Definition on_snapshot {TM A} (op : M TM A) : M (TM * nat) A :=
  fun sb =>
    match snd sb with
    | O => let '(r, s') := op (fst sb) in (r, (s', O))
    | S _ => (Throws (OmDatabaseModifiedError "Db block overwritten"), sb)
    end.

Definition tables {TM} (T : QuartzTableManager TM)
    : QuartzTableManager (TM * nat) := {|
  reopen_tables_because_overwritten :=
    fun sb =>
      let '(r, s') := reopen_tables_because_overwritten (fst sb) in
      (r, (s', Nat.pred (snd sb)));
  apply := on_snapshot apply;
  cancel := fun sb => (cancel (fst sb), snd sb);
  QuartzRecordManager_get_record did :=
    on_snapshot (QuartzRecordManager_get_record did);
  QuartzRecordManager_get_doccount :=
    on_snapshot QuartzRecordManager_get_doccount;
  QuartzRecordManager_get_total_length :=
    on_snapshot QuartzRecordManager_get_total_length;
  QuartzRecordManager_add_record d len :=
    on_snapshot (QuartzRecordManager_add_record d len);
  QuartzRecordManager_modify_total_length o n :=
    on_snapshot (QuartzRecordManager_modify_total_length o n);
  QuartzRecordManager_delete_record did :=
    on_snapshot (QuartzRecordManager_delete_record did);
  QuartzAttributesManager_get_all_attributes did :=
    on_snapshot (QuartzAttributesManager_get_all_attributes did);
  QuartzAttributesManager_add_attribute v did k :=
    on_snapshot (QuartzAttributesManager_add_attribute v did k);
  QuartzTermList_new did n := on_snapshot (QuartzTermList_new did n);
  QuartzTermList_get_termfreq t :=
    on_snapshot (QuartzTermList_get_termfreq t);
  QuartzTermList_set_entries did ts len r :=
    on_snapshot (QuartzTermList_set_entries did ts len r);
  QuartzTermList_delete_termlist did :=
    on_snapshot (QuartzTermList_delete_termlist did);
  QuartzPositionList_read_data did t :=
    on_snapshot (QuartzPositionList_read_data did t);
  QuartzPositionList_set_positionlist did t ps :=
    on_snapshot (QuartzPositionList_set_positionlist did t ps);
  QuartzPositionList_delete_positionlist did t :=
    on_snapshot (QuartzPositionList_delete_positionlist did t);
  QuartzLexicon_get_entry t := on_snapshot (QuartzLexicon_get_entry t);
  QuartzLexicon_increment_termfreq t :=
    on_snapshot (QuartzLexicon_increment_termfreq t);
  QuartzLexicon_decrement_termfreq t :=
    on_snapshot (QuartzLexicon_decrement_termfreq t);
  QuartzPostList_add_entry t did w len :=
    on_snapshot (QuartzPostList_add_entry t did w len);
  QuartzPostList_delete_entry t did :=
    on_snapshot (QuartzPostList_delete_entry t did)
|}.

End Stale.

(** ** Which table operations a computation may call *)

(** The operations that read: the seven of the read path of [get_document]
    and the two behind [get_avlength] and [get_termfreq]. *)
Definition is_read_call (c : TableCall) : bool :=
  match c with
  | Call_reopen_tables_because_overwritten
  | Call_get_record _ _
  | Call_get_doccount _
  | Call_get_total_length _
  | Call_get_all_attributes _ _
  | Call_QuartzTermList _ _ _
  | Call_termlist_get_termfreq _ _
  | Call_read_data _ _ _
  | Call_get_entry _ _ => true
  | _ => false
  end.

(** The seven operations of the insert protocol. *)
Definition is_insert_call (c : TableCall) : bool :=
  match c with
  | Call_add_record _ _ _
  | Call_add_attribute _ _ _
  | Call_set_entries _ _ _ _
  | Call_modify_total_length _ _
  | Call_increment_termfreq _
  | Call_add_entry _ _ _ _
  | Call_set_positionlist _ _ _ => true
  | _ => false
  end.

(** The operations of the delete protocol: the reads, and the six that take
    a document out of the tables. *)
Definition is_delete_call (c : TableCall) : bool :=
  is_read_call c ||
  match c with
  | Call_delete_entry _ _
  | Call_delete_positionlist _ _
  | Call_decrement_termfreq _
  | Call_modify_total_length _ _
  | Call_delete_termlist _
  | Call_delete_record _ => true
  | _ => false
  end.

(** Whatever state and log [ml] starts from and however it ends, the calls
    it adds to the log are all in [P]. *)
Definition within (P : TableCall -> bool) {TM A}
    (ml : M (TM * list TableCall) A) : Prop :=
  forall s log, exists calls,
    snd (snd (ml (s, log))) = log ++ calls /\ forallb P calls = true.

(** ** The attempts of [get_document] that find the tables overwritten *)

(** [overwritten_attempts T did n s s']: starting in [s], [n] read attempts
    in a row throw [OmDatabaseModifiedError], each is followed by a reopen
    that succeeds, and the last reopen leaves the tables in [s']. *)
Inductive overwritten_attempts {config : OmConfig} {TM : Type}
    (T : QuartzTableManager TM) (did : om_docid) : nat -> TM -> TM -> Prop :=
| no_attempt s : overwritten_attempts T did O s s
| one_more_attempt n s msg s1 s2 s' :
    QuartzDatabase.read_document did s =
      (Throws (OmDatabaseModifiedError msg), s1) ->
    reopen_tables_because_overwritten s1 = (Returns tt, s2) ->
    overwritten_attempts T did n s2 s' ->
    overwritten_attempts T did (S n) s s'.

(** ** Well-formed term maps *)

(** [a] comes before [b] in the byte order of their term names. *)
Definition name_lt (a b : om_termname * OmDocumentTerm) : Prop :=
  String.compare (fst a) (fst b) = Lt.

(** What a [std::map] keyed by the name of its terms looks like: strictly
    ascending keys, every term under its own name. *)
Definition terms_wf (ts : document_terms) : Prop :=
  StronglySorted name_lt ts /\ Forall (fun e => tname (snd e) = fst e) ts.

(** The reads of [T], the reopen included, leave the tables as they are. *)
Definition reads_change_nothing {TM} (T : QuartzTableManager TM) : Prop :=
  forall s0, reads_preserve T (fun s => s = s0).

(** ** Reading back a document that was added *)

(** What a [std::map] keyed by key id looks like: strictly ascending. *)
Definition keys_wf (ks : document_keys) : Prop :=
  StronglySorted (fun a b => fst a < fst b) ks.

(** [document] as [get_document] answers it: the termfreq of each term is
    the one the lexicon holds, the rest is as it was given. *)
Definition as_read_back (lexicon : gmap string N)
    (document : OmDocumentContents) : OmDocumentContents :=
  {| data := data document;
     keys := keys document;
     terms :=
       map (fun e =>
              (fst e,
               {| tname := tname (snd e);
                  wdf := wdf (snd e);
                  termfreq := default 0 (lexicon !! tname (snd e));
                  positions := positions (snd e) |}))
         (terms document) |}.

(** One pass of the attribute loop of [do_add_document] over the reference
    tables. *)
Definition key_step (did : om_docid) (key : om_keyno * string)
    (t : Reference.QuartzTables) : Reference.QuartzTables :=
  state_after (Reference.add_attribute (snd key) did (fst key)) t.

(** One pass of the term loop of [do_add_document] over the reference
    tables. *)
Definition term_step (did : om_docid) (new_doclen : quartz_doclen_t)
    (term : om_termname * OmDocumentTerm) (t : Reference.QuartzTables)
    : Reference.QuartzTables :=
  state_after
    (Reference.set_positionlist did (tname (snd term)) (positions (snd term)))
    (state_after
       (Reference.add_entry (tname (snd term)) did (wdf (snd term))
          new_doclen)
       (state_after (Reference.increment_termfreq (tname (snd term))) t)).

(** The reference tables after the steps of [do_add_document]. *)
Definition tables_after_add (document : OmDocumentContents)
    (t : Reference.QuartzTables) : Reference.QuartzTables :=
  let did := Reference.lastdocid t + 1 in
  let new_doclen := QuartzWritableDatabase.calculate_new_doclen document in
  fold_left (fun t' term => term_step did new_doclen term t')
    (terms document)
    (state_after (Reference.modify_total_length 0 new_doclen)
       (state_after
          (Reference.set_entries did (terms document) new_doclen false)
          (fold_left (fun t' key => key_step did key t') (keys document)
             (state_after
                (Reference.add_record (data document) new_doclen) t)))).

(** ** What a read attempt asks the tables and makes of the answers *)

(** An entry of the term list next to what the tables answered for it: its
    termfreq and its positions. *)
Definition TermRead : Type :=
  (om_termname * om_termcount) * (om_doccount * list om_termpos).

(** The term of the first entry named [name], if there is one. *)
Fixpoint first_read (name : om_termname) (reads : list TermRead)
    : option OmDocumentTerm :=
  match reads with
  | [] => None
  | (name', entry_wdf, (tf, read)) :: rest =>
      if String.eqb name name'
      then Some {| tname := name'; wdf := entry_wdf; termfreq := tf;
                   positions := read |}
      else first_read name rest
  end.

(** The calls of a read attempt that returns: the record, the attributes,
    the document count, the term list of [did], and for each of its entries
    the termfreq and the position list. *)
Definition read_document_calls (did : om_docid) (record : string)
    (attributes : document_keys) (doccount : om_doccount)
    (termlist : QuartzTermList) (answers : list (om_doccount * list om_termpos))
    : list TableCall :=
  [Call_get_record did (Returns record);
   Call_get_all_attributes did (Returns attributes);
   Call_get_doccount (Returns doccount);
   Call_QuartzTermList did doccount (Returns termlist)]
  ++ flat_map
       (fun r : TermRead =>
          [Call_termlist_get_termfreq (fst (fst r)) (Returns (fst (snd r)));
           Call_read_data did (fst (fst r)) (Returns (snd (snd r)))])
       (combine (termlist_entries termlist) answers).

(** ** The ways a call of [get_document] can go *)



(** ** Proofs *)

(** *** Running the monad *)

Lemma bind_returns {TM A B} (m : M TM A) (k : A -> M TM B) s a s' :
  m s = (Returns a, s') -> bind m k s = k a s'.
Proof. intros Hm. unfold bind. now rewrite Hm. Qed.

Lemma bind_throws {TM A B} (m : M TM A) (k : A -> M TM B) s e s' :
  m s = (Throws e, s') -> bind m k s = (Throws e, s').
Proof. intros Hm. unfold bind. now rewrite Hm. Qed.


(** A bind that returns went through both of its halves. *)
Lemma bind_returns_inv {TM A B} (m : M TM A) (k : A -> M TM B) s b s' :
  bind m k s = (Returns b, s') ->
  exists a s1, m s = (Returns a, s1) /\ k a s1 = (Returns b, s').
Proof.
  unfold bind. destruct (m s) as [[a | e |] s1]; intros Hk.
  - exists a, s1. split; [reflexivity | exact Hk].
  - discriminate.
  - discriminate.
Qed.

(** A bind that throws threw in its first half or in its second. *)
Lemma bind_throws_inv {TM A B} (m : M TM A) (k : A -> M TM B) s e s' :
  bind m k s = (Throws e, s') ->
  m s = (Throws e, s') \/
  exists a s1, m s = (Returns a, s1) /\ k a s1 = (Throws e, s').
Proof.
  unfold bind. destruct (m s) as [[a | e1 |] s1]; intros Hk.
  - right. exists a, s1. split; [reflexivity | exact Hk].
  - left. injection Hk as -> ->. reflexivity.
  - discriminate.
Qed.

Lemma try_catch_returns {TM A} (m : M TM A) handles h s a s' :
  m s = (Returns a, s') -> try_catch m handles h s = (Returns a, s').
Proof. intros Hm. unfold try_catch. now rewrite Hm. Qed.

Lemma try_catch_caught {TM A} (m : M TM A) handles h s e s' :
  m s = (Throws e, s') -> handles e = true ->
  try_catch m handles h s = h e s'.
Proof. intros Hm He. unfold try_catch. now rewrite Hm, He. Qed.

Lemma try_catch_passed {TM A} (m : M TM A) handles h s e s' :
  m s = (Throws e, s') -> handles e = false ->
  try_catch m handles h s = (Throws e, s').
Proof. intros Hm He. unfold try_catch. now rewrite Hm, He. Qed.

Lemma Assert_holds {config : OmConfig} {TM} (s : TM) :
  Assert true s = (Returns tt, s).
Proof. unfold Assert. now rewrite andb_false_r. Qed.

Lemma Assert_outcome {config : OmConfig} {TM} (c : bool) (s : TM) :
  Assert c s =
  (if assertions_enabled && negb c then Throws OmAssertionError
   else Returns tt, s).
Proof. unfold Assert. now destruct (assertions_enabled && negb c). Qed.

(** Whether an assertion passes does not depend on the tables. *)
Lemma Assert_elsewhere {config : OmConfig} {TM TM'} (c : bool) (s s1 : TM)
    (s2 : TM') :
  Assert c s = (Returns tt, s1) -> Assert c s2 = (Returns tt, s2).
Proof.
  rewrite !Assert_outcome.
  destruct (assertions_enabled && negb c); [discriminate | reflexivity].
Qed.

Lemma nonzero_docid (did : om_docid) : did <> 0 -> negb (did =? 0) = true.
Proof. intros Hd. apply negb_true_iff. now apply N.eqb_neq. Qed.

(** *** The read-only database refuses to be written to *)

(** C4 (amended).  On the read-only database [begin_session] fails at once
    with an InvalidOperation error saying that the database was opened
    readonly, for every timeout; [add_document] fails at once with an
    Internal error, for every document; [end_session], [flush], the three
    transaction calls, [delete_document] and [replace_document] are an
    [Assert(false)] each: an assertion error where assertions are compiled
    in, a plain return where they are not.  None of them touches the
    tables. *)
Theorem readonly_mutation_entry_points {config : OmConfig} {TM : Type}
    {T : QuartzTableManager TM} (s : TM) (timeout : om_timeout)
    (did : om_docid) (document : OmDocumentContents) :
  QuartzDatabase.do_begin_session timeout s =
    (Throws (OmInvalidOperationError
       "Cannot begin a modification session: database opened readonly."), s)
  /\ QuartzDatabase.do_add_document document s =
    (Throws (OmInternalError
       "QuartzDatabase::do_add_document() called, but QuartzDatabase is not a modifiable database."),
     s)
  /\ QuartzDatabase.do_end_session s = (assert_false_outcome, s)
  /\ QuartzDatabase.do_flush s = (assert_false_outcome, s)
  /\ QuartzDatabase.do_begin_transaction s = (assert_false_outcome, s)
  /\ QuartzDatabase.do_commit_transaction s = (assert_false_outcome, s)
  /\ QuartzDatabase.do_cancel_transaction s = (assert_false_outcome, s)
  /\ QuartzDatabase.do_delete_document did s = (assert_false_outcome, s)
  /\ QuartzDatabase.do_replace_document did document s =
     (assert_false_outcome, s).
Proof.
  assert (Hguard : Assert false s = (assert_false_outcome, s)).
  { rewrite Assert_outcome. unfold assert_false_outcome.
    now rewrite andb_true_r. }
  repeat split; try exact Hguard; reflexivity.
Qed.

(** C4, as stated, fails: [add_document] on the read-only database raises an
    Internal error, which is no InvalidOperation error, and in a build
    without assertions [end_session] returns. *)
Lemma readonly_add_document_is_internal_error :
  QuartzDatabase.do_add_document doc1 Reference.empty_database =
    (Throws (OmInternalError
       "QuartzDatabase::do_add_document() called, but QuartzDatabase is not a modifiable database."),
     Reference.empty_database)
  /\ (forall msg e,
        e = OmInternalError
          "QuartzDatabase::do_add_document() called, but QuartzDatabase is not a modifiable database." ->
        e <> OmInvalidOperationError msg)
  /\ QuartzDatabase.do_end_session (config := release_build)
       Reference.empty_database =
     (Returns tt, Reference.empty_database).
Proof.
  split; [reflexivity | split; [| reflexivity]].
  intros msg e -> Heq. discriminate Heq.
Qed.

(** *** The calls that are not implemented *)

(** C9 (amended).  For a non-zero docid and any other argument,
    [get_doclength] and [open_position_list] on both databases, and
    [replace_document] and the three transaction calls on the writable
    database, raise an Unimplemented error and leave the tables as they
    were. *)
Theorem unimplemented_entry_points {config : OmConfig} {TM : Type}
    {T : QuartzTableManager TM} (s : TM) (did : om_docid) (name : om_termname)
    (document : OmDocumentContents) :
  did <> 0 ->
  QuartzDatabase.get_doclength did s =
    (Throws (OmUnimplementedError
       "QuartzDatabase::get_doclength() not yet implemented"), s)
  /\ QuartzWritableDatabase.get_doclength did s =
    (Throws (OmUnimplementedError
       "QuartzDatabase::get_doclength() not yet implemented"), s)
  /\ QuartzDatabase.open_position_list did name s =
    (Throws (OmUnimplementedError
       "Quartz databases do not support opening positionlist"), s)
  /\ QuartzWritableDatabase.open_position_list did name s =
    (Throws (OmUnimplementedError
       "Quartz databases do not support opening positionlist"), s)
  /\ QuartzWritableDatabase.do_replace_document did document s =
    (Throws (OmUnimplementedError
       "QuartzWritableDatabase::do_replace_document() not yet implemented"),
     s)
  /\ QuartzWritableDatabase.do_begin_transaction s =
    (Throws (OmUnimplementedError
       "QuartzDatabase::do_begin_transaction() not yet implemented"), s)
  /\ QuartzWritableDatabase.do_commit_transaction s =
    (Throws (OmUnimplementedError
       "QuartzDatabase::do_commit_transaction() not yet implemented"), s)
  /\ QuartzWritableDatabase.do_cancel_transaction s =
    (Throws (OmUnimplementedError
       "QuartzDatabase::do_cancel_transaction() not yet implemented"), s).
Proof.
  intros Hdid.
  assert (Hassert : Assert (negb (did =? 0)) s = (Returns tt, s)).
  { rewrite (nonzero_docid did Hdid). apply Assert_holds. }
  unfold QuartzWritableDatabase.get_doclength,
    QuartzDatabase.get_doclength, QuartzDatabase.open_position_list,
    QuartzWritableDatabase.open_position_list,
    QuartzWritableDatabase.do_replace_document, OmLockSentry.
  rewrite !(bind_returns _ _ _ _ _ Hassert).
  repeat split.
  unfold QuartzWritableDatabase.buffered_tables_nonnull.
  now rewrite (bind_returns _ _ _ _ _ (Assert_holds s)).
Qed.

Lemma unimplemented_entry_points_witness :
  1 <> 0
  /\ fst (QuartzWritableDatabase.do_replace_document (config := debug_build)
            1 doc2 after_doc1) =
     Throws (OmUnimplementedError
       "QuartzWritableDatabase::do_replace_document() not yet implemented")
  /\ fst (QuartzDatabase.get_doclength (config := debug_build) 1 after_doc1) =
     Throws (OmUnimplementedError
       "QuartzDatabase::get_doclength() not yet implemented").
Proof.
  assert (Hdid : (1 : N) <> 0) by discriminate.
  split; [exact Hdid |].
  destruct (unimplemented_entry_points (config := debug_build)
              (T := Reference.tables) after_doc1 1 "cat" doc2 Hdid)
    as (Hlen & _ & _ & _ & Hreplace & _).
  rewrite Hreplace, Hlen. split; reflexivity.
Defined.

(** C9, as stated, fails on the read-only database: [begin_transaction]
    there is an [Assert(false)], so it raises an assertion error or, without
    assertions, returns; neither is an Unimplemented error. *)
Lemma readonly_begin_transaction_not_unimplemented :
  QuartzDatabase.do_begin_transaction (config := debug_build)
    Reference.empty_database =
    (Throws OmAssertionError, Reference.empty_database)
  /\ QuartzDatabase.do_begin_transaction (config := release_build)
       Reference.empty_database =
     (Returns tt, Reference.empty_database)
  /\ QuartzDatabase.do_replace_document (config := debug_build) 1 doc1
       Reference.empty_database =
     (Throws OmAssertionError, Reference.empty_database).
Proof. repeat split. Qed.

(** *** The average length *)

(** C7.  [get_avlength] returns 0 when the document count is 0, and
    otherwise the stored total length divided by the document count; the
    writable database answers as the read-only one. *)
Theorem get_avlength_spec {config : OmConfig} {TM : Type} {T : QuartzTableManager TM}
    (s s1 s2 : TM) (docs : om_doccount) (total : om_totlength) :
  QuartzRecordManager_get_doccount s = (Returns docs, s1) ->
  (docs <> 0 -> QuartzRecordManager_get_total_length s1 = (Returns total, s2)) ->
  QuartzDatabase.get_avlength s =
    (if docs =? 0 then (Returns doclength_zero, s1)
     else (Returns (totlength_div total docs), s2))
  /\ QuartzWritableDatabase.get_avlength s = QuartzDatabase.get_avlength s.
Proof.
  intros Hdocs Htotal. split; [| reflexivity].
  unfold QuartzDatabase.get_avlength, OmLockSentry,
    QuartzDatabase.get_avlength_internal,
    QuartzDatabase.get_doccount_internal.
  rewrite (bind_returns _ _ _ _ _ Hdocs).
  destruct (N.eqb_spec docs 0) as [Hzero | Hpos].
  - reflexivity.
  - now rewrite (bind_returns _ _ _ _ _ (Htotal Hpos)).
Qed.

Lemma get_avlength_spec_witness :
  QuartzRecordManager_get_doccount (QuartzTableManager := Reference.tables)
    after_doc1 = (Returns 1, after_doc1)
  /\ QuartzRecordManager_get_total_length
       (QuartzTableManager := Reference.tables) after_doc1 =
     (Returns 3, after_doc1)
  /\ QuartzDatabase.get_avlength (config := debug_build) (T := Reference.tables)
       after_doc1 =
     (Returns (totlength_div (OmConfig := debug_build) 3 1), after_doc1).
Proof.
  assert (Hdocs : QuartzRecordManager_get_doccount
            (QuartzTableManager := Reference.tables) after_doc1 =
          (Returns 1, after_doc1)) by (vm_compute; reflexivity).
  assert (Htotal : QuartzRecordManager_get_total_length
            (QuartzTableManager := Reference.tables) after_doc1 =
          (Returns 3, after_doc1)) by (vm_compute; reflexivity).
  split; [exact Hdocs | split; [exact Htotal |]].
  exact (proj1 (get_avlength_spec (config := debug_build) (T := Reference.tables)
                  after_doc1 after_doc1 after_doc1 1 3 Hdocs
                  (fun _ => Htotal))).
Defined.

(** *** The retry loop of [get_document] *)

(** One pass through the loop. *)
Lemma while_tries_left_step {config : OmConfig} {TM : Type}
    {T : QuartzTableManager TM} (n : nat) (did : om_docid) :
  QuartzDatabase.while_tries_left (S n) did =
  try_catch (QuartzDatabase.read_document did) is_OmDatabaseModifiedError
    (fun e =>
       if (0 <? Z.of_nat (S n))%Z
       then reopen_tables_because_overwritten ;;;
            QuartzDatabase.while_tries_left n did
       else throw e).
Proof. reflexivity. Qed.

Section Retry.
Context {config : OmConfig} {TM : Type} (T : QuartzTableManager TM).
Variables (did : om_docid) (msg : string).

(** The record read, first call of every attempt, finds the tables
    overwritten in whatever state it is made; reopening them succeeds. *)
Hypothesis record_read_modified :
  forall s0, exists s1,
    QuartzRecordManager_get_record did s0 =
    (Throws (OmDatabaseModifiedError msg), s1).
Hypothesis reopen_succeeds :
  forall s0, exists s1,
    reopen_tables_because_overwritten s0 = (Returns tt, s1).

Lemma read_document_modified (s : TM) (log : list TableCall) :
  exists s1,
    QuartzDatabase.read_document (T := logged T) did (s, log) =
    (Throws (OmDatabaseModifiedError msg),
     (s1, log ++ [Call_get_record did (Throws (OmDatabaseModifiedError msg))])).
Proof.
  destruct (record_read_modified s) as [s1 Hread]. exists s1.
  unfold QuartzDatabase.read_document. apply bind_throws.
  cbn. unfold logging. cbn. now rewrite Hread.
Qed.

Lemma read_document_modified_plain (s : TM) :
  exists s1,
    QuartzDatabase.read_document did s =
    (Throws (OmDatabaseModifiedError msg), s1).
Proof.
  destruct (record_read_modified s) as [s1 Hread]. exists s1.
  unfold QuartzDatabase.read_document. now apply bind_throws.
Qed.

(** Every pass through the loop ends in the handler, which always takes the
    reopen branch; after [n] passes the loop condition fails and control
    leaves the function without a [return] or a [throw]. *)
Lemma while_tries_left_exhausted (n : nat) :
  forall s log, exists s',
    QuartzDatabase.while_tries_left (T := logged T) n did (s, log) =
    (NoReturnValue, (s', log ++ failed_attempts did msg n)).
Proof.
  induction n as [| n IH]; intros s log.
  - exists s. cbn. now rewrite app_nil_r.
  - destruct (read_document_modified s log) as [s1 Hread].
    destruct (reopen_succeeds s1) as [s2 Hreopen].
    destruct (IH s2
      ((log ++ [Call_get_record did (Throws (OmDatabaseModifiedError msg))])
         ++ [Call_reopen_tables_because_overwritten])) as [s' Hrest].
    exists s'.
    rewrite while_tries_left_step.
    rewrite (try_catch_caught _ _ _ _ _ _ Hread eq_refl).
    replace (0 <? Z.of_nat (S n))%Z with true
      by (symmetry; apply Z.ltb_lt; lia).
    erewrite bind_returns.
    + rewrite Hrest. unfold failed_attempts. cbn [replicate concat].
      now rewrite <- !app_assoc.
    + cbn. unfold logging. cbn. now rewrite Hreopen.
Qed.

Lemma while_tries_left_exhausted_plain (n : nat) :
  forall s, exists s',
    QuartzDatabase.while_tries_left n did s = (NoReturnValue, s').
Proof.
  induction n as [| n IH]; intros s.
  - now exists s.
  - destruct (read_document_modified_plain s) as [s1 Hread].
    destruct (reopen_succeeds s1) as [s2 Hreopen].
    destruct (IH s2) as [s' Hrest]. exists s'.
    rewrite while_tries_left_step.
    rewrite (try_catch_caught _ _ _ _ _ _ Hread eq_refl).
    replace (0 <? Z.of_nat (S n))%Z with true
      by (symmetry; apply Z.ltb_lt; lia).
    now rewrite (bind_returns _ _ _ _ _ Hreopen).
Qed.

End Retry.

(** C1 (the code departs from it).  When every read attempt finds the tables
    overwritten, [get_document] makes five attempts, reopening the tables
    after each, and then reaches the end of the function: no value is
    returned and the last [OmDatabaseModifiedError] is not raised again. *)
Theorem get_document_retries_exhausted {config : OmConfig} {TM : Type}
    (T : QuartzTableManager TM) (did : om_docid) (msg : string) (s : TM) :
  did <> 0 ->
  (forall s0, exists s1,
     QuartzRecordManager_get_record did s0 =
     (Throws (OmDatabaseModifiedError msg), s1)) ->
  (forall s0, exists s1,
     reopen_tables_because_overwritten s0 = (Returns tt, s1)) ->
  (exists s',
     QuartzDatabase.do_get_document_internal (T := logged T) did (s, []) =
     (NoReturnValue, (s', failed_attempts did msg 5)))
  /\ (exists s', QuartzDatabase.do_get_document (T := T) did s =
                 (NoReturnValue, s')).
Proof.
  intros Hdid Hmodified Hreopen. split.
  - destruct (while_tries_left_exhausted T did msg Hmodified Hreopen 5 s [])
      as [s' Hloop].
    exists s'. unfold QuartzDatabase.do_get_document_internal.
    erewrite bind_returns; [exact Hloop |].
    rewrite (nonzero_docid did Hdid). apply Assert_holds.
  - destruct (while_tries_left_exhausted_plain T did msg Hmodified Hreopen 5 s)
      as [s' Hloop].
    exists s'.
    unfold QuartzDatabase.do_get_document, OmLockSentry,
      QuartzDatabase.do_get_document_internal.
    erewrite bind_returns; [exact Hloop |].
    rewrite (nonzero_docid did Hdid). apply Assert_holds.
Qed.

Lemma get_document_retries_exhausted_witness :
  1 <> 0
  /\ (exists s',
        QuartzDatabase.do_get_document_internal (config := debug_build)
          (T := logged Overwritten.tables) 1 (0%nat, []) =
        (NoReturnValue, (s', failed_attempts 1 "Db block overwritten" 5)))
  /\ (exists s',
        QuartzDatabase.do_get_document (config := debug_build)
          (T := Overwritten.tables) 1 0%nat = (NoReturnValue, s')).
Proof.
  assert (Hdid : (1 : N) <> 0) by discriminate.
  split; [exact Hdid |].
  apply (get_document_retries_exhausted (config := debug_build)
           Overwritten.tables 1 "Db block overwritten" 0%nat Hdid).
  - intros s0. exists s0. reflexivity.
  - intros s0. exists (S s0). reflexivity.
Defined.

(** The same run, evaluated: five record reads, five reopens, no value. *)
Example get_document_overwritten_five_times :
  QuartzDatabase.do_get_document_internal (config := debug_build)
    (T := logged Overwritten.tables) 1 (0%nat, []) =
  (NoReturnValue,
   (5%nat,
    [Call_get_record 1 (Throws (OmDatabaseModifiedError "Db block overwritten"));
     Call_reopen_tables_because_overwritten;
     Call_get_record 1 (Throws (OmDatabaseModifiedError "Db block overwritten"));
     Call_reopen_tables_because_overwritten;
     Call_get_record 1 (Throws (OmDatabaseModifiedError "Db block overwritten"));
     Call_reopen_tables_because_overwritten;
     Call_get_record 1 (Throws (OmDatabaseModifiedError "Db block overwritten"));
     Call_reopen_tables_because_overwritten;
     Call_get_record 1 (Throws (OmDatabaseModifiedError "Db block overwritten"));
     Call_reopen_tables_because_overwritten])).
Proof. vm_compute. reflexivity. Qed.

(** *** A logged table layer changes nothing but the log *)

Lemma erases_ret {TM A} (a : A) : erases (TM := TM) (ret a) (ret a).
Proof. intros s log. exists []. cbn. now rewrite app_nil_r. Qed.

Lemma erases_throw {TM A} (e : OmError) :
  erases (TM := TM) (A := A) (throw e) (throw e).
Proof. intros s log. exists []. cbn. now rewrite app_nil_r. Qed.

Lemma erases_flow_off_end {TM A} :
  erases (TM := TM) (A := A) flow_off_end flow_off_end.
Proof. intros s log. exists []. cbn. now rewrite app_nil_r. Qed.

Lemma erases_logging {TM A} (c : outcome A -> TableCall) (op : M TM A) :
  erases (logging c op) op.
Proof.
  intros s log. unfold logging. cbn.
  destruct (op s) as [r s1]. now exists [c r].
Qed.

Lemma erases_bind {TM A B} (ml : M (TM * list TableCall) A) (m : M TM A)
    (kl : A -> M (TM * list TableCall) B) (k : A -> M TM B) :
  erases ml m -> (forall a, erases (kl a) (k a)) ->
  erases (bind ml kl) (bind m k).
Proof.
  intros Hm Hk s log. destruct (Hm s log) as [calls Hml].
  unfold bind. rewrite Hml.
  destruct (m s) as [[a | e |] s1]; cbn.
  - destruct (Hk a s1 (log ++ calls)) as [calls' Hkl].
    exists (calls ++ calls'). now rewrite Hkl, app_assoc.
  - now exists calls.
  - now exists calls.
Qed.

Lemma erases_try_catch {TM A} (ml : M (TM * list TableCall) A) (m : M TM A)
    (handles : OmError -> bool) (hl : OmError -> M (TM * list TableCall) A)
    (h : OmError -> M TM A) :
  erases ml m -> (forall e, erases (hl e) (h e)) ->
  erases (try_catch ml handles hl) (try_catch m handles h).
Proof.
  intros Hm Hh s log. destruct (Hm s log) as [calls Hml].
  unfold try_catch. rewrite Hml.
  destruct (m s) as [[a | e |] s1]; cbn.
  - now exists calls.
  - destruct (handles e).
    + destruct (Hh e s1 (log ++ calls)) as [calls' Hhl].
      exists (calls ++ calls'). now rewrite Hhl, app_assoc.
    + now exists calls.
  - now exists calls.
Qed.

Lemma erases_for_each {TM A} (l : list A)
    (bodyl : A -> M (TM * list TableCall) unit) (body : A -> M TM unit) :
  (forall x, erases (bodyl x) (body x)) ->
  erases (for_each l bodyl) (for_each l body).
Proof.
  intros Hbody. induction l as [| x rest IH]; cbn [for_each].
  - apply erases_ret.
  - apply erases_bind; [apply Hbody | intros _; exact IH].
Qed.

Lemma erases_Assert {config : OmConfig} {TM} (c : bool) :
  erases (TM := TM) (Assert c) (Assert c).
Proof.
  unfold Assert.
  destruct (assertions_enabled && negb c);
    [apply erases_throw | apply erases_ret].
Qed.

Lemma erases_do_cancel {TM} (T : QuartzTableManager TM) :
  erases (do_cancel (T := logged T)) (do_cancel (T := T)).
Proof. intros s log. now exists [Call_cancel]. Qed.

(** Takes a goal [erases ml m] apart along the program. *)
Ltac erase :=
  repeat match goal with
    | |- erases (ret _) _ => apply erases_ret
    | |- erases (throw _) _ => apply erases_throw
    | |- erases flow_off_end _ => apply erases_flow_off_end
    | |- erases (Assert _) _ => apply erases_Assert
    | |- erases do_cancel _ => apply erases_do_cancel
    | |- erases (bind _ _) _ => apply erases_bind; [| intros ?]
    | |- erases (try_catch _ _ _) _ => apply erases_try_catch; [| intros ?]
    | |- erases (for_each _ _) _ => apply erases_for_each; intros ?
    | |- erases (if ?c then _ else _) _ => destruct c
    | |- erases _ _ => exact (erases_logging _ _)
    end.

Section Erasure.
Context {config : OmConfig} {TM : Type} (T : QuartzTableManager TM).

Lemma erases_read_terms did entries :
  forall document,
    erases (QuartzDatabase.read_terms (T := logged T) did entries document)
      (QuartzDatabase.read_terms (T := T) did entries document).
Proof.
  induction entries as [| [name w] rest IH]; intros document;
    cbn [QuartzDatabase.read_terms].
  - erase.
  - erase. apply IH.
Qed.

Lemma erases_read_document did :
  erases (QuartzDatabase.read_document (T := logged T) did)
    (QuartzDatabase.read_document (T := T) did).
Proof.
  unfold QuartzDatabase.read_document, QuartzDatabase.get_doccount_internal.
  erase. apply erases_read_terms.
Qed.

Lemma erases_while_tries_left n did :
  erases (QuartzDatabase.while_tries_left (T := logged T) n did)
    (QuartzDatabase.while_tries_left (T := T) n did).
Proof.
  induction n as [| n IH].
  - cbn. erase.
  - rewrite !while_tries_left_step.
    apply erases_try_catch; [apply erases_read_document | intros e].
    erase. exact IH.
Qed.

Lemma erases_do_get_document_internal did :
  erases (QuartzDatabase.do_get_document_internal (T := logged T) did)
    (QuartzDatabase.do_get_document_internal (T := T) did).
Proof.
  unfold QuartzDatabase.do_get_document_internal.
  erase. apply erases_while_tries_left.
Qed.

Lemma erases_add_document_steps document new_doclen :
  erases
    (QuartzWritableDatabase.add_document_steps (T := logged T) document
       new_doclen)
    (QuartzWritableDatabase.add_document_steps (T := T) document new_doclen).
Proof. unfold QuartzWritableDatabase.add_document_steps. erase. Qed.

Lemma erases_do_add_document document :
  erases (QuartzWritableDatabase.do_add_document (T := logged T) document)
    (QuartzWritableDatabase.do_add_document (T := T) document).
Proof.
  unfold QuartzWritableDatabase.do_add_document, OmLockSentry.
  erase. apply erases_add_document_steps.
Qed.

Lemma erases_delete_document_steps did document :
  erases
    (QuartzWritableDatabase.delete_document_steps (T := logged T) did
       document)
    (QuartzWritableDatabase.delete_document_steps (T := T) did document).
Proof.
  unfold QuartzWritableDatabase.delete_document_steps,
    QuartzDatabase.get_doccount_internal.
  erase.
Qed.

Lemma erases_do_delete_document did :
  erases (QuartzWritableDatabase.do_delete_document (T := logged T) did)
    (QuartzWritableDatabase.do_delete_document (T := T) did).
Proof.
  unfold QuartzWritableDatabase.do_delete_document, OmLockSentry.
  erase.
  - apply erases_do_get_document_internal.
  - apply erases_delete_document_steps.
Qed.

End Erasure.

(** What the erasure gives for one run: the logged run ends as the plain
    run does and extends the log it started with. *)
Lemma erases_run {TM A} (ml : M (TM * list TableCall) A) (m : M TM A)
    s log r s' :
  erases ml m -> m s = (r, s') ->
  exists calls, ml (s, log) = (r, (s', log ++ calls)).
Proof.
  intros Herases Hm. destruct (Herases s log) as [calls Hml].
  exists calls. now rewrite Hml, Hm.
Qed.

(** Conversely, however a logged run ends, the plain run ends the same. *)
Lemma erases_run_inv {TM A} (ml : M (TM * list TableCall) A) (m : M TM A)
    s log r s' log' :
  erases ml m -> ml (s, log) = (r, (s', log')) -> m s = (r, s').
Proof.
  intros Herases Hml. destruct (Herases s log) as [calls Hrun].
  rewrite Hrun in Hml. destruct (m s) as [r1 s1]. cbn in Hml.
  now injection Hml as -> -> _.
Qed.

(** *** Reading the log of a run that returned *)

Lemma logging_returns_inv {TM A} (c : outcome A -> TableCall) (op : M TM A)
    s log a s' log' :
  logging c op (s, log) = (Returns a, (s', log')) ->
  op s = (Returns a, s') /\ log' = log ++ [c (Returns a)].
Proof.
  unfold logging. cbn. destruct (op s) as [r s1].
  intros Heq. injection Heq as -> -> <-. now split.
Qed.

Lemma Assert_returns_inv {config : OmConfig} {TM} (c : bool) (s s' : TM) :
  Assert c s = (Returns tt, s') ->
  s' = s /\ (assertions_enabled = true -> c = true).
Proof.
  rewrite Assert_outcome.
  destruct assertions_enabled, c; cbn; intros Heq;
    try discriminate; injection Heq as <-; now split.
Qed.

(** A [for] loop that returned made the calls of its passes, in order. *)
Lemma for_each_log {TM A} (body : A -> M (TM * list TableCall) unit)
    (calls : A -> list TableCall) :
  (forall x s log s' log',
     body x (s, log) = (Returns tt, (s', log')) -> log' = log ++ calls x) ->
  forall l s log s' log',
    for_each l body (s, log) = (Returns tt, (s', log')) ->
    log' = log ++ flat_map calls l.
Proof.
  intros Hbody l. induction l as [| x rest IH]; intros s log s' log' Hrun.
  - cbn in Hrun. injection Hrun as <- <-. cbn. now rewrite app_nil_r.
  - cbn [for_each] in Hrun.
    apply bind_returns_inv in Hrun as ([] & [s1 log1] & Hx & Hrest).
    apply Hbody in Hx as ->. apply IH in Hrest as ->.
    cbn [flat_map]. now rewrite app_assoc.
Qed.

(** The handler of the mutations never returns: a [try] block that returned
    did so through its body. *)
Lemma try_cancel_returns_inv {TM A} {T : QuartzTableManager TM}
    (m : M TM A) s a s' :
  try_catch m any_error (fun e => do_cancel ;;; throw e) s = (Returns a, s') ->
  m s = (Returns a, s').
Proof.
  unfold try_catch. destruct (m s) as [[a1 | e |] s1]; cbn; intros Heq.
  - exact Heq.
  - discriminate.
  - discriminate.
Qed.

(** When the body of the [try] block throws, the handler cancels the
    buffered changes and throws the same exception again. *)
Lemma try_cancel_throws {TM A} {T : QuartzTableManager TM}
    (m : M TM A) s e s2 :
  m s = (Throws e, s2) ->
  try_catch m any_error (fun e => do_cancel ;;; throw e) s =
  (Throws e, cancel s2).
Proof. intros Hm. unfold try_catch. now rewrite Hm. Qed.

Lemma try_cancel_throws_inv {TM A} {T : QuartzTableManager TM}
    (m : M TM A) s e s' :
  try_catch m any_error (fun e => do_cancel ;;; throw e) s = (Throws e, s') ->
  exists s2, m s = (Throws e, s2) /\ s' = cancel s2.
Proof.
  unfold try_catch. destruct (m s) as [[a1 | e1 |] s1]; cbn; intros Heq.
  - discriminate.
  - injection Heq as -> <-. now exists s1.
  - discriminate.
Qed.

(** *** The insert protocol *)

Lemma fold_new_doclen (ts : document_terms) (start : N) :
  fold_left
    (fun new_doclen term => quartz_doclen_wrap (new_doclen + wdf (snd term)))
    ts (quartz_doclen_wrap start) =
  quartz_doclen_wrap (start + sum_wdf ts).
Proof.
  revert start. induction ts as [| term rest IH]; intros start;
    cbn [fold_left].
  - cbn. now rewrite N.add_0_r.
  - replace (quartz_doclen_wrap (quartz_doclen_wrap start + wdf (snd term)))
      with (quartz_doclen_wrap (start + wdf (snd term))).
    + rewrite IH. f_equal. unfold sum_wdf. cbn [fold_right]. lia.
    + unfold quartz_doclen_wrap.
      now rewrite N.Div0.add_mod_idemp_l.
Qed.

(** The loop that computes [new_doclen] sums the wdf of the terms in the
    arithmetic of [quartz_doclen_t]. *)
Lemma calculate_new_doclen_sum (document : OmDocumentContents) :
  QuartzWritableDatabase.calculate_new_doclen document =
  document_length document.
Proof.
  unfold QuartzWritableDatabase.calculate_new_doclen, document_length.
  exact (fold_new_doclen (terms document) 0).
Qed.

(** A sum that fits is the document length. *)
Lemma document_length_fits (document : OmDocumentContents) :
  sum_wdf (terms document) < 2 ^ quartz_doclen_bits ->
  document_length document = sum_wdf (terms document).
Proof. intros Hfits. now apply N.mod_small. Qed.

Lemma flat_map_singleton {A B} (f : A -> B) (l : list A) :
  flat_map (fun x => [f x]) l = map f l.
Proof. induction l as [| x rest IH]; cbn; [reflexivity | now rewrite IH]. Qed.

Lemma add_document_steps_log {config : OmConfig} {TM : Type}
    (T : QuartzTableManager TM) document s log did s' log' :
  QuartzWritableDatabase.add_document_steps (T := logged T) document
    (document_length document) (s, log) = (Returns did, (s', log')) ->
  log' = log ++ add_document_calls document did
  /\ (assertions_enabled = true -> did <> 0)
  /\ (exists s1,
        QuartzRecordManager_add_record (QuartzTableManager := T)
          (data document) (document_length document) s = (Returns did, s1)).
Proof.
  unfold QuartzWritableDatabase.add_document_steps. intros Hrun.
  apply bind_returns_inv in Hrun as (did1 & [s1 log1] & Hadd & Hrun).
  apply logging_returns_inv in Hadd as [Hadd ->].
  apply bind_returns_inv in Hrun as ([] & [s2 log2] & Hassert & Hrun).
  apply Assert_returns_inv in Hassert as [Heq Hnonzero].
  injection Heq as -> ->.
  apply bind_returns_inv in Hrun as ([] & [s3 log3] & Hkeys & Hrun).
  apply (for_each_log _
           (fun key => [Call_add_attribute (snd key) did1 (fst key)]))
    in Hkeys as ->.
  2: { intros key sa la sb lb Hcall.
       now apply logging_returns_inv in Hcall as [_ ->]. }
  apply bind_returns_inv in Hrun as ([] & [s4 log4] & Hset & Hrun).
  apply logging_returns_inv in Hset as [_ ->].
  apply bind_returns_inv in Hrun as ([] & [s5 log5] & Hmodify & Hrun).
  apply logging_returns_inv in Hmodify as [_ ->].
  apply bind_returns_inv in Hrun as ([] & [s6 log6] & Hterms & Hrun).
  apply (for_each_log _
           (fun term =>
              [Call_increment_termfreq (tname (snd term));
               Call_add_entry (tname (snd term)) did1 (wdf (snd term))
                 (document_length document);
               Call_set_positionlist did1 (tname (snd term))
                 (positions (snd term))]))
    in Hterms as ->.
  2: { intros term sa la sb lb Hcall.
       apply bind_returns_inv in Hcall as ([] & [sc lc] & Hinc & Hcall).
       apply logging_returns_inv in Hinc as [_ ->].
       apply bind_returns_inv in Hcall as ([] & [sd ld] & Hentry & Hcall).
       apply logging_returns_inv in Hentry as [_ ->].
       apply logging_returns_inv in Hcall as [_ ->].
       now rewrite <- !app_assoc. }
  cbn in Hrun. injection Hrun as <- <- <-.
  split; [| split].
  - unfold add_document_calls. rewrite flat_map_singleton.
    rewrite <- !app_assoc. reflexivity.
  - intros Henabled Hzero. specialize (Hnonzero Henabled).
    subst did1. discriminate Hnonzero.
  - exists s1. exact Hadd.
Qed.

Lemma existsb_false {A} (f : A -> bool) (l : list A) :
  (forall x, In x l -> f x = false) -> existsb f l = false.
Proof.
  intros Hall. induction l as [| x rest IH]; cbn; [reflexivity |].
  rewrite (Hall x (or_introl eq_refl)). apply IH.
  intros y Hy. apply Hall. now right.
Qed.

(** The insert protocol neither commits nor cancels. *)
Lemma add_document_calls_buffered document did :
  apply_called (add_document_calls document did) = false
  /\ cancel_called (add_document_calls document did) = false.
Proof.
  assert (Hcalls : forall c, In c (add_document_calls document did) ->
            is_Call_apply c = false /\ is_Call_cancel c = false).
  { intros c. unfold add_document_calls. cbn [In].
    rewrite !in_app_iff, in_map_iff, in_flat_map. cbn [In].
    intros [<- | [(key & <- & _) | [[<- | [<- | []]] | (term & _ & Hc)]]];
      try (split; reflexivity).
    destruct Hc as [<- | [<- | [<- | []]]]; split; reflexivity. }
  split; apply existsb_false; intros c Hc; now apply Hcalls in Hc.
Qed.

(** C5 (amended).  A call of [add_document] that succeeds has computed
    [new_doclen] as the sum of the wdf of the document's terms in the
    arithmetic of [quartz_doclen_t], that is modulo 2^32 - the sum itself
    whenever it is below 2^32 - and has made exactly these calls, in this
    order: add the record (which allocates the docid, not 0), store each
    attribute, write the term list with [new_doclen], add [new_doclen] to
    the total length (old length 0), and for each term increment its
    termfreq, insert (did, wdf, new_doclen) in its posting list and store
    its position list.  It returns the allocated docid, and has neither
    applied nor cancelled the buffered changes. *)
Theorem add_document_protocol {config : OmConfig} {TM : Type}
    (T : QuartzTableManager TM) (document : OmDocumentContents)
    (s s' : TM) (did : om_docid) :
  (assertions_enabled = true \/
   forall d len s0 did0 s1,
     QuartzRecordManager_add_record (QuartzTableManager := T) d len s0 =
     (Returns did0, s1) -> did0 <> 0) ->
  QuartzWritableDatabase.do_add_document (T := T) document s =
    (Returns did, s') ->
  QuartzWritableDatabase.calculate_new_doclen document =
    sum_wdf (terms document) mod 2 ^ 32
  /\ (sum_wdf (terms document) < 2 ^ 32 ->
      QuartzWritableDatabase.calculate_new_doclen document =
      sum_wdf (terms document))
  /\ did <> 0
  /\ QuartzWritableDatabase.do_add_document (T := logged T) document (s, []) =
     (Returns did, (s', add_document_calls document did))
  /\ apply_called (add_document_calls document did) = false
  /\ cancel_called (add_document_calls document did) = false.
Proof.
  intros Hallocator Hrun.
  destruct (erases_run _ _ s [] _ _ (erases_do_add_document T document) Hrun)
    as [calls Hlogged].
  cbn [app] in Hlogged.
  assert (Hsteps := Hlogged).
  unfold QuartzWritableDatabase.do_add_document, OmLockSentry in Hsteps.
  unfold QuartzWritableDatabase.buffered_tables_nonnull in Hsteps.
  rewrite (bind_returns _ _ _ _ _ (Assert_holds _)) in Hsteps.
  apply try_cancel_returns_inv in Hsteps.
  rewrite calculate_new_doclen_sum in Hsteps.
  apply add_document_steps_log in Hsteps
    as (Hcalls & Hasserted & s1 & Hadd).
  cbn [app] in Hcalls. subst calls.
  split; [apply calculate_new_doclen_sum | split; [| split; [| split]]].
  - intros Hfits. rewrite calculate_new_doclen_sum.
    now apply document_length_fits.
  - destruct Hallocator as [Henabled | Hcontract].
    + now apply Hasserted.
    + exact (Hcontract _ _ _ _ _ Hadd).
  - exact Hlogged.
  - apply add_document_calls_buffered.
Qed.

Lemma add_document_protocol_witness :
  assertions_enabled (OmConfig := debug_build) = true
  /\ QuartzWritableDatabase.do_add_document (config := debug_build)
       (T := Reference.tables) doc1 Reference.empty_database =
     (Returns 1, after_doc1)
  /\ QuartzWritableDatabase.do_add_document (config := debug_build)
       (T := logged Reference.tables) doc1 (Reference.empty_database, []) =
     (Returns 1, (after_doc1, add_document_calls doc1 1)).
Proof.
  assert (Hrun : QuartzWritableDatabase.do_add_document
            (config := debug_build) (T := Reference.tables) doc1
            Reference.empty_database = (Returns 1, after_doc1))
    by (vm_compute; reflexivity).
  split; [reflexivity | split; [exact Hrun |]].
  exact (proj1 (proj2 (proj2 (proj2
    (add_document_protocol (config := debug_build) Reference.tables doc1
       Reference.empty_database after_doc1 1 (or_introl eq_refl) Hrun))))).
Defined.

(** C5, as stated, fails for a document whose wdf add up to 2^32 or more:
    the sum of 4294967295 and 1 is 4294967296, and the document length that
    [add_document] computes and hands to every call of the protocol is 0. *)
Lemma add_document_length_wraps :
  sum_wdf (terms doc_wraps) = 4294967296
  /\ QuartzWritableDatabase.calculate_new_doclen doc_wraps = 0
  /\ fst (QuartzWritableDatabase.do_add_document (config := debug_build)
            (T := logged Reference.tables) doc_wraps
            (Reference.empty_database, [])) = Returns 1
  /\ snd (snd (QuartzWritableDatabase.do_add_document (config := debug_build)
                 (T := logged Reference.tables) doc_wraps
                 (Reference.empty_database, []))) =
     [Call_add_record "big" 0 (Returns 1);
      Call_set_entries 1 (terms doc_wraps) 0 false;
      Call_modify_total_length 0 0;
      Call_increment_termfreq "a";
      Call_add_entry "a" 1 4294967295 0;
      Call_set_positionlist 1 "a" [];
      Call_increment_termfreq "b";
      Call_add_entry "b" 1 1 0;
      Call_set_positionlist 1 "b" []].
Proof. repeat apply conj; vm_compute; reflexivity. Qed.

(** *** The delete protocol *)

Lemma delete_document_steps_log {config : OmConfig} {TM : Type}
    (T : QuartzTableManager TM) did document s log s' log' :
  QuartzWritableDatabase.delete_document_steps (T := logged T) did document
    (s, log) = (Returns tt, (s', log')) ->
  exists doccount termlist,
    log' = log ++ delete_document_calls did document doccount termlist.
Proof.
  unfold QuartzWritableDatabase.delete_document_steps,
    QuartzDatabase.get_doccount_internal.
  intros Hrun.
  apply bind_returns_inv in Hrun as ([] & [s1 log1] & Hterms & Hrun).
  apply (for_each_log _
           (fun term =>
              [Call_delete_entry (tname (snd term)) did;
               Call_delete_positionlist did (tname (snd term));
               Call_decrement_termfreq (tname (snd term))]))
    in Hterms as ->.
  2: { intros term sa la sb lb Hcall.
       apply bind_returns_inv in Hcall as ([] & [sc lc] & Hentry & Hcall).
       apply logging_returns_inv in Hentry as [_ ->].
       apply bind_returns_inv in Hcall as ([] & [sd ld] & Hpos & Hcall).
       apply logging_returns_inv in Hpos as [_ ->].
       apply logging_returns_inv in Hcall as [_ ->].
       now rewrite <- !app_assoc. }
  apply bind_returns_inv in Hrun as (doccount & [s2 log2] & Hcount & Hrun).
  apply logging_returns_inv in Hcount as [_ ->].
  apply bind_returns_inv in Hrun as (termlist & [s3 log3] & Hopen & Hrun).
  apply logging_returns_inv in Hopen as [_ ->].
  apply bind_returns_inv in Hrun as ([] & [s4 log4] & Hmodify & Hrun).
  apply logging_returns_inv in Hmodify as [_ ->].
  apply bind_returns_inv in Hrun as ([] & [s5 log5] & Htermlist & Hrun).
  apply logging_returns_inv in Htermlist as [_ ->].
  apply logging_returns_inv in Hrun as [_ ->].
  exists doccount, termlist. unfold delete_document_calls.
  now rewrite <- !app_assoc.
Qed.

(** *** A failed mutation cancels the buffered changes *)

(** C2 (amended).  When a step of the [try] block of [add_document] raises
    an error, the call cancels the buffered changes and raises the same
    error again, so the tables are left as [cancel] leaves them, whatever
    earlier calls had buffered; every failing [add_document] ends this way.
    The same holds for [delete_document] when the error is raised by a step
    that follows the materialisation of the document; a failing
    [delete_document] either ends this way or failed while materialising
    the document, in which case it ends with the error and the tables of
    that read. *)
Theorem failed_mutation_cancels {config : OmConfig} {TM : Type}
    (T : QuartzTableManager TM) :
  (forall document s e s2,
     QuartzWritableDatabase.add_document_steps document
       (QuartzWritableDatabase.calculate_new_doclen document) s =
       (Throws e, s2) ->
     QuartzWritableDatabase.do_add_document document s =
       (Throws e, cancel s2))
  /\ (forall document s e s',
        QuartzWritableDatabase.do_add_document document s = (Throws e, s') ->
        exists s2,
          QuartzWritableDatabase.add_document_steps document
            (QuartzWritableDatabase.calculate_new_doclen document) s =
            (Throws e, s2)
          /\ s' = cancel s2)
  /\ (forall did s document s1 e s2,
        QuartzDatabase.do_get_document_internal did s =
          (Returns document, s1) ->
        QuartzWritableDatabase.delete_document_steps did document s1 =
          (Throws e, s2) ->
        QuartzWritableDatabase.do_delete_document did s =
          (Throws e, cancel s2))
  /\ (forall did s e s',
        QuartzWritableDatabase.do_delete_document did s = (Throws e, s') ->
        QuartzDatabase.do_get_document_internal did s = (Throws e, s')
        \/ exists document s1 s2,
             QuartzDatabase.do_get_document_internal did s =
               (Returns document, s1)
             /\ QuartzWritableDatabase.delete_document_steps did document s1 =
                (Throws e, s2)
             /\ s' = cancel s2).
Proof.
  split; [| split; [| split]].
  - intros document s e s2 Hsteps.
    unfold QuartzWritableDatabase.do_add_document, OmLockSentry,
      QuartzWritableDatabase.buffered_tables_nonnull.
    rewrite (bind_returns _ _ _ _ _ (Assert_holds s)).
    now apply try_cancel_throws.
  - intros document s e s' Hrun.
    unfold QuartzWritableDatabase.do_add_document, OmLockSentry,
      QuartzWritableDatabase.buffered_tables_nonnull in Hrun.
    rewrite (bind_returns _ _ _ _ _ (Assert_holds s)) in Hrun.
    now apply try_cancel_throws_inv in Hrun.
  - intros did s document s1 e s2 Hget Hsteps.
    assert (Hassert : Assert (negb (did =? 0)) s = (Returns tt, s)).
    { unfold QuartzDatabase.do_get_document_internal in Hget.
      apply bind_returns_inv in Hget as ([] & s0 & Hassert & _).
      now destruct (Assert_returns_inv _ _ _ Hassert) as [-> _]. }
    unfold QuartzWritableDatabase.do_delete_document, OmLockSentry,
      QuartzWritableDatabase.buffered_tables_nonnull.
    rewrite (bind_returns _ _ _ _ _ Hassert).
    rewrite (bind_returns _ _ _ _ _ (Assert_holds s)).
    rewrite (bind_returns _ _ _ _ _ Hget).
    now apply try_cancel_throws.
  - intros did s e s' Hrun.
    unfold QuartzWritableDatabase.do_delete_document, OmLockSentry,
      QuartzWritableDatabase.buffered_tables_nonnull in Hrun.
    apply bind_throws_inv in Hrun as [Hassert | ([] & s0 & Hassert & Hrun)].
    + left. unfold QuartzDatabase.do_get_document_internal.
      now apply bind_throws.
    + destruct (Assert_returns_inv _ _ _ Hassert) as [-> _].
      rewrite (bind_returns _ _ _ _ _ (Assert_holds s)) in Hrun.
      apply bind_throws_inv in Hrun
        as [Hget | (document & s1 & Hget & Hrun)].
      * now left.
      * right. apply try_cancel_throws_inv in Hrun as (s2 & Hsteps & ->).
        now exists document, s1, s2.
Qed.

(** The fifth table call of an [add_document] fails; [doc1], buffered by the
    call before, is discarded with the changes of the failed call. *)
Lemma failed_mutation_cancels_witness :
  QuartzWritableDatabase.add_document_steps (config := debug_build)
    (T := Faulty.tables Reference.tables) doc2
    (QuartzWritableDatabase.calculate_new_doclen doc2) (after_doc1, 4%nat) =
    (Throws Faulty.injected,
     (state_after
        (QuartzWritableDatabase.add_document_steps (config := debug_build)
           (T := Faulty.tables Reference.tables) doc2
           (QuartzWritableDatabase.calculate_new_doclen doc2))
        (after_doc1, 4%nat)))
  /\ QuartzWritableDatabase.do_add_document (config := debug_build)
       (T := Faulty.tables Reference.tables) doc2 (after_doc1, 4%nat) =
     (Throws Faulty.injected, (Reference.empty_database, 0%nat)).
Proof.
  assert (Hsteps :
    QuartzWritableDatabase.add_document_steps (config := debug_build)
      (T := Faulty.tables Reference.tables) doc2
      (QuartzWritableDatabase.calculate_new_doclen doc2) (after_doc1, 4%nat) =
    (Throws Faulty.injected,
     (state_after
        (QuartzWritableDatabase.add_document_steps (config := debug_build)
           (T := Faulty.tables Reference.tables) doc2
           (QuartzWritableDatabase.calculate_new_doclen doc2))
        (after_doc1, 4%nat)))) by (vm_compute; reflexivity).
  split; [exact Hsteps |].
  rewrite (proj1 (failed_mutation_cancels (config := debug_build)
                    (Faulty.tables Reference.tables)) _ _ _ _ Hsteps).
  vm_compute. reflexivity.
Defined.

(** C2, as stated, fails for [delete_document]: deleting a docid that is not
    there raises NotFound while the document is materialised; [cancel] is
    not called, and [doc1], buffered by an earlier call, stays buffered. *)
Lemma delete_absent_document_keeps_buffer :
  QuartzWritableDatabase.do_delete_document (config := debug_build)
    (T := logged Reference.tables) 7 (after_doc1, []) =
    (Throws (OmDocNotFoundError "record not found"),
     (after_doc1, [Call_get_record 7
                     (Throws (OmDocNotFoundError "record not found"))]))
  /\ Reference.record_table (Reference.buffered after_doc1) !! 1 =
     Some ("hello", 3)
  /\ Reference.record_table
       (Reference.buffered (Reference.cancel_all after_doc1)) !! 1 = None
  /\ (after_doc1 = Reference.cancel_all after_doc1 -> False).
Proof.
  split; [vm_compute; reflexivity |].
  split; [vm_compute; reflexivity |].
  split; [vm_compute; reflexivity |].
  intros Heq.
  apply (f_equal (fun s => Reference.lastdocid (Reference.buffered s))) in Heq.
  vm_compute in Heq. discriminate Heq.
Qed.

(** *** Invariants are kept along the facades *)

Lemma preserves_ret {TM A} (I : TM -> Prop) (a : A) : preserves I (ret a).
Proof. intros s Hs. exact Hs. Qed.

Lemma preserves_throw {TM A} (I : TM -> Prop) (e : OmError) :
  preserves I (throw (A := A) e).
Proof. intros s Hs. exact Hs. Qed.

Lemma preserves_flow_off_end {TM A} (I : TM -> Prop) :
  preserves I (flow_off_end (A := A)).
Proof. intros s Hs. exact Hs. Qed.

Lemma preserves_bind {TM A B} (I : TM -> Prop) (m : M TM A)
    (k : A -> M TM B) :
  preserves I m -> (forall a, preserves I (k a)) -> preserves I (bind m k).
Proof.
  intros Hm Hk s Hs. specialize (Hm s Hs).
  unfold state_after, bind in *.
  destruct (m s) as [[a | e |] s1]; cbn in *.
  - now apply Hk.
  - exact Hm.
  - exact Hm.
Qed.

Lemma preserves_try_catch {TM A} (I : TM -> Prop) (m : M TM A)
    (handles : OmError -> bool) (h : OmError -> M TM A) :
  preserves I m -> (forall e, preserves I (h e)) ->
  preserves I (try_catch m handles h).
Proof.
  intros Hm Hh s Hs. specialize (Hm s Hs).
  unfold state_after, try_catch in *.
  destruct (m s) as [[a | e |] s1]; cbn in *.
  - exact Hm.
  - destruct (handles e); [now apply Hh | exact Hm].
  - exact Hm.
Qed.

Lemma preserves_for_each {TM A} (I : TM -> Prop) (l : list A)
    (body : A -> M TM unit) :
  (forall x, preserves I (body x)) -> preserves I (for_each l body).
Proof.
  intros Hbody. induction l as [| x rest IH]; cbn [for_each].
  - apply preserves_ret.
  - apply preserves_bind; [apply Hbody | intros _; exact IH].
Qed.

Lemma preserves_Assert {config : OmConfig} {TM} (I : TM -> Prop) (c : bool) :
  preserves I (Assert c).
Proof.
  unfold Assert.
  destruct (assertions_enabled && negb c);
    [apply preserves_throw | apply preserves_ret].
Qed.

(** Takes a goal [preserves I m] apart along the program; what is left of
    it is closed with the hypotheses on the table operations. *)
Ltac keep :=
  repeat match goal with
    | |- preserves _ (ret _) => apply preserves_ret
    | |- preserves _ (throw _) => apply preserves_throw
    | |- preserves _ flow_off_end => apply preserves_flow_off_end
    | |- preserves _ (Assert _) => apply preserves_Assert
    | |- preserves _ (OmLockSentry _) => unfold OmLockSentry
    | |- preserves _ (bind _ _) => apply preserves_bind; [| intros ?]
    | |- preserves _ (try_catch _ _ _) =>
        apply preserves_try_catch; [| intros ?]
    | |- preserves _ (for_each _ _) => apply preserves_for_each; intros ?
    | |- preserves _ (if ?c then _ else _) => destruct c
    | H : _ |- preserves _ _ => solve [apply H]
    end.

Section Preservation.
Context {config : OmConfig} {TM : Type} (T : QuartzTableManager TM).
Variable I : TM -> Prop.
Hypothesis reads : reads_preserve T I.

Lemma read_terms_preserves did entries :
  forall document,
    preserves I (QuartzDatabase.read_terms did entries document).
Proof.
  destruct reads.
  induction entries as [| [name w] rest IH]; intros document;
    cbn [QuartzDatabase.read_terms]; keep.
Qed.

Lemma read_document_preserves did :
  preserves I (QuartzDatabase.read_document did).
Proof.
  pose proof (read_terms_preserves did) as Hterms. destruct reads.
  unfold QuartzDatabase.read_document, QuartzDatabase.get_doccount_internal.
  keep.
Qed.

Lemma while_tries_left_preserves n did :
  preserves I (QuartzDatabase.while_tries_left n did).
Proof.
  pose proof (read_document_preserves did) as Hread. destruct reads.
  induction n as [| n IH].
  - cbn. keep.
  - rewrite while_tries_left_step. keep.
Qed.

Lemma do_get_document_internal_preserves did :
  preserves I (QuartzDatabase.do_get_document_internal did).
Proof.
  pose proof (while_tries_left_preserves 5 did) as Hloop.
  unfold QuartzDatabase.do_get_document_internal. keep.
Qed.

Lemma get_avlength_preserves : preserves I QuartzDatabase.get_avlength.
Proof.
  destruct reads.
  unfold QuartzDatabase.get_avlength, QuartzDatabase.get_avlength_internal,
    QuartzDatabase.get_doccount_internal.
  keep.
Qed.

Lemma get_termfreq_preserves name :
  preserves I (QuartzDatabase.get_termfreq name).
Proof. destruct reads. unfold QuartzDatabase.get_termfreq. keep. Qed.

Lemma term_exists_preserves name :
  preserves I (QuartzDatabase.term_exists name).
Proof. destruct reads. unfold QuartzDatabase.term_exists. keep. Qed.

Hypothesis writes : writes_preserve T I.

Lemma add_document_steps_preserves document new_doclen :
  preserves I (QuartzWritableDatabase.add_document_steps document new_doclen).
Proof.
  destruct writes. unfold QuartzWritableDatabase.add_document_steps. keep.
Qed.

Lemma delete_document_steps_preserves did document :
  preserves I (QuartzWritableDatabase.delete_document_steps did document).
Proof.
  destruct reads, writes.
  unfold QuartzWritableDatabase.delete_document_steps,
    QuartzDatabase.get_doccount_internal.
  keep.
Qed.

Hypothesis cancels : forall s, I s -> I (cancel s).

Lemma do_cancel_preserves : preserves I do_cancel.
Proof. intros s Hs. now apply cancels. Qed.

Lemma do_add_document_preserves document :
  preserves I (QuartzWritableDatabase.do_add_document document).
Proof.
  pose proof do_cancel_preserves as Hcancel.
  pose proof add_document_steps_preserves as Hsteps.
  unfold QuartzWritableDatabase.do_add_document. keep.
Qed.

Lemma do_delete_document_preserves did :
  preserves I (QuartzWritableDatabase.do_delete_document did).
Proof.
  pose proof do_cancel_preserves as Hcancel.
  pose proof (do_get_document_internal_preserves did) as Hget.
  pose proof delete_document_steps_preserves as Hsteps.
  unfold QuartzWritableDatabase.do_delete_document. keep.
Qed.

(** Every entry point of the writable database keeps the invariant. *)
Lemma run_preserves op s : I s -> I (run op s).
Proof.
  intros Hs.
  pose proof do_add_document_preserves as Hadd.
  pose proof do_delete_document_preserves as Hdelete.
  pose proof do_get_document_internal_preserves as Hget.
  pose proof get_avlength_preserves as Havlength.
  pose proof get_termfreq_preserves as Htermfreq.
  pose proof term_exists_preserves as Hexists.
  destruct reads, writes.
  destruct op; cbn [run];
    match goal with |- I (state_after ?m s) => revert s Hs;
      change (preserves I m) end;
    unfold QuartzWritableDatabase.do_begin_session,
      QuartzWritableDatabase.do_end_session,
      QuartzWritableDatabase.do_flush,
      QuartzWritableDatabase.do_begin_transaction,
      QuartzWritableDatabase.do_commit_transaction,
      QuartzWritableDatabase.do_cancel_transaction,
      QuartzWritableDatabase.do_replace_document,
      QuartzWritableDatabase.do_get_document,
      QuartzWritableDatabase.get_doccount,
      QuartzWritableDatabase.get_avlength,
      QuartzWritableDatabase.get_doclength,
      QuartzWritableDatabase.get_termfreq,
      QuartzWritableDatabase.term_exists,
      QuartzWritableDatabase.open_position_list,
      QuartzDatabase.get_doclength,
      QuartzDatabase.get_doccount_internal;
    keep.
Qed.

Lemma run_all_preserves ops : forall s, I s -> I (run_all ops s).
Proof.
  induction ops as [| op rest IH]; intros s Hs; cbn.
  - exact Hs.
  - apply IH. now apply run_preserves.
Qed.

End Preservation.

(** *** Which runs call [cancel] *)

Lemma cancel_called_snoc (log : list TableCall) (c : TableCall) :
  cancel_called (log ++ [c]) = cancel_called log || is_Call_cancel c.
Proof.
  unfold cancel_called. rewrite existsb_app. cbn. now rewrite orb_false_r.
Qed.

Lemma logging_keeps_no_cancel {TM A} (c : outcome A -> TableCall)
    (op : M TM A) :
  (forall r, is_Call_cancel (c r) = false) ->
  preserves (fun sl : TM * list TableCall => cancel_called (snd sl) = false)
    (logging c op).
Proof.
  intros Hc [s log] Hlog. unfold state_after, logging. cbn [fst snd] in *.
  destruct (op s) as [r s1]. cbn [fst snd].
  now rewrite cancel_called_snoc, Hlog, Hc.
Qed.

(** No operation of the read path is [cancel]. *)
Lemma logged_reads_keep_no_cancel {TM} (T : QuartzTableManager TM) :
  reads_preserve (logged T)
    (fun sl => cancel_called (snd sl) = false).
Proof.
  split; intros; apply logging_keeps_no_cancel; reflexivity.
Qed.

(** Nor is any operation of the mutation steps. *)
Lemma logged_writes_keep_no_cancel {TM} (T : QuartzTableManager TM) :
  writes_preserve (logged T)
    (fun sl => cancel_called (snd sl) = false).
Proof.
  split; intros; apply logging_keeps_no_cancel; reflexivity.
Qed.

(** C10.  When [delete_document] fails while it materialises the document
    through the read path of [get_document], the error goes to the caller
    with the tables as that read left them, and [cancel] has not been
    called.  [cancel] is called only when, the document materialised, one of
    the deletion steps raises an error. *)
Theorem delete_document_cancels_only_after_read {config : OmConfig}
    {TM : Type} (T : QuartzTableManager TM) (did : om_docid) (s : TM) :
  (forall e s' log,
     QuartzDatabase.do_get_document_internal (T := logged T) did (s, []) =
       (Throws e, (s', log)) ->
     QuartzWritableDatabase.do_delete_document (T := logged T) did (s, []) =
       (Throws e, (s', log))
     /\ cancel_called log = false
     /\ QuartzWritableDatabase.do_delete_document (T := T) did s =
        (Throws e, s'))
  /\ (forall r s' log,
        QuartzWritableDatabase.do_delete_document (T := logged T) did
          (s, []) = (r, (s', log)) ->
        cancel_called log = true ->
        exists document s1 log1 e s2 log2,
          QuartzDatabase.do_get_document_internal (T := logged T) did
            (s, []) = (Returns document, (s1, log1))
          /\ QuartzWritableDatabase.delete_document_steps (T := logged T) did
               document (s1, log1) = (Throws e, (s2, log2))
          /\ r = Throws e /\ s' = cancel s2 /\ log = log2 ++ [Call_cancel]).
Proof.
  set (no_cancel := fun sl : TM * list TableCall =>
                      cancel_called (snd sl) = false).
  assert (Hread : forall sl,
            no_cancel sl ->
            no_cancel
              (state_after
                 (QuartzDatabase.do_get_document_internal (T := logged T) did)
                 sl)).
  { apply do_get_document_internal_preserves.
    apply logged_reads_keep_no_cancel. }
  assert (Hsteps : forall document sl,
            no_cancel sl ->
            no_cancel
              (state_after
                 (QuartzWritableDatabase.delete_document_steps
                    (T := logged T) did document) sl)).
  { intros document. apply delete_document_steps_preserves.
    - apply logged_reads_keep_no_cancel.
    - apply logged_writes_keep_no_cancel. }
  split.
  - intros e s' log Hget.
    assert (Hdelete :
      QuartzWritableDatabase.do_delete_document (T := logged T) did (s, []) =
      (Throws e, (s', log))); [| split; [exact Hdelete | split]].
    + unfold QuartzWritableDatabase.do_delete_document, OmLockSentry,
        QuartzWritableDatabase.buffered_tables_nonnull.
      unfold QuartzDatabase.do_get_document_internal in Hget.
      apply bind_throws_inv in Hget as [Hassert | ([] & s0 & Hassert & Hloop)].
      * now apply bind_throws.
      * destruct (Assert_returns_inv _ _ _ Hassert) as [-> _].
        rewrite (bind_returns _ _ _ _ _ Hassert).
        rewrite (bind_returns _ _ _ _ _ (Assert_holds _)).
        apply bind_throws.
        unfold QuartzDatabase.do_get_document_internal.
        now rewrite (bind_returns _ _ _ _ _ Hassert).
    + specialize (Hread (s, []) eq_refl).
      unfold state_after in Hread. now rewrite Hget in Hread.
    + exact (erases_run_inv _ _ _ _ _ _ _
               (erases_do_delete_document T did) Hdelete).
  - intros r s' log Hrun Hcalled.
    unfold QuartzWritableDatabase.do_delete_document, OmLockSentry,
      QuartzWritableDatabase.buffered_tables_nonnull in Hrun.
    unfold bind at 1 in Hrun.
    rewrite (Assert_outcome (negb (did =? 0))) in Hrun.
    destruct (assertions_enabled && negb (negb (did =? 0))) eqn:Hassert;
      cbn iota beta in Hrun.
    { injection Hrun as <- <- <-. discriminate Hcalled. }
    rewrite (bind_returns _ _ _ _ _ (Assert_holds _)) in Hrun.
    specialize (Hread (s, []) eq_refl). unfold state_after in Hread.
    unfold bind at 1 in Hrun.
    destruct (QuartzDatabase.do_get_document_internal (T := logged T) did
                (s, [])) as [[document | e |] [s1 log1]] eqn:Hget;
      cbn in Hread.
    + specialize (Hsteps document (s1, log1) Hread).
      unfold state_after in Hsteps. unfold try_catch in Hrun.
      destruct (QuartzWritableDatabase.delete_document_steps (T := logged T)
                  did document (s1, log1))
        as [[[] | e |] [s2 log2]] eqn:Hdelete; cbn in Hsteps, Hrun.
      * injection Hrun as <- <- <-. unfold no_cancel in *. cbn [snd] in *.
        congruence.
      * injection Hrun as <- <- <-.
        now exists document, s1, log1, e, s2, log2.
      * injection Hrun as <- <- <-. unfold no_cancel in *. cbn [snd] in *.
        congruence.
    + injection Hrun as <- <- <-. unfold no_cancel in *. cbn [snd] in *.
        congruence.
    + injection Hrun as <- <- <-. unfold no_cancel in *. cbn [snd] in *.
        congruence.
Qed.

(** Deleting a docid that is not there, with [doc1] buffered: the NotFound
    error of the record read reaches the caller, [cancel] is not called and
    the tables stay as they were. *)
Lemma delete_document_cancels_only_after_read_witness :
  QuartzDatabase.do_get_document_internal (config := debug_build)
    (T := logged Reference.tables) 7 (after_doc1, []) =
    (Throws (OmDocNotFoundError "record not found"),
     (after_doc1,
      [Call_get_record 7 (Throws (OmDocNotFoundError "record not found"))]))
  /\ QuartzWritableDatabase.do_delete_document (config := debug_build)
       (T := logged Reference.tables) 7 (after_doc1, []) =
     (Throws (OmDocNotFoundError "record not found"),
      (after_doc1,
       [Call_get_record 7 (Throws (OmDocNotFoundError "record not found"))]))
  /\ cancel_called
       [Call_get_record 7 (Throws (OmDocNotFoundError "record not found"))] =
     false
  /\ QuartzWritableDatabase.do_delete_document (config := debug_build)
       (T := Reference.tables) 7 after_doc1 =
     (Throws (OmDocNotFoundError "record not found"), after_doc1).
Proof.
  assert (Hget :
    QuartzDatabase.do_get_document_internal (config := debug_build)
      (T := logged Reference.tables) 7 (after_doc1, []) =
    (Throws (OmDocNotFoundError "record not found"),
     (after_doc1,
      [Call_get_record 7 (Throws (OmDocNotFoundError "record not found"))])))
    by (vm_compute; reflexivity).
  split; [exact Hget |].
  destruct (proj1 (delete_document_cancels_only_after_read
                     (config := debug_build) Reference.tables 7 after_doc1)
              _ _ _ Hget) as (Hdelete & Hcancel & Hplain).
  split; [| split; [exact Hcancel |]].
  - exact Hdelete.
  - exact Hplain.
Defined.

(** *** The lexicon of the reference tables never stores termfreq 0 *)

Lemma on_buffered_keeps_lexicon {A} (op : M Reference.QuartzTables A) :
  (forall t, lexicon_wf t -> lexicon_wf (state_after op t)) ->
  preserves lexicon_ok (Reference.on_buffered op).
Proof.
  intros Hop s [Hbuffered Hdisk]. specialize (Hop _ Hbuffered).
  unfold state_after, Reference.on_buffered in *.
  destruct (op (Reference.buffered s)) as [r t]. cbn in *. now split.
Qed.

(** An operation that leaves the lexicon table alone keeps it well formed. *)
Lemma untouched_lexicon {A} (op : M Reference.QuartzTables A) :
  (forall t,
     Reference.lexicon_table (state_after op t) = Reference.lexicon_table t) ->
  preserves lexicon_ok (Reference.on_buffered op).
Proof.
  intros Hsame. apply on_buffered_keeps_lexicon. intros t Ht name n.
  rewrite Hsame. apply Ht.
Qed.

Lemma reference_reads_keep_lexicon :
  reads_preserve Reference.tables lexicon_ok.
Proof.
  split; intros; cbn.
  - intros s Hs. exact Hs.
  - apply untouched_lexicon. intros tbl. unfold state_after, Reference.get_record.
    repeat case_match; reflexivity.
  - now apply untouched_lexicon.
  - now apply untouched_lexicon.
  - now apply untouched_lexicon.
  - apply untouched_lexicon. intros tbl.
    unfold state_after, Reference.new_termlist.
    repeat case_match; reflexivity.
  - now apply untouched_lexicon.
  - now apply untouched_lexicon.
  - now apply untouched_lexicon.
Qed.

Lemma increment_keeps_lexicon name :
  forall t, lexicon_wf t ->
    lexicon_wf (state_after (Reference.increment_termfreq name) t).
Proof.
  intros t Ht name' n. unfold state_after, Reference.increment_termfreq.
  cbn. rewrite lookup_insert_Some.
  intros [[_ <-] | [_ Hold]].
  - destruct (Reference.lexicon_table t !! name); lia.
  - now apply Ht in Hold.
Qed.

Lemma decrement_keeps_lexicon name :
  forall t, lexicon_wf t ->
    lexicon_wf (state_after (Reference.decrement_termfreq name) t).
Proof.
  intros t Ht name' n. unfold state_after, Reference.decrement_termfreq.
  destruct (Reference.lexicon_table t !! name) as [stored |] eqn:Hstored;
    cbn; [| apply Ht].
  destruct (N.leb_spec stored 1) as [Hlast | Hmore].
  - rewrite lookup_delete_Some. intros [_ Hold]. now apply Ht in Hold.
  - rewrite lookup_insert_Some. intros [[_ <-] | [_ Hold]].
    + lia.
    + now apply Ht in Hold.
Qed.

Lemma reference_writes_keep_lexicon :
  writes_preserve Reference.tables lexicon_ok.
Proof.
  split; intros; cbn.
  - intros s [Hbuffered _]. now split.
  - now apply untouched_lexicon.
  - now apply untouched_lexicon.
  - apply untouched_lexicon. intros tbl.
    unfold state_after, Reference.delete_record.
    repeat case_match; reflexivity.
  - now apply untouched_lexicon.
  - now apply untouched_lexicon.
  - now apply untouched_lexicon.
  - now apply untouched_lexicon.
  - now apply untouched_lexicon.
  - apply on_buffered_keeps_lexicon, increment_keeps_lexicon.
  - apply on_buffered_keeps_lexicon, decrement_keeps_lexicon.
  - now apply untouched_lexicon.
  - apply untouched_lexicon. intros tbl.
    unfold state_after, Reference.delete_entry. cbn.
    repeat case_match; reflexivity.
Qed.

Lemma reference_cancel_keeps_lexicon s :
  lexicon_ok s -> lexicon_ok (Reference.cancel_all s).
Proof. intros [_ Hdisk]. now split. Qed.

(** In every database a session can lead to, on the committed tables and on
    the buffered view, the lexicon stores no termfreq 0. *)
Lemma reachable_lexicon_ok {config : OmConfig} s :
  reachable s -> lexicon_ok s.
Proof.
  intros [ops ->].
  apply (run_all_preserves Reference.tables lexicon_ok
           reference_reads_keep_lexicon reference_writes_keep_lexicon
           reference_cancel_keeps_lexicon).
  split; intros name n Hlookup; cbn in Hlookup;
    now rewrite lookup_empty in Hlookup.
Qed.

Lemma nonempty_name (name : om_termname) :
  name <> "" -> negb (String.length name =? 0)%nat = true.
Proof. intros Hname. destruct name; [congruence | reflexivity]. Qed.

(** For every table layer: [get_termfreq] and [term_exists] are two readings
    of the one answer of the lexicon's [get_entry]. *)
Lemma get_termfreq_term_exists {config : OmConfig} {TM : Type}
    {T : QuartzTableManager TM} (name : om_termname) (s s1 : TM)
    (found : option om_doccount) :
  name <> "" ->
  QuartzLexicon_get_entry name s = (Returns found, s1) ->
  QuartzDatabase.get_termfreq name s = (Returns (default 0 found), s1)
  /\ QuartzDatabase.term_exists name s =
     (Returns (match found with Some _ => true | None => false end), s1).
Proof.
  intros Hname Hentry.
  unfold QuartzDatabase.get_termfreq, QuartzDatabase.term_exists,
    OmLockSentry.
  rewrite (nonempty_name name Hname).
  rewrite !(bind_returns _ _ _ _ _ (Assert_holds s)).
  rewrite !(bind_returns _ _ _ _ _ Hentry).
  split; [now destruct found | reflexivity].
Qed.

(** C8.  For a non-empty term and every database a session can lead to,
    [get_termfreq] returns 0 if the term is absent from the lexicon and the
    termfreq the lexicon stores otherwise; [term_exists] tells whether the
    lexicon stores the term; and [get_termfreq] returns 0 exactly when
    [term_exists] returns false.  The writable database answers as the
    read-only one. *)
Theorem termfreq_zero_iff_term_absent {config : OmConfig}
    (name : om_termname) (s : Reference.QuartzBufferedTableManager) :
  name <> "" -> reachable s ->
  QuartzDatabase.get_termfreq (T := Reference.tables) name s =
    (Returns
       (default 0 (Reference.lexicon_table (Reference.buffered s) !! name)),
     s)
  /\ QuartzDatabase.term_exists (T := Reference.tables) name s =
     (Returns
        (match Reference.lexicon_table (Reference.buffered s) !! name with
         | Some _ => true
         | None => false
         end), s)
  /\ (fst (QuartzDatabase.get_termfreq (T := Reference.tables) name s) =
        Returns 0 <->
      fst (QuartzDatabase.term_exists (T := Reference.tables) name s) =
        Returns false)
  /\ QuartzWritableDatabase.get_termfreq (T := Reference.tables) name s =
     QuartzDatabase.get_termfreq (T := Reference.tables) name s
  /\ QuartzWritableDatabase.term_exists (T := Reference.tables) name s =
     QuartzDatabase.term_exists (T := Reference.tables) name s.
Proof.
  intros Hname Hreachable.
  destruct (reachable_lexicon_ok s Hreachable) as [Hlexicon _].
  assert (Hentry :
    QuartzLexicon_get_entry (QuartzTableManager := Reference.tables) name s =
    (Returns (Reference.lexicon_table (Reference.buffered s) !! name), s))
    by now destruct s.
  destruct (get_termfreq_term_exists name s s _ Hname Hentry)
    as [Hfreq Hexists].
  split; [exact Hfreq | split; [exact Hexists | split; [| now split]]].
  rewrite Hfreq, Hexists. cbn [fst].
  destruct (Reference.lexicon_table (Reference.buffered s) !! name)
    as [stored |] eqn:Hstored; cbn.
  - split; intros Heq.
    + injection Heq as ->. now apply Hlexicon in Hstored.
    + discriminate Heq.
  - now split.
Qed.

Lemma termfreq_zero_iff_term_absent_witness :
  "cat" <> ""
  /\ reachable (config := debug_build) after_doc1
  /\ fst (QuartzDatabase.get_termfreq (config := debug_build)
            (T := Reference.tables) "cat" after_doc1) = Returns 1
  /\ fst (QuartzDatabase.get_termfreq (config := debug_build)
            (T := Reference.tables) "dog" after_delete_doc1) = Returns 0.
Proof.
  assert (Hcat : "cat" <> "") by discriminate.
  assert (Hdog : "dog" <> "") by discriminate.
  assert (Hadded : reachable (config := debug_build) after_doc1).
  { exists [Op_add_document doc1]. vm_compute. reflexivity. }
  assert (Hdeleted : reachable (config := debug_build) after_delete_doc1).
  { exists [Op_add_document doc1; Op_delete_document 1].
    vm_compute. reflexivity. }
  split; [exact Hcat | split; [exact Hadded |]].
  rewrite (proj1 (termfreq_zero_iff_term_absent (config := debug_build)
                    "cat" after_doc1 Hcat Hadded)).
  rewrite (proj1 (termfreq_zero_iff_term_absent (config := debug_build)
                    "dog" after_delete_doc1 Hdog Hdeleted)).
  split; vm_compute; reflexivity.
Defined.

(** *** Attributes outlive their document *)

(** C3 (the code departs from it).  [doc1] is added with the attribute
    [1 -> "a"], committed, deleted, and the delete committed.  The delete
    succeeds and removes the record, the term list, the position lists, the
    posting-list entries and the lexicon entries of the document, but its
    attribute is still stored under the docid: the committed attribute table
    holds it and [get_all_attributes] returns it. *)
Theorem delete_document_leaves_attributes :
  QuartzWritableDatabase.do_delete_document (config := debug_build)
    (T := Reference.tables) 1
    (run_all (config := debug_build) (T := Reference.tables)
       [Op_add_document doc1; Op_flush] Reference.empty_database) =
    (Returns tt,
     run_all (config := debug_build) (T := Reference.tables)
       [Op_add_document doc1; Op_flush; Op_delete_document 1]
       Reference.empty_database)
  /\ Reference.attribute_table
       (Reference.on_disk
          (run_all (config := debug_build) (T := Reference.tables)
             [Op_add_document doc1; Op_flush; Op_delete_document 1; Op_flush]
             Reference.empty_database)) !! 1 = Some [(1, "a")]
  /\ fst (QuartzAttributesManager_get_all_attributes
            (QuartzTableManager := Reference.tables) 1
            (run_all (config := debug_build) (T := Reference.tables)
               [Op_add_document doc1; Op_flush; Op_delete_document 1;
                Op_flush]
               Reference.empty_database)) = Returns [(1, "a")]
  /\ Reference.set_attribute_table ∅
       (Reference.on_disk
          (run_all (config := debug_build) (T := Reference.tables)
             [Op_add_document doc1; Op_flush; Op_delete_document 1; Op_flush]
             Reference.empty_database)) =
     Reference.set_lastdocid 1 Reference.empty_tables.
Proof. repeat apply conj; vm_compute; reflexivity. Qed.

(** The calls of the delete protocol name no operation on the attribute
    table. *)
Lemma delete_document_calls_spare_attributes did document doccount termlist :
  forall c, In c (delete_document_calls did document doccount termlist) ->
    match c with
    | Call_add_attribute _ _ _ | Call_get_all_attributes _ _ => False
    | _ => True
    end.
Proof.
  intros c. unfold delete_document_calls.
  rewrite in_app_iff, in_flat_map. cbn [In].
  intros [(term & _ & [<- | [<- | [<- | []]]])
         | [<- | [<- | [<- | [<- | [<- | []]]]]]]; exact Logic.I.
Qed.

(** *** On the reference tables [add_document] always succeeds *)

Lemma for_each_returns {TM A} (body : A -> M TM unit) (l : list A) :
  (forall x s, exists s', body x s = (Returns tt, s')) ->
  forall s, exists s', for_each l body s = (Returns tt, s').
Proof.
  intros Hbody. induction l as [| x rest IH]; intros s; cbn [for_each].
  - now exists s.
  - destruct (Hbody x s) as [s1 Hx]. destruct (IH s1) as [s' Hrest].
    exists s'. now rewrite (bind_returns _ _ _ _ _ Hx).
Qed.

Lemma reference_add_document_returns {config : OmConfig}
    (document : OmDocumentContents)
    (s : Reference.QuartzBufferedTableManager) :
  exists s',
    QuartzWritableDatabase.do_add_document (T := Reference.tables) document s =
    (Returns (Reference.lastdocid (Reference.buffered s) + 1), s').
Proof.
  unfold QuartzWritableDatabase.do_add_document, OmLockSentry,
    QuartzWritableDatabase.buffered_tables_nonnull.
  rewrite (bind_returns _ _ _ _ _ (Assert_holds s)).
  set (did := Reference.lastdocid (Reference.buffered s) + 1).
  set (new_doclen := QuartzWritableDatabase.calculate_new_doclen document).
  assert (Hsteps : exists s',
    QuartzWritableDatabase.add_document_steps (T := Reference.tables)
      document new_doclen s = (Returns did, s')).
  { unfold QuartzWritableDatabase.add_document_steps.
    erewrite bind_returns; [| reflexivity].
    erewrite bind_returns.
    2: { rewrite nonzero_docid; [apply Assert_holds | subst did; lia]. }
    match goal with
    | |- context [bind (for_each ?l ?body) ?k ?s0] =>
        destruct (for_each_returns body l) with (s := s0) as [s1 Hkeys]
    end.
    { intros key s0. eexists. reflexivity. }
    rewrite (bind_returns _ _ _ _ _ Hkeys).
    erewrite bind_returns; [| reflexivity].
    erewrite bind_returns; [| reflexivity].
    match goal with
    | |- context [bind (for_each ?l ?body) ?k ?s0] =>
        destruct (for_each_returns body l) with (s := s0) as [s2 Hterms]
    end.
    { intros term s0. eexists. reflexivity. }
    rewrite (bind_returns _ _ _ _ _ Hterms).
    now exists s2. }
  destruct Hsteps as [s' Hsteps]. exists s'.
  now apply try_catch_returns.
Qed.

(** *** The scenarios of the specification on the reference tables *)

(** Scenario 1: the empty database. *)
Example scenario_empty_database :
  fst (QuartzDatabase.get_doccount (T := Reference.tables)
         Reference.empty_database) = Returns 0
  /\ fst (QuartzDatabase.get_avlength (config := debug_build)
            (T := Reference.tables) Reference.empty_database) =
     Returns 0%Q
  /\ fst (QuartzDatabase.term_exists (config := debug_build)
            (T := Reference.tables) "x" Reference.empty_database) =
     Returns false
  /\ fst (QuartzDatabase.get_termfreq (config := debug_build)
            (T := Reference.tables) "x" Reference.empty_database) =
     Returns 0.
Proof. repeat apply conj; vm_compute; reflexivity. Qed.

(** Scenarios 2 to 4: [doc1] and [doc2] are inserted and committed, then
    [doc1] is deleted. *)
Example scenario_insert_insert_delete :
  fst (QuartzDatabase.get_termfreq (config := debug_build)
         (T := Reference.tables) "cat"
         (run_all (config := debug_build) (T := Reference.tables)
            [Op_add_document doc1; Op_flush] Reference.empty_database)) =
    Returns 1
  /\ Reference.postlist_table
       (Reference.on_disk
          (run_all (config := debug_build) (T := Reference.tables)
             [Op_add_document doc1; Op_flush] Reference.empty_database))
       !! "cat" = Some [(1, 2, 3)]
  /\ fst (QuartzDatabase.get_termfreq (config := debug_build)
            (T := Reference.tables) "cat"
            (run_all (config := debug_build) (T := Reference.tables)
               [Op_add_document doc1; Op_flush; Op_add_document doc2;
                Op_flush]
               Reference.empty_database)) = Returns 2
  /\ fst (QuartzDatabase.get_avlength (config := debug_build)
            (T := Reference.tables)
            (run_all (config := debug_build) (T := Reference.tables)
               [Op_add_document doc1; Op_flush; Op_add_document doc2;
                Op_flush]
               Reference.empty_database)) =
     Returns (totlength_div (OmConfig := debug_build) 4 2)
  /\ fst (QuartzDatabase.term_exists (config := debug_build)
            (T := Reference.tables) "dog"
            (run_all (config := debug_build) (T := Reference.tables)
               [Op_add_document doc1; Op_flush; Op_add_document doc2;
                Op_flush; Op_delete_document 1; Op_flush]
               Reference.empty_database)) = Returns false
  /\ Reference.postlist_table
       (Reference.on_disk
          (run_all (config := debug_build) (T := Reference.tables)
             [Op_add_document doc1; Op_flush; Op_add_document doc2;
              Op_flush; Op_delete_document 1; Op_flush]
             Reference.empty_database))
       !! "cat" = Some [(2, 1, 1)]
  /\ fst (QuartzDatabase.get_doccount (T := Reference.tables)
            (run_all (config := debug_build) (T := Reference.tables)
               [Op_add_document doc1; Op_flush; Op_add_document doc2;
                Op_flush; Op_delete_document 1; Op_flush]
               Reference.empty_database)) = Returns 1.
Proof. repeat apply conj; vm_compute; reflexivity. Qed.

(** Scenario 5: a read in the session sees the buffered document; nothing
    is committed before a flush. *)
Example scenario_read_buffered :
  fst (QuartzWritableDatabase.do_get_document (config := debug_build)
         (T := Reference.tables) 1 after_doc1) =
    Returns
      {| data := "hello"; keys := [(1, "a")];
         terms := [("cat", mkOmDocumentTerm "cat" 2 1 [0; 3]);
                   ("dog", mkOmDocumentTerm "dog" 1 1 [1])] |}
  /\ Reference.on_disk after_doc1 = Reference.empty_tables.
Proof. split; vm_compute; reflexivity. Qed.

(** *** The table operations a computation may call *)

Lemma within_ret (P : TableCall -> bool) {TM A} (a : A) :
  within P (TM := TM) (ret a).
Proof. intros s log. exists []. cbn. now rewrite app_nil_r. Qed.

Lemma within_throw (P : TableCall -> bool) {TM A} (e : OmError) :
  within P (TM := TM) (A := A) (throw e).
Proof. intros s log. exists []. cbn. now rewrite app_nil_r. Qed.

Lemma within_flow_off_end (P : TableCall -> bool) {TM A} :
  within P (TM := TM) (A := A) flow_off_end.
Proof. intros s log. exists []. cbn. now rewrite app_nil_r. Qed.

Lemma within_Assert (P : TableCall -> bool) {config : OmConfig} {TM}
    (c : bool) :
  within P (TM := TM) (Assert c).
Proof.
  unfold Assert.
  destruct (assertions_enabled && negb c);
    [apply within_throw | apply within_ret].
Qed.

Lemma within_logging (P : TableCall -> bool) {TM A}
    (c : outcome A -> TableCall) (op : M TM A) :
  (forall r, P (c r) = true) -> within P (logging c op).
Proof.
  intros Hc s log. unfold logging. cbn [fst snd].
  destruct (op s) as [r s1]. exists [c r]. cbn. now rewrite Hc.
Qed.

Lemma within_bind (P : TableCall -> bool) {TM A B}
    (ml : M (TM * list TableCall) A) (kl : A -> M (TM * list TableCall) B) :
  within P ml -> (forall a, within P (kl a)) -> within P (bind ml kl).
Proof.
  intros Hm Hk s log. destruct (Hm s log) as (calls & Hlog & Hcalls).
  unfold bind. destruct (ml (s, log)) as [[a | e |] [s1 log1]];
    cbn [fst snd] in *; subst log1.
  - destruct (Hk a s1 (log ++ calls)) as (calls' & Hlog' & Hcalls').
    exists (calls ++ calls'). rewrite Hlog', app_assoc, forallb_app.
    now rewrite Hcalls, Hcalls'.
  - now exists calls.
  - now exists calls.
Qed.

Lemma within_try_catch (P : TableCall -> bool) {TM A}
    (ml : M (TM * list TableCall) A) (handles : OmError -> bool)
    (hl : OmError -> M (TM * list TableCall) A) :
  within P ml -> (forall e, within P (hl e)) ->
  within P (try_catch ml handles hl).
Proof.
  intros Hm Hh s log. destruct (Hm s log) as (calls & Hlog & Hcalls).
  unfold try_catch. destruct (ml (s, log)) as [[a | e |] [s1 log1]];
    cbn [fst snd] in *; subst log1.
  - now exists calls.
  - destruct (handles e); [| now exists calls].
    destruct (Hh e s1 (log ++ calls)) as (calls' & Hlog' & Hcalls').
    exists (calls ++ calls'). rewrite Hlog', app_assoc, forallb_app.
    now rewrite Hcalls, Hcalls'.
  - now exists calls.
Qed.

Lemma within_for_each (P : TableCall -> bool) {TM A} (l : list A)
    (bodyl : A -> M (TM * list TableCall) unit) :
  (forall x, within P (bodyl x)) -> within P (for_each l bodyl).
Proof.
  intros Hbody. induction l as [| x rest IH]; cbn [for_each].
  - apply within_ret.
  - apply within_bind; [apply Hbody | intros _; exact IH].
Qed.

Lemma within_weaken (P Q : TableCall -> bool) {TM A}
    (ml : M (TM * list TableCall) A) :
  (forall c, P c = true -> Q c = true) -> within P ml -> within Q ml.
Proof.
  intros HPQ Hm s log. destruct (Hm s log) as (calls & Hlog & Hcalls).
  exists calls. split; [exact Hlog |].
  rewrite forallb_forall in *. intros c Hc. apply HPQ. now apply Hcalls.
Qed.

(** Takes a goal [within P ml] apart along the program; a call of the
    logged layer is checked against [P]. *)
Ltac footprint :=
  repeat match goal with
    | |- within _ (ret _) => apply within_ret
    | |- within _ (throw _) => apply within_throw
    | |- within _ flow_off_end => apply within_flow_off_end
    | |- within _ (Assert _) => apply within_Assert
    | |- within _ (OmLockSentry _) => unfold OmLockSentry
    | |- within _ (bind _ _) => apply within_bind; [| intros ?]
    | |- within _ (try_catch _ _ _) => apply within_try_catch; [| intros ?]
    | |- within _ (for_each _ _) => apply within_for_each; intros ?
    | |- within _ (if ?c then _ else _) => destruct c
    | H : _ |- within _ _ => solve [apply H]
    | |- within _ _ =>
        solve [refine (within_logging _ _ _ _); intros ?; reflexivity]
    end.

Section Footprint.
Context {config : OmConfig} {TM : Type} (T : QuartzTableManager TM).

Lemma read_terms_reads did entries :
  forall document,
    within is_read_call
      (QuartzDatabase.read_terms (T := logged T) did entries document).
Proof.
  induction entries as [| [name w] rest IH]; intros document;
    cbn [QuartzDatabase.read_terms]; footprint.
Qed.

Lemma read_document_reads did :
  within is_read_call (QuartzDatabase.read_document (T := logged T) did).
Proof.
  pose proof (read_terms_reads did) as Hterms.
  unfold QuartzDatabase.read_document, QuartzDatabase.get_doccount_internal.
  footprint.
Qed.

Lemma while_tries_left_reads n did :
  within is_read_call (QuartzDatabase.while_tries_left (T := logged T) n did).
Proof.
  pose proof (read_document_reads did) as Hread.
  induction n as [| n IH].
  - cbn. footprint.
  - rewrite while_tries_left_step. footprint.
Qed.

Lemma do_get_document_internal_reads did :
  within is_read_call
    (QuartzDatabase.do_get_document_internal (T := logged T) did).
Proof.
  pose proof (while_tries_left_reads 5 did) as Hloop.
  unfold QuartzDatabase.do_get_document_internal. footprint.
Qed.

Lemma add_document_steps_inserts document new_doclen :
  within is_insert_call
    (QuartzWritableDatabase.add_document_steps (T := logged T) document
       new_doclen).
Proof. unfold QuartzWritableDatabase.add_document_steps. footprint. Qed.

Lemma delete_document_steps_deletes did document :
  within is_delete_call
    (QuartzWritableDatabase.delete_document_steps (T := logged T) did
       document).
Proof.
  unfold QuartzWritableDatabase.delete_document_steps,
    QuartzDatabase.get_doccount_internal.
  footprint.
Qed.

End Footprint.

(** X1.  The read entry points of both databases call nothing but read
    operations of the table layer, however they end: [get_document] (its
    retries included), [get_doccount], [get_avlength], [get_termfreq] and
    [term_exists] never call [apply], [cancel] or an operation that writes
    to a table. *)
Theorem read_entry_points_only_read {config : OmConfig} {TM : Type}
    (T : QuartzTableManager TM) (did : om_docid) (name : om_termname) :
  within is_read_call (QuartzDatabase.do_get_document (T := logged T) did)
  /\ within is_read_call
       (QuartzWritableDatabase.do_get_document (T := logged T) did)
  /\ within is_read_call (QuartzDatabase.get_doccount (T := logged T))
  /\ within is_read_call (QuartzWritableDatabase.get_doccount (T := logged T))
  /\ within is_read_call (QuartzDatabase.get_avlength (T := logged T))
  /\ within is_read_call (QuartzWritableDatabase.get_avlength (T := logged T))
  /\ within is_read_call (QuartzDatabase.get_termfreq (T := logged T) name)
  /\ within is_read_call
       (QuartzWritableDatabase.get_termfreq (T := logged T) name)
  /\ within is_read_call (QuartzDatabase.term_exists (T := logged T) name)
  /\ within is_read_call
       (QuartzWritableDatabase.term_exists (T := logged T) name).
Proof.
  pose proof (do_get_document_internal_reads T did) as Hget.
  unfold QuartzWritableDatabase.do_get_document,
    QuartzWritableDatabase.get_doccount, QuartzWritableDatabase.get_avlength,
    QuartzWritableDatabase.get_termfreq, QuartzWritableDatabase.term_exists,
    QuartzDatabase.do_get_document, QuartzDatabase.get_doccount,
    QuartzDatabase.get_avlength, QuartzDatabase.get_avlength_internal,
    QuartzDatabase.get_termfreq, QuartzDatabase.term_exists,
    QuartzDatabase.get_doccount_internal.
  repeat apply conj; footprint.
Qed.

(** *** The calls of a mutation, whatever its outcome *)

(** X2.  However [add_document] ends, it has called nothing but the seven
    operations of the insert protocol, followed, exactly when it ends with
    an exception, by one call of [cancel], its last call; it never calls
    [apply], a read or a delete operation. *)
Theorem add_document_call_discipline {config : OmConfig} {TM : Type}
    (T : QuartzTableManager TM) (document : OmDocumentContents) (s s' : TM)
    (r : outcome om_docid) (log : list TableCall) :
  QuartzWritableDatabase.do_add_document (T := logged T) document (s, []) =
    (r, (s', log)) ->
  exists calls,
    forallb is_insert_call calls = true
    /\ log = match r with
             | Throws _ => calls ++ [Call_cancel]
             | _ => calls
             end.
Proof.
  intros Hrun.
  unfold QuartzWritableDatabase.do_add_document, OmLockSentry,
    QuartzWritableDatabase.buffered_tables_nonnull in Hrun.
  rewrite (bind_returns _ _ _ _ _ (Assert_holds _)) in Hrun.
  destruct (add_document_steps_inserts T document
              (QuartzWritableDatabase.calculate_new_doclen document) s [])
    as (calls & Hlog & Hcalls).
  exists calls. split; [exact Hcalls |].
  unfold try_catch in Hrun.
  destruct (QuartzWritableDatabase.add_document_steps (T := logged T)
              document (QuartzWritableDatabase.calculate_new_doclen document)
              (s, [])) as [[did | e |] [s1 log1]];
    cbn in Hlog, Hrun; subst log1; now injection Hrun as <- <- <-.
Qed.

Lemma add_document_call_discipline_witness :
  QuartzWritableDatabase.do_add_document (config := debug_build)
    (T := logged (Faulty.tables Reference.tables)) doc2
    ((after_doc1, 4%nat), []) =
    (Throws Faulty.injected,
     ((Reference.empty_database, 0%nat),
      [Call_add_record "world" 1 (Returns 2);
       Call_set_entries 2 (terms doc2) 1 false;
       Call_modify_total_length 0 1;
       Call_increment_termfreq "cat";
       Call_add_entry "cat" 2 1 1;
       Call_cancel]))
  /\ exists calls,
       forallb is_insert_call calls = true
       /\ [Call_add_record "world" 1 (Returns 2);
           Call_set_entries 2 (terms doc2) 1 false;
           Call_modify_total_length 0 1;
           Call_increment_termfreq "cat";
           Call_add_entry "cat" 2 1 1;
           Call_cancel] = calls ++ [Call_cancel].
Proof.
  assert (Hrun :
    QuartzWritableDatabase.do_add_document (config := debug_build)
      (T := logged (Faulty.tables Reference.tables)) doc2
      ((after_doc1, 4%nat), []) =
    (Throws Faulty.injected,
     ((Reference.empty_database, 0%nat),
      [Call_add_record "world" 1 (Returns 2);
       Call_set_entries 2 (terms doc2) 1 false;
       Call_modify_total_length 0 1;
       Call_increment_termfreq "cat";
       Call_add_entry "cat" 2 1 1;
       Call_cancel]))) by (vm_compute; reflexivity).
  split; [exact Hrun |].
  exact (add_document_call_discipline (config := debug_build)
           (Faulty.tables Reference.tables) doc2 _ _ _ _ Hrun).
Defined.

(** X3.  However [delete_document] ends, it has called nothing but reads
    and the six operations that take a document out of the tables,
    followed by at most one call of [cancel], which is then its last call
    and the call ends with an exception; it never calls [apply] or an
    operation of the insert protocol other than [modify_total_length]. *)
Theorem delete_document_call_discipline {config : OmConfig} {TM : Type}
    (T : QuartzTableManager TM) (did : om_docid) (s s' : TM)
    (r : outcome unit) (log : list TableCall) :
  QuartzWritableDatabase.do_delete_document (T := logged T) did (s, []) =
    (r, (s', log)) ->
  exists calls,
    forallb is_delete_call calls = true
    /\ (log = calls
        \/ (exists e, r = Throws e) /\ log = calls ++ [Call_cancel]).
Proof.
  intros Hrun.
  assert (Hreads : within is_delete_call
            (QuartzDatabase.do_get_document_internal (T := logged T) did)).
  { apply (within_weaken is_read_call); [| apply do_get_document_internal_reads].
    intros c Hc. unfold is_delete_call. now rewrite Hc. }
  pose proof (delete_document_steps_deletes T did) as Hsteps.
  unfold QuartzWritableDatabase.do_delete_document, OmLockSentry,
    QuartzWritableDatabase.buffered_tables_nonnull in Hrun.
  unfold bind at 1 in Hrun. rewrite Assert_outcome in Hrun.
  destruct (assertions_enabled && negb (negb (did =? 0)));
    cbn iota beta in Hrun.
  { injection Hrun as <- <- <-. exists []. split; [reflexivity | now left]. }
  rewrite (bind_returns _ _ _ _ _ (Assert_holds _)) in Hrun.
  destruct (Hreads s []) as (calls1 & Hlog1 & Hcalls1).
  unfold bind at 1 in Hrun.
  destruct (QuartzDatabase.do_get_document_internal (T := logged T) did
              (s, [])) as [[document | e |] [s1 log1]];
    cbn in Hlog1; subst log1.
  - destruct (Hsteps document s1 calls1) as (calls2 & Hlog2 & Hcalls2).
    exists (calls1 ++ calls2). rewrite forallb_app, Hcalls1, Hcalls2.
    split; [reflexivity |].
    unfold try_catch in Hrun.
    destruct (QuartzWritableDatabase.delete_document_steps (T := logged T)
                did document (s1, calls1)) as [[[] | e |] [s2 log2]];
      cbn in Hlog2, Hrun; subst log2; injection Hrun as <- <- <-.
    + now left.
    + right. split; [now exists e | reflexivity].
    + now left.
  - injection Hrun as <- <- <-. exists calls1. split; [exact Hcalls1 | now left].
  - injection Hrun as <- <- <-. exists calls1. split; [exact Hcalls1 | now left].
Qed.

(** The eleventh table call of a [delete_document] fails: eight reads, two
    deletes, the failed decrement, then [cancel]. *)
Lemma delete_document_call_discipline_witness :
  fst (QuartzWritableDatabase.do_delete_document (config := debug_build)
         (T := logged (Faulty.tables Reference.tables)) 1
         ((after_doc1, 10%nat), [])) = Throws Faulty.injected
  /\ exists calls,
       forallb is_delete_call calls = true
       /\ (snd (snd (QuartzWritableDatabase.do_delete_document
                       (config := debug_build)
                       (T := logged (Faulty.tables Reference.tables)) 1
                       ((after_doc1, 10%nat), []))) = calls
           \/ (exists e, Throws Faulty.injected = Throws (A := unit) e)
              /\ snd (snd (QuartzWritableDatabase.do_delete_document
                             (config := debug_build)
                             (T := logged (Faulty.tables Reference.tables)) 1
                             ((after_doc1, 10%nat), []))) =
                 calls ++ [Call_cancel]).
Proof.
  assert (Hthrows :
    fst (QuartzWritableDatabase.do_delete_document (config := debug_build)
           (T := logged (Faulty.tables Reference.tables)) 1
           ((after_doc1, 10%nat), [])) = Throws Faulty.injected)
    by (vm_compute; reflexivity).
  split; [exact Hthrows |].
  destruct (QuartzWritableDatabase.do_delete_document (config := debug_build)
              (T := logged (Faulty.tables Reference.tables)) 1
              ((after_doc1, 10%nat), [])) as [r [s' log]] eqn:Hrun.
  cbn [fst snd] in *. subst r.
  exact (delete_document_call_discipline (config := debug_build)
           (Faulty.tables Reference.tables) 1 _ _ _ _ Hrun).
Defined.

(** *** Retries that lead somewhere *)

(** Attempts that find the tables overwritten use up one try each. *)
Lemma while_tries_left_after_overwrites {config : OmConfig} {TM : Type}
    (T : QuartzTableManager TM) (did : om_docid) n s s1 :
  overwritten_attempts T did n s s1 ->
  forall tries,
    QuartzDatabase.while_tries_left (n + tries) did s =
    QuartzDatabase.while_tries_left tries did s1.
Proof.
  induction 1 as [s | n s msg s1 s2 s' Hread Hreopen _ IH]; intros tries.
  - reflexivity.
  - cbn [Nat.add]. rewrite while_tries_left_step.
    rewrite (try_catch_caught _ _ _ _ _ _ Hread eq_refl).
    replace (0 <? Z.of_nat (S (n + tries)))%Z with true
      by (symmetry; apply Z.ltb_lt; lia).
    rewrite (bind_returns _ _ _ _ _ Hreopen). apply IH.
Qed.

(** X4.  When fewer than five read attempts in a row find the tables
    overwritten (each followed by a successful reopen) and the next attempt
    ends in any other way - with the document, or with an error that is no
    [OmDatabaseModifiedError] - then [get_document] ends that way at once:
    it returns that document, or raises that error without a further
    reopen or retry. *)
Theorem get_document_after_overwrites {config : OmConfig} {TM : Type}
    (T : QuartzTableManager TM) (did : om_docid) (n : nat) (s s1 s2 : TM)
    (r : outcome OmDocumentContents) :
  did <> 0 -> (n < 5)%nat ->
  overwritten_attempts T did n s s1 ->
  QuartzDatabase.read_document did s1 = (r, s2) ->
  match r with
  | Throws e => is_OmDatabaseModifiedError e = false
  | _ => True
  end ->
  QuartzDatabase.do_get_document_internal did s = (r, s2).
Proof.
  intros Hdid Hn Hattempts Hread Hr.
  unfold QuartzDatabase.do_get_document_internal.
  rewrite (nonzero_docid did Hdid).
  rewrite (bind_returns _ _ _ _ _ (Assert_holds s)).
  replace 5%nat with (n + S (4 - n))%nat by lia.
  rewrite (while_tries_left_after_overwrites T did n s s1 Hattempts).
  rewrite while_tries_left_step. unfold try_catch. rewrite Hread.
  destruct r as [document | e |]; try reflexivity.
  now rewrite Hr.
Qed.

(** The reader is two revisions behind: two attempts fail, the third
    returns [doc1] as the tables hold it. *)
Lemma get_document_after_overwrites_witness :
  1 <> 0 /\ (2 < 5)%nat
  /\ overwritten_attempts (config := debug_build)
       (Stale.tables Reference.tables) 1 2 (after_doc1, 2%nat)
       (after_doc1, 0%nat)
  /\ QuartzDatabase.do_get_document_internal (config := debug_build)
       (T := Stale.tables Reference.tables) 1 (after_doc1, 2%nat) =
     (Returns
        {| data := "hello"; keys := [(1, "a")];
           terms := [("cat", mkOmDocumentTerm "cat" 2 1 [0; 3]);
                     ("dog", mkOmDocumentTerm "dog" 1 1 [1])] |},
      (after_doc1, 0%nat)).
Proof.
  assert (Hdid : (1 : N) <> 0) by discriminate.
  assert (Hn : (2 < 5)%nat) by lia.
  assert (Hattempts :
    overwritten_attempts (config := debug_build)
      (Stale.tables Reference.tables) 1 2 (after_doc1, 2%nat)
      (after_doc1, 0%nat)).
  { apply (one_more_attempt _ _ 1 _ "Db block overwritten"
             (after_doc1, 2%nat) (after_doc1, 1%nat));
      [reflexivity | reflexivity |].
    apply (one_more_attempt _ _ 0 _ "Db block overwritten"
             (after_doc1, 1%nat) (after_doc1, 0%nat));
      [reflexivity | reflexivity |].
    apply no_attempt. }
  split; [exact Hdid | split; [exact Hn | split; [exact Hattempts |]]].
  apply (get_document_after_overwrites (config := debug_build)
           (Stale.tables Reference.tables) 1 2 _ _ _ _ Hdid Hn Hattempts).
  - vm_compute. reflexivity.
  - exact Logic.I.
Defined.

(** X5.  When a read attempt of [get_document] finds the tables overwritten
    and the reopen that follows raises an error, that error - not the
    [OmDatabaseModifiedError] - is what [get_document] raises, and nothing
    is retried. *)
Theorem get_document_reopen_fails {config : OmConfig} {TM : Type}
    (T : QuartzTableManager TM) (did : om_docid) (n : nat)
    (s s1 s2 s3 : TM) (msg : string) (e : OmError) :
  did <> 0 -> (n < 5)%nat ->
  overwritten_attempts T did n s s1 ->
  QuartzDatabase.read_document did s1 =
    (Throws (OmDatabaseModifiedError msg), s2) ->
  reopen_tables_because_overwritten s2 = (Throws e, s3) ->
  QuartzDatabase.do_get_document_internal did s = (Throws e, s3).
Proof.
  intros Hdid Hn Hattempts Hread Hreopen.
  unfold QuartzDatabase.do_get_document_internal.
  rewrite (nonzero_docid did Hdid).
  rewrite (bind_returns _ _ _ _ _ (Assert_holds s)).
  replace 5%nat with (n + S (4 - n))%nat by lia.
  rewrite (while_tries_left_after_overwrites T did n s s1 Hattempts).
  rewrite while_tries_left_step.
  rewrite (try_catch_caught _ _ _ _ _ _ Hread eq_refl).
  replace (0 <? Z.of_nat (S (4 - n)))%Z with true
    by (symmetry; apply Z.ltb_lt; lia).
  now apply bind_throws.
Qed.

(** The record read finds the tables overwritten and uses up the budget of
    the faulty layer; the reopen is the call that fails. *)
Lemma get_document_reopen_fails_witness :
  1 <> 0 /\ (0 < 5)%nat
  /\ QuartzDatabase.do_get_document_internal (config := debug_build)
       (T := Faulty.tables (Stale.tables Reference.tables)) 1
       ((after_doc1, 1%nat), 1%nat) =
     (Throws Faulty.injected, ((after_doc1, 1%nat), 0%nat)).
Proof.
  assert (Hdid : (1 : N) <> 0) by discriminate.
  assert (Hn : (0 < 5)%nat) by lia.
  split; [exact Hdid | split; [exact Hn |]].
  apply (get_document_reopen_fails (config := debug_build)
           (Faulty.tables (Stale.tables Reference.tables)) 1 0
           ((after_doc1, 1%nat), 1%nat) ((after_doc1, 1%nat), 1%nat)
           ((after_doc1, 1%nat), 0%nat) ((after_doc1, 1%nat), 0%nat)
           "Db block overwritten" Faulty.injected Hdid Hn).
  - apply no_attempt.
  - reflexivity.
  - reflexivity.
Defined.

(** *** Reads leave the tables alone *)

(** When [get_document] throws, [delete_document] throws the same. *)
Lemma delete_document_read_throws {config : OmConfig} {TM : Type}
    {T : QuartzTableManager TM} (did : om_docid) (s s' : TM) (e : OmError) :
  QuartzDatabase.do_get_document_internal did s = (Throws e, s') ->
  QuartzWritableDatabase.do_delete_document did s = (Throws e, s').
Proof.
  intros Hget.
  unfold QuartzWritableDatabase.do_delete_document, OmLockSentry,
    QuartzWritableDatabase.buffered_tables_nonnull.
  unfold QuartzDatabase.do_get_document_internal in Hget.
  apply bind_throws_inv in Hget as [Hassert | ([] & s0 & Hassert & Hloop)].
  - now apply bind_throws.
  - destruct (Assert_returns_inv _ _ _ Hassert) as [-> _].
    rewrite (bind_returns _ _ _ _ _ Hassert).
    rewrite (bind_returns _ _ _ _ _ (Assert_holds _)).
    apply bind_throws. unfold QuartzDatabase.do_get_document_internal.
    now rewrite (bind_returns _ _ _ _ _ Hassert).
Qed.

(** X6.  Over a table layer whose read operations, the reopen included,
    leave the tables as they are, every read entry point leaves the tables
    as they are, however it ends; and a [delete_document] that fails while
    it materialises the document leaves them as they are too: what earlier
    calls buffered is still buffered. *)
Theorem reads_leave_tables_unchanged {config : OmConfig} {TM : Type}
    (T : QuartzTableManager TM) (did : om_docid) (name : om_termname)
    (s : TM) :
  reads_change_nothing T ->
  state_after (QuartzDatabase.do_get_document did) s = s
  /\ state_after (QuartzWritableDatabase.do_get_document did) s = s
  /\ state_after QuartzDatabase.get_doccount s = s
  /\ state_after QuartzDatabase.get_avlength s = s
  /\ state_after (QuartzDatabase.get_termfreq name) s = s
  /\ state_after (QuartzDatabase.term_exists name) s = s
  /\ (forall e s',
        QuartzDatabase.do_get_document_internal did s = (Throws e, s') ->
        QuartzWritableDatabase.do_delete_document did s = (Throws e, s)).
Proof.
  intros Hreads. specialize (Hreads s).
  assert (Hget : state_after (QuartzDatabase.do_get_document_internal did) s
                 = s)
    by exact (do_get_document_internal_preserves T _ Hreads did s eq_refl).
  repeat apply conj.
  - exact Hget.
  - exact Hget.
  - exact (get_doccount_preserves T _ Hreads s eq_refl).
  - exact (get_avlength_preserves T _ Hreads s eq_refl).
  - exact (get_termfreq_preserves T _ Hreads name s eq_refl).
  - exact (term_exists_preserves T _ Hreads name s eq_refl).
  - intros e s' Hthrows.
    rewrite (delete_document_read_throws did s s' e Hthrows).
    unfold state_after in Hget. rewrite Hthrows in Hget. cbn in Hget.
    now subst s'.
Qed.

(** The reference tables are such a layer. *)
Lemma reference_reads_change_nothing :
  reads_change_nothing Reference.tables.
Proof.
  intros s0. split; intros; intros s ->; destruct s0 as [disk view];
    unfold state_after; cbn;
    unfold Reference.on_buffered, Reference.get_record,
      Reference.new_termlist; cbn;
    repeat case_match; simplify_eq; reflexivity.
Qed.

Lemma reads_leave_tables_unchanged_witness :
  reads_change_nothing Reference.tables
  /\ state_after
       (QuartzDatabase.do_get_document (config := debug_build)
          (T := Reference.tables) 1) after_doc1 = after_doc1
  /\ QuartzWritableDatabase.do_delete_document (config := debug_build)
       (T := Reference.tables) 7 after_doc1 =
     (Throws (OmDocNotFoundError "record not found"), after_doc1).
Proof.
  split; [exact reference_reads_change_nothing |].
  destruct (reads_leave_tables_unchanged (config := debug_build)
              Reference.tables 1 "cat" after_doc1
              reference_reads_change_nothing) as (Hget & _).
  split; [exact Hget |].
  destruct (reads_leave_tables_unchanged (config := debug_build)
              Reference.tables 7 "cat" after_doc1
              reference_reads_change_nothing) as (_ & _ & _ & _ & _ & _ & Hdel).
  apply (Hdel _ after_doc1). vm_compute. reflexivity.
Defined.

(** *** The term map of a document read from the tables *)

Lemma string_compare_lt_trans (a b c : string) :
  String.compare a b = Lt -> String.compare b c = Lt ->
  String.compare a c = Lt.
Proof.
  revert b c. induction a as [| x a IH]; intros [| y b] [| z c]; cbn;
    try discriminate; try reflexivity.
  destruct (Ascii.compare x y) eqn:Hxy; try discriminate;
    destruct (Ascii.compare y z) eqn:Hyz; try discriminate; intros Hab Hbc.
  - apply Ascii.compare_eq_iff in Hxy, Hyz. subst y z.
    unfold Ascii.compare. rewrite N.compare_refl.
    now apply (IH b c).
  - apply Ascii.compare_eq_iff in Hxy. subst y. now rewrite Hyz.
  - apply Ascii.compare_eq_iff in Hyz. subst z. now rewrite Hxy.
  - unfold Ascii.compare in *. rewrite N.compare_lt_iff in Hxy, Hyz.
    replace (Ascii.N_of_ascii x ?= Ascii.N_of_ascii z) with Lt; [reflexivity |].
    symmetry. apply N.compare_lt_iff. lia.
Qed.

Lemma string_compare_gt_lt (a b : string) :
  String.compare a b = Gt -> String.compare b a = Lt.
Proof. intros Hab. rewrite String.compare_antisym, Hab. reflexivity. Qed.

Lemma terms_insert_Forall (P : om_termname * OmDocumentTerm -> Prop) k v m :
  P (k, v) -> Forall P m -> Forall P (terms_insert k v m).
Proof.
  intros Hkv Hm. induction Hm as [| [k' v'] rest Hhead Hrest IH]; cbn.
  - now constructor.
  - destruct (String.compare k k').
    + now constructor.
    + constructor; [exact Hkv | now constructor].
    + now constructor.
Qed.

(** [std::map::insert] keeps the map a map. *)
Lemma terms_insert_wf k v m :
  tname v = k -> terms_wf m -> terms_wf (terms_insert k v m).
Proof.
  intros Hname [Hsorted Hnames]. split.
  - clear Hnames. induction Hsorted as [| [k' v'] rest Hrest IH Hhead]; cbn.
    + repeat constructor.
    + destruct (String.compare k k') eqn:Hcompare.
      * now constructor.
      * constructor; [now constructor |].
        constructor; [exact Hcompare |].
        eapply Forall_impl; [exact Hhead |].
        intros x Hx. unfold name_lt in *. cbn in *.
        now apply (string_compare_lt_trans k k' (fst x)).
      * constructor; [exact IH |].
        apply terms_insert_Forall; [| exact Hhead].
        unfold name_lt. cbn. now apply string_compare_gt_lt.
  - apply terms_insert_Forall; [exact Hname | exact Hnames].
Qed.

(** The names in the map after an insert: the new one and the old ones. *)
Lemma terms_insert_names k v m name :
  In name (map fst (terms_insert k v m)) <->
  name = k \/ In name (map fst m).
Proof.
  induction m as [| [k' v'] rest IH]; cbn.
  - intuition.
  - destruct (String.compare k k') eqn:Hcompare; cbn.
    + apply String.compare_eq_iff in Hcompare. subst k'. intuition.
    + intuition.
    + rewrite IH. intuition.
Qed.

Section DocumentRead.
Context {config : OmConfig} {TM : Type} {T : QuartzTableManager TM}.

Lemma read_terms_returns did entries :
  forall document s document' s',
    QuartzDatabase.read_terms did entries document s =
      (Returns document', s') ->
    data document' = data document
    /\ keys document' = keys document
    /\ (terms_wf (terms document) -> terms_wf (terms document'))
    /\ (forall name,
          In name (map fst (terms document')) <->
          In name (map fst (terms document)) \/ In name (map fst entries)).
Proof.
  induction entries as [| [name0 w] rest IH]; intros document s document' s';
    cbn [QuartzDatabase.read_terms]; intros Hrun.
  - injection Hrun as <- <-. cbn. intuition.
  - apply bind_returns_inv in Hrun as (tf & s1 & _ & Hrun).
    apply bind_returns_inv in Hrun as (read & s2 & _ & Hrun).
    apply IH in Hrun as (Hdata & Hkeys & Hwf & Hnames). cbn in *.
    split; [exact Hdata | split; [exact Hkeys | split]].
    + intros Hdocument. apply Hwf. now apply terms_insert_wf.
    + intros name. rewrite Hnames, terms_insert_names. intuition.
Qed.

(** A loop that returned a document got it from one of its attempts. *)
Lemma while_tries_left_returns n did :
  forall s document s',
    QuartzDatabase.while_tries_left n did s = (Returns document, s') ->
    exists s0, QuartzDatabase.read_document did s0 = (Returns document, s').
Proof.
  induction n as [| n IH]; intros s document s' Hrun.
  - discriminate Hrun.
  - rewrite while_tries_left_step in Hrun. unfold try_catch in Hrun.
    destruct (QuartzDatabase.read_document did s)
      as [[document0 | e |] s1] eqn:Hread.
    + injection Hrun as <- <-. now exists s.
    + destruct (is_OmDatabaseModifiedError e); [| discriminate].
      destruct (0 <? Z.of_nat (S n))%Z; [| discriminate].
      apply bind_returns_inv in Hrun as ([] & s2 & _ & Hrun).
      now apply IH in Hrun.
    + discriminate.
Qed.

End DocumentRead.

(** *** Adding a document to the reference tables and reading it back *)

(** A loop whose passes each update the buffered view updates it pass by
    pass. *)
Lemma reference_for_each {A}
    (body : A -> M Reference.QuartzBufferedTableManager unit)
    (step : A -> Reference.QuartzTables -> Reference.QuartzTables) :
  (forall x disk t,
     body x (Reference.mkQuartzBufferedTableManager disk t) =
     (Returns tt, Reference.mkQuartzBufferedTableManager disk (step x t))) ->
  forall l disk t,
    for_each l body (Reference.mkQuartzBufferedTableManager disk t) =
    (Returns tt,
     Reference.mkQuartzBufferedTableManager disk
       (fold_left (fun t' x => step x t') l t)).
Proof.
  intros Hbody l. induction l as [| x rest IH]; intros disk t;
    cbn [for_each fold_left].
  - reflexivity.
  - rewrite (bind_returns _ _ _ _ _ (Hbody x disk t)). apply IH.
Qed.

(** What [do_add_document] does to the reference tables. *)
Lemma reference_add_document_state {config : OmConfig}
    (document : OmDocumentContents) (disk t : Reference.QuartzTables) :
  QuartzWritableDatabase.do_add_document (T := Reference.tables) document
    (Reference.mkQuartzBufferedTableManager disk t) =
  (Returns (Reference.lastdocid t + 1),
   Reference.mkQuartzBufferedTableManager disk (tables_after_add document t)).
Proof.
  unfold QuartzWritableDatabase.do_add_document, OmLockSentry,
    QuartzWritableDatabase.buffered_tables_nonnull.
  rewrite (bind_returns _ _ _ _ _ (Assert_holds _)).
  apply try_catch_returns.
  unfold QuartzWritableDatabase.add_document_steps.
  erewrite bind_returns; [| reflexivity].
  erewrite bind_returns.
  2: { rewrite nonzero_docid; [apply Assert_holds | lia]. }
  erewrite bind_returns.
  2: { apply (reference_for_each _ (key_step (Reference.lastdocid t + 1))).
       intros key disk0 t0. reflexivity. }
  erewrite bind_returns; [| reflexivity].
  erewrite bind_returns; [| reflexivity].
  erewrite bind_returns.
  2: { apply (reference_for_each _
                (term_step (Reference.lastdocid t + 1)
                   (QuartzWritableDatabase.calculate_new_doclen document))).
       intros term disk0 t0. reflexivity. }
  reflexivity.
Qed.

(** In a sorted list, what stands before an element is below it. *)
Lemma sorted_before {A} (R : A -> A -> Prop) (l1 l2 : list A) (x : A) :
  StronglySorted R (l1 ++ x :: l2) -> Forall (fun a => R a x) l1.
Proof.
  induction l1 as [| a l1 IH]; cbn; intros Hsorted; [constructor |].
  apply StronglySorted_inv in Hsorted as [Hrest Hhead].
  constructor; [| now apply IH].
  apply Forall_app in Hhead as [_ Hhead]. now apply Forall_inv in Hhead.
Qed.

(** A key above all the keys of the map goes to its end. *)
Lemma keys_insert_last k v (m : document_keys) :
  Forall (fun a => fst a < k) m -> Reference.keys_insert k v m = m ++ [(k, v)].
Proof.
  induction 1 as [| [k' v'] rest Hhead _ IH]; cbn; [reflexivity |].
  cbn in Hhead. destruct (N.compare_spec k k') as [Heq | Hlt | Hgt];
    try lia.
  now rewrite IH.
Qed.

(** Stored key by key in ascending order, the attributes come out as they
    went in. *)
Lemma keys_insert_sorted (ks acc : document_keys) :
  keys_wf (acc ++ ks) ->
  fold_left (fun m key => Reference.keys_insert (fst key) (snd key) m) ks acc =
  acc ++ ks.
Proof.
  revert acc. induction ks as [| [k v] rest IH]; intros acc Hsorted; cbn.
  - now rewrite app_nil_r.
  - rewrite keys_insert_last by exact (sorted_before _ _ _ _ Hsorted).
    rewrite IH; rewrite <- app_assoc; [reflexivity | exact Hsorted].
Qed.

(** The attribute loop: it stores the keys under the docid and touches no
    other table. *)
Lemma key_steps_effect did (ks : document_keys) :
  forall t,
    let t' := fold_left (fun t' key => key_step did key t') ks t in
    default [] (Reference.attribute_table t' !! did) =
      fold_left (fun m key => Reference.keys_insert (fst key) (snd key) m) ks
        (default [] (Reference.attribute_table t !! did))
    /\ Reference.record_table t' = Reference.record_table t
    /\ Reference.termlist_table t' = Reference.termlist_table t
    /\ Reference.lexicon_table t' = Reference.lexicon_table t
    /\ Reference.positionlist_table t' = Reference.positionlist_table t.
Proof.
  induction ks as [| key rest IH]; intros t; cbn [fold_left].
  - cbn. repeat apply conj; reflexivity.
  - destruct (IH (key_step did key t)) as (Hattr & Hrec & Hterm & Hlex & Hpos).
    cbn zeta. rewrite Hattr, Hrec, Hterm, Hlex, Hpos.
    unfold key_step, state_after, Reference.add_attribute. cbn.
    rewrite lookup_insert_eq. cbn. repeat apply conj; reflexivity.
Qed.

(** The term loop touches neither the record table, nor the attribute
    table, nor the term-list table. *)
Lemma term_steps_frame did len (ts : document_terms) :
  forall t,
    let t' := fold_left (fun t' term => term_step did len term t') ts t in
    Reference.record_table t' = Reference.record_table t
    /\ Reference.attribute_table t' = Reference.attribute_table t
    /\ Reference.termlist_table t' = Reference.termlist_table t.
Proof.
  induction ts as [| term rest IH]; intros t; cbn [fold_left].
  - cbn. repeat apply conj; reflexivity.
  - destruct (IH (term_step did len term t)) as (Hrec & Hattr & Hterm).
    cbn zeta. rewrite Hrec, Hattr, Hterm. repeat apply conj; reflexivity.
Qed.

(** What the term loop leaves a term it does not name. *)
Lemma term_steps_other did len (ts : document_terms) name :
  ~ In name (map (fun e => tname (snd e)) ts) ->
  forall t,
    let t' := fold_left (fun t' term => term_step did len term t') ts t in
    Reference.lexicon_table t' !! name = Reference.lexicon_table t !! name
    /\ Reference.positionlist_table t' !! (did, name) =
       Reference.positionlist_table t !! (did, name).
Proof.
  induction ts as [| term rest IH]; intros Hname t; cbn [fold_left].
  - cbn. now split.
  - cbn in Hname.
    destruct (IH (fun Hin => Hname (or_intror Hin)) (term_step did len term t))
      as [Hlex Hpos].
    cbn zeta. rewrite Hlex, Hpos.
    unfold term_step, state_after. cbn.
    rewrite !lookup_insert_ne; [now split | |].
    + intros Heq. apply Hname. left. congruence.
    + intros Heq. apply Hname. now left.
Qed.

(** What the term loop leaves a term it names, when no name comes twice:
    its termfreq one up, its positions stored. *)
Lemma term_steps_effect did len (ts : document_terms) :
  NoDup (map (fun e => tname (snd e)) ts) ->
  forall t e,
    In e ts ->
    let t' := fold_left (fun t' term => term_step did len term t') ts t in
    Reference.lexicon_table t' !! tname (snd e) =
      Some (default 0 (Reference.lexicon_table t !! tname (snd e)) + 1)
    /\ Reference.positionlist_table t' !! (did, tname (snd e)) =
       Some (positions (snd e)).
Proof.
  induction ts as [| term rest IH]; intros Hnodup t e Hin; [easy |].
  cbn in Hnodup. apply NoDup_cons in Hnodup as [Hfresh Hnodup].
  rewrite list_elem_of_In in Hfresh.
  cbn [fold_left]. cbn zeta. destruct Hin as [<- | Hin].
  - destruct (term_steps_other did len rest (tname (snd term)) Hfresh
                (term_step did len term t)) as [Hlex Hpos].
    split.
    + etransitivity; [exact Hlex |].
      unfold term_step, state_after. cbn. rewrite lookup_insert_eq.
      destruct (Reference.lexicon_table t !! tname (snd term)); cbn;
        f_equal; lia.
    + etransitivity; [exact Hpos |].
      unfold term_step, state_after. cbn. apply lookup_insert_eq.
  - destruct (IH Hnodup (term_step did len term t) e Hin) as [Hlex Hpos].
    split; [| exact Hpos].
    etransitivity; [exact Hlex |].
    assert (Hother : tname (snd term) <> tname (snd e)).
    { intros Heq. apply Hfresh. rewrite Heq.
      now apply (in_map (fun x => tname (snd x))). }
    unfold term_step, state_after. cbn. now rewrite lookup_insert_ne.
Qed.

Lemma tables_after_add_facts (document : OmDocumentContents)
    (t : Reference.QuartzTables) :
  Reference.record_table (tables_after_add document t)
    !! (Reference.lastdocid t + 1) =
    Some (data document, QuartzWritableDatabase.calculate_new_doclen document)
  /\ default []
       (Reference.attribute_table (tables_after_add document t)
          !! (Reference.lastdocid t + 1)) =
     fold_left (fun m key => Reference.keys_insert (fst key) (snd key) m)
       (keys document)
       (default []
          (Reference.attribute_table t !! (Reference.lastdocid t + 1)))
  /\ Reference.termlist_table (tables_after_add document t)
       !! (Reference.lastdocid t + 1) =
     Some (QuartzWritableDatabase.calculate_new_doclen document,
           map (fun e => (tname (snd e), wdf (snd e))) (terms document)).
Proof.
  unfold tables_after_add. cbn zeta.
  set (did := Reference.lastdocid t + 1).
  set (len := QuartzWritableDatabase.calculate_new_doclen document).
  set (t1 := state_after (Reference.add_record (data document) len) t).
  set (t2 := fold_left (fun t' key => key_step did key t') (keys document) t1).
  set (t4 := state_after (Reference.modify_total_length 0 len)
               (state_after
                  (Reference.set_entries did (terms document) len false) t2)).
  destruct (term_steps_frame did len (terms document) t4)
    as (Hrec & Hattr & Hterm).
  destruct (key_steps_effect did (keys document) t1)
    as (Hkeys & Hrec2 & _).
  cbn zeta in Hrec, Hattr, Hterm, Hkeys, Hrec2. fold t2 in Hkeys, Hrec2.
  split; [| split].
  - etransitivity; [exact (f_equal (fun m => m !! did) Hrec) |].
    change (Reference.record_table t4) with (Reference.record_table t2).
    etransitivity; [exact (f_equal (fun m => m !! did) Hrec2) |].
    apply lookup_insert_eq.
  - etransitivity;
      [exact (f_equal (fun m => default [] (m !! did)) Hattr) |].
    etransitivity; [exact Hkeys |]. reflexivity.
  - etransitivity; [exact (f_equal (fun m => m !! did) Hterm) |].
    apply lookup_insert_eq.
Qed.

Lemma push_positions_all (read into : list om_termpos) :
  QuartzDatabase.push_positions read into = into ++ read.
Proof.
  unfold QuartzDatabase.push_positions. revert into.
  induction read as [| p rest IH]; intros into; cbn.
  - now rewrite app_nil_r.
  - rewrite IH, <- app_assoc. reflexivity.
Qed.

(** A name above all the names of the map goes to its end. *)
Lemma terms_insert_last k v (m : document_terms) :
  Forall (fun a => String.compare (fst a) k = Lt) m ->
  terms_insert k v m = m ++ [(k, v)].
Proof.
  induction 1 as [| [k' v'] rest Hhead _ IH]; cbn; [reflexivity |].
  cbn in Hhead. rewrite String.compare_antisym, Hhead. cbn.
  now rewrite IH.
Qed.

(** A well-formed term map names no term twice. *)
Lemma terms_wf_nodup (ts : document_terms) :
  terms_wf ts -> NoDup (map (fun e => tname (snd e)) ts).
Proof.
  intros [Hsorted Hnames].
  induction Hsorted as [| e rest Hrest IH Hhead]; cbn; [constructor |].
  apply Forall_cons in Hnames as [Hname Hnames].
  apply NoDup_cons. split; [| now apply IH].
  rewrite list_elem_of_In, in_map_iff. intros (x & Hsame & Hin).
  rewrite Forall_forall in Hhead, Hnames.
  apply list_elem_of_In in Hin.
  specialize (Hhead x Hin). specialize (Hnames x Hin).
  unfold name_lt in Hhead. cbn in Hnames.
  rewrite <- Hname, <- Hnames, Hsame in Hhead.
  pose proof (String.compare_antisym (tname (snd e)) (tname (snd e)))
    as Hself.
  rewrite Hhead in Hself. discriminate Hself.
Qed.

(** Reading the terms back from tables that hold the positions of each:
    the map is rebuilt name by name, in the order of the term list. *)
Lemma reference_read_terms {config : OmConfig} (did : om_docid)
    (disk t : Reference.QuartzTables) (d : string) (ks : document_keys)
    (ts : document_terms) :
  forall acc,
    StronglySorted name_lt ts ->
    Forall (fun e => tname (snd e) = fst e) ts ->
    Forall (fun a => Forall (fun b => String.compare (fst a) (fst b) = Lt) ts)
      acc ->
    Forall (fun e =>
              Reference.positionlist_table t !! (did, tname (snd e)) =
              Some (positions (snd e))) ts ->
    QuartzDatabase.read_terms (T := Reference.tables) did
      (map (fun e => (tname (snd e), wdf (snd e))) ts)
      {| data := d; keys := ks; terms := acc |}
      (Reference.mkQuartzBufferedTableManager disk t) =
    (Returns
       {| data := d; keys := ks;
          terms :=
            acc ++
            map (fun e =>
                   (fst e,
                    {| tname := tname (snd e);
                       wdf := wdf (snd e);
                       termfreq :=
                         default 0
                           (Reference.lexicon_table t !! tname (snd e));
                       positions := positions (snd e) |})) ts |},
     Reference.mkQuartzBufferedTableManager disk t).
Proof.
  induction ts as [| e rest IH]; intros acc Hsorted Hnames Hacc Hpos;
    cbn [map QuartzDatabase.read_terms].
  - now rewrite app_nil_r.
  - apply StronglySorted_inv in Hsorted as [Hsorted Hhead].
    apply Forall_cons in Hnames as [Hname Hnames].
    apply Forall_cons in Hpos as [Hpositions Hpos].
    erewrite bind_returns; [| reflexivity].
    erewrite bind_returns; [| reflexivity].
    cbn [fst snd Reference.buffered]. cbn zeta.
    unfold Reference.read_data. cbn [fst]. rewrite Hpositions.
    cbn [default from_option id]. rewrite push_positions_all. cbn [app].
    cbn [tname terms data keys].
    rewrite terms_insert_last.
    2: { eapply Forall_impl; [exact Hacc |]. intros a Ha.
         apply Forall_inv in Ha. now rewrite Hname. }
    rewrite IH; [| exact Hsorted | exact Hnames | | exact Hpos].
    + rewrite <- app_assoc. cbn [app]. now rewrite Hname.
    + apply Forall_app. split.
      * eapply Forall_impl; [exact Hacc |]. intros a Ha.
        now apply Forall_inv_tail in Ha.
      * constructor; [| constructor]. cbn [fst]. rewrite Hname. exact Hhead.
Qed.

(** An operation on the buffered view, run through the manager. *)
Lemma on_buffered_run {A} (op : M Reference.QuartzTables A)
    (disk t t' : Reference.QuartzTables) (r : outcome A) :
  op t = (r, t') ->
  Reference.on_buffered op (Reference.mkQuartzBufferedTableManager disk t) =
  (r, Reference.mkQuartzBufferedTableManager disk t').
Proof.
  intros Hop. unfold Reference.on_buffered.
  cbn [Reference.buffered Reference.on_disk]. now rewrite Hop.
Qed.

(** The reads of the reference tables, when they find what they look for. *)
Lemma reference_get_record_found (disk t : Reference.QuartzTables)
    (did : om_docid) (d : string) (len : quartz_doclen_t) :
  Reference.record_table t !! did = Some (d, len) ->
  QuartzRecordManager_get_record (QuartzTableManager := Reference.tables) did
    (Reference.mkQuartzBufferedTableManager disk t) =
  (Returns d, Reference.mkQuartzBufferedTableManager disk t).
Proof.
  intros Hfound. apply (on_buffered_run (Reference.get_record did)).
  unfold Reference.get_record, quartz_doclen_t in *. now rewrite Hfound.
Qed.

Lemma reference_get_all_attributes_found (disk t : Reference.QuartzTables)
    (did : om_docid) (ks : document_keys) :
  default [] (Reference.attribute_table t !! did) = ks ->
  QuartzAttributesManager_get_all_attributes
    (QuartzTableManager := Reference.tables) did
    (Reference.mkQuartzBufferedTableManager disk t) =
  (Returns ks, Reference.mkQuartzBufferedTableManager disk t).
Proof. intros <-. reflexivity. Qed.

Lemma reference_termlist_found (disk t : Reference.QuartzTables)
    (did : om_docid) (n : om_doccount) (len : quartz_doclen_t)
    (entries : list (om_termname * om_termcount)) :
  Reference.termlist_table t !! did = Some (len, entries) ->
  QuartzTermList_new (QuartzTableManager := Reference.tables) did n
    (Reference.mkQuartzBufferedTableManager disk t) =
  (Returns (mkQuartzTermList len entries),
   Reference.mkQuartzBufferedTableManager disk t).
Proof.
  intros Hfound. apply (on_buffered_run (Reference.new_termlist did n)).
  unfold Reference.new_termlist, quartz_doclen_t, om_termname,
    om_termcount in *.
  now rewrite Hfound.
Qed.

(** X8.  Over the reference tables: adding a document whose keys and terms
    are well-formed maps, under a docid that holds no attributes yet,
    succeeds, and [get_document] of the new docid in the same session then
    returns that document - the same data, keys, term names, wdfs and
    positions - with the termfreq of each term set to what the lexicon now
    holds, which is one more than before the add.  Nothing is committed by
    either call. *)
Theorem add_then_get_document {config : OmConfig}
    (document : OmDocumentContents)
    (s : Reference.QuartzBufferedTableManager) :
  terms_wf (terms document) -> keys_wf (keys document) ->
  Reference.attribute_table (Reference.buffered s)
    !! (Reference.lastdocid (Reference.buffered s) + 1) = None ->
  exists s',
    QuartzWritableDatabase.do_add_document (T := Reference.tables) document s =
      (Returns (Reference.lastdocid (Reference.buffered s) + 1), s')
    /\ QuartzWritableDatabase.do_get_document (T := Reference.tables)
         (Reference.lastdocid (Reference.buffered s) + 1) s' =
       (Returns
          (as_read_back (Reference.lexicon_table (Reference.buffered s'))
             document), s')
    /\ Forall (fun e =>
                 Reference.lexicon_table (Reference.buffered s')
                   !! tname (snd e) =
                 Some (default 0
                         (Reference.lexicon_table (Reference.buffered s)
                            !! tname (snd e)) + 1))
         (terms document)
    /\ Reference.on_disk s' = Reference.on_disk s.
Proof.
  destruct s as [disk t]. cbn [Reference.buffered Reference.on_disk].
  intros Hterms Hkeys Hfresh.
  exists (Reference.mkQuartzBufferedTableManager disk
            (tables_after_add document t)).
  cbn [Reference.buffered Reference.on_disk].
  destruct (tables_after_add_facts document t)
    as (Hrecord & Hattributes & Htermlist).
  assert (Hstored :
    default []
      (Reference.attribute_table (tables_after_add document t)
         !! (Reference.lastdocid t + 1)) = keys document).
  { etransitivity; [exact Hattributes |].
    etransitivity;
      [exact (f_equal
                (fun o =>
                   fold_left
                     (fun m key =>
                        Reference.keys_insert (fst key) (snd key) m)
                     (keys document) (default [] o)) Hfresh) |].
    exact (keys_insert_sorted (keys document) [] Hkeys). }
  clear Hattributes.
  assert (Heffect : forall e, In e (terms document) ->
    Reference.lexicon_table (tables_after_add document t) !! tname (snd e) =
      Some (default 0 (Reference.lexicon_table t !! tname (snd e)) + 1)
    /\ Reference.positionlist_table (tables_after_add document t)
         !! (Reference.lastdocid t + 1, tname (snd e)) =
       Some (positions (snd e))).
  { intros e He.
    destruct (term_steps_effect (Reference.lastdocid t + 1)
                (QuartzWritableDatabase.calculate_new_doclen document)
                (terms document) (terms_wf_nodup _ Hterms)
                (state_after
                   (Reference.modify_total_length 0
                      (QuartzWritableDatabase.calculate_new_doclen document))
                   (state_after
                      (Reference.set_entries (Reference.lastdocid t + 1)
                         (terms document)
                         (QuartzWritableDatabase.calculate_new_doclen
                            document) false)
                      (fold_left
                         (fun t' key =>
                            key_step (Reference.lastdocid t + 1) key t')
                         (keys document)
                         (state_after
                            (Reference.add_record (data document)
                               (QuartzWritableDatabase.calculate_new_doclen
                                  document)) t))))
                e He) as [Hlex Hpos].
    split; [| exact Hpos].
    etransitivity; [exact Hlex |].
    destruct (key_steps_effect (Reference.lastdocid t + 1) (keys document)
                (state_after
                   (Reference.add_record (data document)
                      (QuartzWritableDatabase.calculate_new_doclen document))
                   t))
      as (_ & _ & _ & Hlexicon & _).
    exact (f_equal
             (fun m => Some (default 0 (m !! tname (snd e)) + 1)) Hlexicon). }
  split; [apply reference_add_document_state | split; [| split]].
  - unfold QuartzWritableDatabase.do_get_document, OmLockSentry,
      QuartzDatabase.do_get_document_internal.
    erewrite bind_returns.
    2: { rewrite nonzero_docid; [apply Assert_holds | lia]. }
    rewrite while_tries_left_step. apply try_catch_returns.
    unfold QuartzDatabase.read_document,
      QuartzDatabase.get_doccount_internal.
    rewrite (bind_returns _ _ _ _ _
               (reference_get_record_found disk _ _ _ _ Hrecord)).
    rewrite (bind_returns _ _ _ _ _
               (reference_get_all_attributes_found disk _ _ _ Hstored)).
    erewrite bind_returns; [| reflexivity].
    erewrite bind_returns;
      [| exact (reference_termlist_found disk _ _ _ _ _ Htermlist)].
    cbn [termlist_entries].
    destruct Hterms as [Hsorted Hnames].
    assert (Hpositions :
      Forall (fun e =>
                Reference.positionlist_table (tables_after_add document t)
                  !! (Reference.lastdocid t + 1, tname (snd e)) =
                Some (positions (snd e))) (terms document)).
    { apply Forall_forall. intros e He. apply list_elem_of_In in He.
      now apply Heffect. }
    etransitivity;
      [exact (reference_read_terms (Reference.lastdocid t + 1) disk
                (tables_after_add document t)
                (data document) (keys document) (terms document) []
                Hsorted Hnames (List.Forall_nil _) Hpositions) |].
    reflexivity.
  - apply Forall_forall. intros e He. apply list_elem_of_In in He.
    now apply Heffect.
  - reflexivity.
Qed.

Lemma add_then_get_document_witness :
  terms_wf (terms doc2) /\ keys_wf (keys doc2)
  /\ Reference.attribute_table (Reference.buffered after_doc1)
       !! (Reference.lastdocid (Reference.buffered after_doc1) + 1) = None
  /\ exists s',
       QuartzWritableDatabase.do_add_document (config := debug_build)
         (T := Reference.tables) doc2 after_doc1 = (Returns 2, s')
       /\ QuartzWritableDatabase.do_get_document (config := debug_build)
            (T := Reference.tables) 2 s' =
          (Returns
             {| data := "world"; keys := [];
                terms := [("cat", mkOmDocumentTerm "cat" 1 2 [5])] |}, s').
Proof.
  assert (Hterms : terms_wf (terms doc2)).
  { split; repeat constructor. }
  assert (Hkeys : keys_wf (keys doc2)) by constructor.
  assert (Hfresh :
    Reference.attribute_table (Reference.buffered after_doc1)
      !! (Reference.lastdocid (Reference.buffered after_doc1) + 1) = None)
    by (vm_compute; reflexivity).
  split; [exact Hterms | split; [exact Hkeys | split; [exact Hfresh |]]].
  destruct (add_then_get_document (config := debug_build) doc2 after_doc1
              Hterms Hkeys Hfresh) as (s' & Hadd & Hget & Hlexicon & _).
  exists s'.
  assert (Hdid : Reference.lastdocid (Reference.buffered after_doc1) + 1 = 2)
    by (vm_compute; reflexivity).
  rewrite Hdid in Hadd, Hget.
  split; [exact Hadd |]. rewrite Hget. f_equal. f_equal.
  unfold as_read_back. cbn [terms doc2 data keys map fst snd tname wdf
                              positions].
  apply Forall_inv in Hlexicon. cbn [snd tname] in Hlexicon.
  rewrite Hlexicon.
  replace (Reference.lexicon_table (Reference.buffered after_doc1) !! "cat")
    with (Some 1) by (vm_compute; reflexivity).
  reflexivity.
Defined.

(** *** What a read attempt that returns has asked and built *)

Lemma string_compare_refl (a : string) : String.compare a a = Eq.
Proof.
  pose proof (String.compare_antisym a a) as Hanti.
  destruct (String.compare a a); [reflexivity | discriminate | discriminate].
Qed.

(** [std::map::insert] adds the pair when the key is new and changes
    nothing when it is not. *)
Lemma terms_insert_In k v m name term :
  StronglySorted name_lt m ->
  In (name, term) (terms_insert k v m) <->
  In (name, term) m \/ (name = k /\ term = v /\ ~ In k (map fst m)).
Proof.
  intros Hsorted.
  induction Hsorted as [| [k1 v1] rest Hrest IH Hhead]; cbn [terms_insert].
  - cbn. split.
    + intros [Heq | []]. injection Heq as <- <-. right. tauto.
    + intros [[] | (-> & -> & _)]. now left.
  - destruct (String.compare k k1) eqn:Hcompare.
    + apply String.compare_eq_iff in Hcompare. subst k1. split.
      * now left.
      * intros [Hin | (_ & _ & Hnew)]; [exact Hin |].
        exfalso. apply Hnew. now left.
    + assert (Hnew : ~ In k (map fst ((k1, v1) :: rest))).
      { cbn [map fst In]. intros [-> | Hin].
        - rewrite string_compare_refl in Hcompare. discriminate.
        - apply in_map_iff in Hin as (x & <- & Hx).
          apply list_elem_of_In in Hx.
          rewrite Forall_forall in Hhead. specialize (Hhead x Hx).
          unfold name_lt in Hhead. cbn [fst] in Hhead.
          pose proof (string_compare_lt_trans _ _ _ Hcompare Hhead) as Hlt.
          rewrite string_compare_refl in Hlt. discriminate. }
      split.
      * intros [Heq | Hin]; [| now left].
        injection Heq as <- <-. right. tauto.
      * intros [Hin | (-> & -> & _)]; [now right | now left].
    + assert (Hother : k1 <> k).
      { intros ->. rewrite string_compare_refl in Hcompare. discriminate. }
      cbn [In map fst]. rewrite IH. split.
      * intros [Heq | [Hin | (-> & -> & Hnew)]]; [tauto | tauto |].
        right. repeat split. intros [Heq | Hin]; [tauto | tauto].
      * intros [[Heq | Hin] | (-> & -> & Hnew)]; [tauto | tauto |].
        right. right. repeat split. intros Hin. apply Hnew. now right.
Qed.

Section ReadAttempt.
Context {config : OmConfig} {TM : Type} (T : QuartzTableManager TM).

(** The loop over the entries of the term list: two calls per entry, and the
    first entry of a name is the one that stays in the map. *)
Lemma read_terms_logged did entries :
  forall acc s log document s' log',
    terms_wf (terms acc) ->
    QuartzDatabase.read_terms (T := logged T) did entries acc (s, log) =
      (Returns document, (s', log')) ->
    exists answers,
      length answers = length entries
      /\ log' =
         log ++ flat_map
                  (fun r : TermRead =>
                     [Call_termlist_get_termfreq (fst (fst r))
                        (Returns (fst (snd r)));
                      Call_read_data did (fst (fst r))
                        (Returns (snd (snd r)))])
                  (combine entries answers)
      /\ forall name term,
           In (name, term) (terms document) <->
           In (name, term) (terms acc)
           \/ (~ In name (map fst (terms acc))
               /\ first_read name (combine entries answers) = Some term).
Proof.
  induction entries as [| [name0 w] rest IH];
    intros acc s log document s' log' Hwf Hrun;
    cbn [QuartzDatabase.read_terms] in Hrun.
  - injection Hrun as <- <- <-. exists []. cbn.
    rewrite app_nil_r. repeat split; [tauto |].
    intros [Hin | [_ Hnone]]; [exact Hin | discriminate].
  - apply bind_returns_inv in Hrun as (tf & [s1 log1] & Htf & Hrun).
    apply logging_returns_inv in Htf as [_ ->].
    apply bind_returns_inv in Hrun as (read & [s2 log2] & Hread & Hrun).
    apply logging_returns_inv in Hread as [_ ->].
    rewrite push_positions_all in Hrun. cbn [app] in Hrun.
    apply IH in Hrun as (answers & Hlength & -> & Hterms);
      [| cbn [terms]; now apply terms_insert_wf].
    exists ((tf, read) :: answers).
    cbn [combine flat_map length first_read fst snd].
    split; [now rewrite Hlength | split].
    + now rewrite <- !app_assoc.
    + intros name term. rewrite Hterms. cbn [terms].
      rewrite terms_insert_names.
      rewrite (terms_insert_In _ _ _ _ _ (proj1 Hwf)).
      destruct (String.eqb name name0) eqn:Hname.
      * apply String.eqb_eq in Hname. subst name0. split.
        -- intros [[Hin | (_ & -> & Hnew)] | [Hnew _]].
           ++ now left.
           ++ right. now split.
           ++ exfalso. apply Hnew. now left.
        -- intros [Hin | [Hnew Hsome]]; [now left; left |].
           injection Hsome as <-. left. right. now repeat split.
      * apply String.eqb_neq in Hname. split.
        -- intros [[Hin | (Heq & _)] | [Hnew Hsome]];
             [now left | now destruct Hname |].
           right. split; [| exact Hsome]. intros Hin. apply Hnew. now right.
        -- intros [Hin | [Hnew Hsome]]; [now left; left |].
           right. split; [| exact Hsome].
           intros [Heq | Hin]; [now destruct Hname | now apply Hnew].
Qed.

(** A read attempt that returns. *)
Lemma read_document_logged did s log document s' log' :
  QuartzDatabase.read_document (T := logged T) did (s, log) =
    (Returns document, (s', log')) ->
  exists doccount termlist answers,
    length answers = length (termlist_entries termlist)
    /\ log' =
       log ++ read_document_calls did (data document) (keys document)
                doccount termlist answers
    /\ terms_wf (terms document)
    /\ forall name term,
         In (name, term) (terms document) <->
         first_read name (combine (termlist_entries termlist) answers) =
         Some term.
Proof.
  unfold QuartzDatabase.read_document, QuartzDatabase.get_doccount_internal.
  intros Hrun.
  apply bind_returns_inv in Hrun as (record & [s1 log1] & Hrecord & Hrun).
  apply logging_returns_inv in Hrecord as [_ ->].
  apply bind_returns_inv in Hrun as (attributes & [s2 log2] & Hkeys & Hrun).
  apply logging_returns_inv in Hkeys as [_ ->].
  apply bind_returns_inv in Hrun as (doccount & [s3 log3] & Hcount & Hrun).
  apply logging_returns_inv in Hcount as [_ ->].
  apply bind_returns_inv in Hrun as (termlist & [s4 log4] & Hopen & Hrun).
  apply logging_returns_inv in Hopen as [_ ->].
  assert (Hempty : terms_wf []) by (split; constructor).
  pose proof (read_terms_returns _ _ _ _ _ _ Hrun)
    as (Hdata & Hattributes & Hwf & _).
  apply read_terms_logged in Hrun as (answers & Hlength & -> & Hterms);
    [| exact Hempty].
  cbn [data keys terms] in Hdata, Hattributes, Hwf, Hterms.
  exists doccount, termlist, answers.
  split; [exact Hlength | split; [| split]].
  - unfold read_document_calls. rewrite Hdata, Hattributes.
    now rewrite <- !app_assoc.
  - now apply Hwf.
  - intros name term. rewrite Hterms. cbn. tauto.
Qed.

(** A loop that returned a document got it from the last of its attempts;
    what it called before were reads. *)
Lemma while_tries_left_logged n did :
  forall s log document s' log',
    QuartzDatabase.while_tries_left (T := logged T) n did (s, log) =
      (Returns document, (s', log')) ->
    exists s0 earlier,
      forallb is_read_call earlier = true
      /\ QuartzDatabase.read_document (T := logged T) did
           (s0, log ++ earlier) = (Returns document, (s', log')).
Proof.
  induction n as [| n IH]; intros s log document s' log' Hrun.
  - discriminate Hrun.
  - rewrite while_tries_left_step in Hrun. unfold try_catch in Hrun.
    destruct (read_document_reads T did s log) as (calls & Hlog & Hcalls).
    destruct (QuartzDatabase.read_document (T := logged T) did (s, log))
      as [[document0 | e |] [s1 log1]] eqn:Hread; cbn [snd] in Hlog.
    + injection Hrun as <- <- <-. exists s, [].
      split; [reflexivity |]. now rewrite app_nil_r.
    + destruct (is_OmDatabaseModifiedError e); [| discriminate].
      destruct (0 <? Z.of_nat (S n))%Z; [| discriminate].
      apply bind_returns_inv in Hrun as ([] & [s2 log2] & Hreopen & Hrun).
      apply logging_returns_inv in Hreopen as [_ ->].
      apply IH in Hrun as (s0 & earlier & Hearlier & Hlast).
      exists s0, (calls ++ [Call_reopen_tables_because_overwritten]
                    ++ earlier).
      split.
      * rewrite !forallb_app, Hcalls, Hearlier. reflexivity.
      * subst log1. rewrite <- !app_assoc in Hlast. exact Hlast.
    + discriminate.
Qed.

(** What [get_document] has called when it returns a document, and what the
    document is made of. *)
Lemma get_document_logged did s log document s' log' :
  QuartzDatabase.do_get_document_internal (T := logged T) did (s, log) =
    (Returns document, (s', log')) ->
  exists earlier doccount termlist answers,
    forallb is_read_call earlier = true
    /\ length answers = length (termlist_entries termlist)
    /\ log' =
       log ++ earlier
       ++ read_document_calls did (data document) (keys document) doccount
            termlist answers
    /\ terms_wf (terms document)
    /\ forall name term,
         In (name, term) (terms document) <->
         first_read name (combine (termlist_entries termlist) answers) =
         Some term.
Proof.
  unfold QuartzDatabase.do_get_document_internal. intros Hrun.
  apply bind_returns_inv in Hrun as ([] & [s0 log0] & Hassert & Hrun).
  apply Assert_returns_inv in Hassert as [Heq _]. injection Heq as <- <-.
  apply while_tries_left_logged in Hrun as (s1 & earlier & Hearlier & Hrun).
  apply read_document_logged in Hrun
    as (doccount & termlist & answers & Hlength & -> & Hwf & Hterms).
  exists earlier, doccount, termlist, answers.
  rewrite <- app_assoc. auto.
Qed.

End ReadAttempt.

(** C6.  A call of [delete_document] that succeeds has first materialised
    the document through the read path of [get_document]: the last calls of
    that read are those of one attempt that returned - the record, the
    attributes, the document count, the term list of [did] and, for each of
    its entries, the termfreq and the position list - and the terms of the
    document are those of that term list, one per name.  The call has then
    made exactly these calls, in this order: for each term of that
    document, delete the posting-list entry of (term, did), delete the
    position list of (did, term) and decrement the termfreq; read the
    document count and open the term list of [did]; take its document
    length off the total length (new length 0); delete the term list;
    delete the record. *)
Theorem delete_document_protocol {config : OmConfig} {TM : Type}
    (T : QuartzTableManager TM) (did : om_docid) (s s' : TM) :
  QuartzWritableDatabase.do_delete_document (T := T) did s =
    (Returns tt, s') ->
  exists document s1 earlier doccount0 termlist0 answers doccount termlist,
    QuartzDatabase.do_get_document_internal (T := T) did s =
      (Returns document, s1)
    /\ forallb is_read_call earlier = true
    /\ length answers = length (termlist_entries termlist0)
    /\ QuartzDatabase.do_get_document_internal (T := logged T) did (s, []) =
       (Returns document,
        (s1,
         earlier
         ++ read_document_calls did (data document) (keys document)
              doccount0 termlist0 answers))
    /\ terms_wf (terms document)
    /\ (forall name term,
          In (name, term) (terms document) <->
          first_read name (combine (termlist_entries termlist0) answers) =
          Some term)
    /\ QuartzWritableDatabase.do_delete_document (T := logged T) did (s, []) =
       (Returns tt,
        (s',
         (earlier
          ++ read_document_calls did (data document) (keys document)
               doccount0 termlist0 answers)
         ++ delete_document_calls did document doccount termlist)).
Proof.
  intros Hrun.
  unfold QuartzWritableDatabase.do_delete_document, OmLockSentry in Hrun.
  apply bind_returns_inv in Hrun as ([] & s0 & Hassert & Hrun).
  pose proof (Assert_returns_inv _ _ _ Hassert) as [-> _].
  apply bind_returns_inv in Hrun as ([] & s0 & Hnonnull & Hrun).
  pose proof (Assert_returns_inv _ _ _ Hnonnull) as [-> _].
  apply bind_returns_inv in Hrun as (document & s1 & Hget & Hrun).
  apply try_cancel_returns_inv in Hrun.
  destruct (erases_run _ _ s [] _ _
              (erases_do_get_document_internal T did) Hget)
    as [log1 Hget_logged].
  destruct (erases_run _ _ s1 ([] ++ log1) _ _
              (erases_delete_document_steps T did document) Hrun)
    as [calls Hsteps_logged].
  cbn [app] in Hget_logged, Hsteps_logged.
  destruct (delete_document_steps_log T _ _ _ _ _ _ Hsteps_logged)
    as (doccount & termlist & Hcalls).
  apply app_inv_head in Hcalls. subst calls.
  destruct (get_document_logged T _ _ _ _ _ _ Hget_logged)
    as (earlier & doccount0 & termlist0 & answers & Hearlier & Hlength
        & Hlog & Hwf & Hterms).
  cbn [app] in Hlog. subst log1.
  exists document, s1, earlier, doccount0, termlist0, answers, doccount,
    termlist.
  split; [exact Hget | split; [exact Hearlier | split; [exact Hlength |]]].
  split; [exact Hget_logged | split; [exact Hwf | split; [exact Hterms |]]].
  unfold QuartzWritableDatabase.do_delete_document, OmLockSentry.
  erewrite bind_returns.
  2: { exact (Assert_elsewhere _ _ _ (s, []) Hassert). }
  erewrite bind_returns.
  2: { unfold QuartzWritableDatabase.buffered_tables_nonnull.
       apply Assert_holds. }
  rewrite (bind_returns _ _ _ _ _ Hget_logged).
  now apply try_catch_returns.
Qed.

Lemma delete_document_protocol_witness :
  QuartzWritableDatabase.do_delete_document (config := debug_build)
    (T := Reference.tables) 1 after_doc1 = (Returns tt, after_delete_doc1)
  /\ exists document s1 earlier doccount0 termlist0 answers doccount termlist,
       QuartzDatabase.do_get_document_internal (config := debug_build)
         (T := Reference.tables) 1 after_doc1 = (Returns document, s1)
       /\ forallb is_read_call earlier = true
       /\ length answers = length (termlist_entries termlist0)
       /\ QuartzDatabase.do_get_document_internal (config := debug_build)
            (T := logged Reference.tables) 1 (after_doc1, []) =
          (Returns document,
           (s1,
            earlier
            ++ read_document_calls 1 (data document) (keys document)
                 doccount0 termlist0 answers))
       /\ terms_wf (terms document)
       /\ (forall name term,
             In (name, term) (terms document) <->
             first_read name (combine (termlist_entries termlist0) answers) =
             Some term)
       /\ QuartzWritableDatabase.do_delete_document (config := debug_build)
            (T := logged Reference.tables) 1 (after_doc1, []) =
          (Returns tt,
           (after_delete_doc1,
            (earlier
             ++ read_document_calls 1 (data document) (keys document)
                  doccount0 termlist0 answers)
            ++ delete_document_calls 1 document doccount termlist)).
Proof.
  assert (Hrun : QuartzWritableDatabase.do_delete_document
            (config := debug_build) (T := Reference.tables) 1 after_doc1 =
          (Returns tt, after_delete_doc1)) by (vm_compute; reflexivity).
  split; [exact Hrun |].
  exact (delete_document_protocol (config := debug_build) Reference.tables
           1 after_doc1 after_delete_doc1 Hrun).
Defined.

(** X7.  A document that [get_document] returns comes from one read attempt,
    the last one: its data is the record that attempt read, its keys are
    the attributes it read, and its terms are a well-formed map - strictly
    ascending names, each term under its own name - that holds, for each
    name of the term list the attempt opened, the term made from the first
    entry of that name: its wdf, with the termfreq and the positions the
    tables answered for that entry.  A later entry of the same name changes
    nothing. *)
Theorem get_document_returns_a_map {config : OmConfig} {TM : Type}
    (T : QuartzTableManager TM) (did : om_docid) (s s' : TM)
    (document : OmDocumentContents) :
  QuartzDatabase.do_get_document_internal did s = (Returns document, s') ->
  terms_wf (terms document)
  /\ (exists s0 s1 s2 doccount s3 termlist s4,
        QuartzRecordManager_get_record did s0 = (Returns (data document), s1)
        /\ QuartzAttributesManager_get_all_attributes did s1 =
           (Returns (keys document), s2)
        /\ QuartzRecordManager_get_doccount s2 = (Returns doccount, s3)
        /\ QuartzTermList_new did doccount s3 = (Returns termlist, s4)
        /\ forall name,
             In name (map fst (terms document)) <->
             In name (map fst (termlist_entries termlist)))
  /\ exists earlier doccount termlist answers,
       forallb is_read_call earlier = true
       /\ length answers = length (termlist_entries termlist)
       /\ QuartzDatabase.do_get_document_internal (T := logged T) did
            (s, []) =
          (Returns document,
           (s',
            earlier
            ++ read_document_calls did (data document) (keys document)
                 doccount termlist answers))
       /\ forall name term,
            In (name, term) (terms document) <->
            first_read name (combine (termlist_entries termlist) answers) =
            Some term.
Proof.
  intros Hget. split; [| split].
  - destruct (erases_run _ _ s [] _ _
                (erases_do_get_document_internal T did) Hget)
      as [log1 Hlogged].
    now destruct (get_document_logged T _ _ _ _ _ _ Hlogged)
      as (_ & _ & _ & _ & _ & _ & _ & Hwf & _).
  - assert (Hrun := Hget).
    unfold QuartzDatabase.do_get_document_internal in Hrun.
    apply bind_returns_inv in Hrun as ([] & s_a & _ & Hrun).
    apply while_tries_left_returns in Hrun as [s0 Hread].
    unfold QuartzDatabase.read_document, QuartzDatabase.get_doccount_internal
      in Hread.
    apply bind_returns_inv in Hread as (record & s1 & Hrecord & Hread).
    apply bind_returns_inv in Hread
      as (attributes & s2 & Hattributes & Hread).
    apply bind_returns_inv in Hread as (doccount & s3 & Hdoccount & Hread).
    apply bind_returns_inv in Hread as (termlist & s4 & Htermlist & Hread).
    apply read_terms_returns in Hread as (Hdata & Hkeys & _ & Hnames).
    cbn in Hdata, Hkeys, Hnames.
    exists s0, s1, s2, doccount, s3, termlist, s4.
    rewrite Hdata, Hkeys.
    split; [exact Hrecord | split; [exact Hattributes |]].
    split; [exact Hdoccount | split; [exact Htermlist |]].
    intros name. rewrite Hnames. cbn. intuition.
  - destruct (erases_run _ _ s [] _ _
                (erases_do_get_document_internal T did) Hget)
      as [log1 Hlogged].
    cbn [app] in Hlogged.
    destruct (get_document_logged T _ _ _ _ _ _ Hlogged)
      as (earlier & doccount & termlist & answers & Hearlier & Hlength
          & Hlog & _ & Hterms).
    cbn [app] in Hlog. subst log1.
    now exists earlier, doccount, termlist, answers.
Qed.

(** The term list of docid 1 names [cat] twice, with wdf 2 and then 5: the
    document holds [cat] once, with wdf 2. *)
Lemma get_document_returns_a_map_witness :
  QuartzDatabase.do_get_document_internal (config := debug_build)
    (T := Reference.tables) 1 after_doc_dup =
    (Returns
       {| data := "dup"; keys := [];
          terms := [("cat", mkOmDocumentTerm "cat" 2 2 [7])] |},
     after_doc_dup)
  /\ terms_wf [("cat", mkOmDocumentTerm "cat" 2 2 [7])]
  /\ exists earlier doccount termlist answers,
       forallb is_read_call earlier = true
       /\ length answers = length (termlist_entries termlist)
       /\ QuartzDatabase.do_get_document_internal (config := debug_build)
            (T := logged Reference.tables) 1 (after_doc_dup, []) =
          (Returns
             {| data := "dup"; keys := [];
                terms := [("cat", mkOmDocumentTerm "cat" 2 2 [7])] |},
           (after_doc_dup,
            earlier
            ++ read_document_calls 1 "dup" [] doccount termlist answers))
       /\ forall name term,
            In (name, term) [("cat", mkOmDocumentTerm "cat" 2 2 [7])] <->
            first_read name (combine (termlist_entries termlist) answers) =
            Some term.
Proof.
  assert (Hrun :
    QuartzDatabase.do_get_document_internal (config := debug_build)
      (T := Reference.tables) 1 after_doc_dup =
    (Returns
       {| data := "dup"; keys := [];
          terms := [("cat", mkOmDocumentTerm "cat" 2 2 [7])] |},
     after_doc_dup)) by (vm_compute; reflexivity).
  split; [exact Hrun |].
  destruct (get_document_returns_a_map (config := debug_build)
              Reference.tables 1 _ _ _ Hrun) as (Hwf & _ & Hlast).
  split; [exact Hwf | exact Hlast].
Defined.

(** *** Every way [get_document] can go *)







